(** * Voucher widget: the scrape / cache / overlay pipeline

    A shallow embedding of the two voucher pages of the repository and the
    properties of their cache, overlays and refresh cycle.

    - [Philstar] is the page that scrapes article ids and resolves every
      article through a per-article detail request, with the two-month
      cache in [localStorage]  (src/unnamed/part_001).
    - [Iprice] is the page that reads the codes from a [data-clipboard-text]
      attribute and keeps an explicit list of hidden codes
      (src/unnamed/part_000). *)

From Stdlib Require Import ZArith Ascii String List Bool Lia.
From stdpp Require Import base option list gmap strings pretty.

Local Open Scope string_scope.
Local Open Scope Z_scope.

(** ** JavaScript strings and values, as far as the pages use them *)

Module Js.

(** [/[A-Za-z0-9]/] on one character. *)
Definition is_alnum (a : ascii) : bool :=
  let n := nat_of_ascii a in
  ((48 <=? n) && (n <=? 57) || (65 <=? n) && (n <=? 90)
   || (97 <=? n) && (n <=? 122))%nat.

(** [s.replace(/[^A-Za-z0-9]/g, "")]. *)
Fixpoint strip_non_alnum (s : string) : string :=
  match s with
  | EmptyString => EmptyString
  | String a s' =>
      if is_alnum a then String a (strip_non_alnum s')
      else strip_non_alnum s'
  end.

Definition lower_ascii (a : ascii) : ascii :=
  let n := nat_of_ascii a in
  if ((65 <=? n) && (n <=? 90))%nat then ascii_of_nat (n + 32) else a.

(** [s.toLowerCase()], on the letters A-Z: the pages only search the
    result for "grabfood", "grab" and "foodpanda", and no character
    outside A-Z is turned into one of their letters. *)
Fixpoint toLowerCase (s : string) : string :=
  match s with
  | EmptyString => EmptyString
  | String a s' => String (lower_ascii a) (toLowerCase s')
  end.

Definition startsWith (s p : string) : bool := String.prefix p s.

(** [s.includes(sub)]. *)
Fixpoint includes (s sub : string) : bool :=
  startsWith s sub
  || match s with
     | EmptyString => false
     | String _ s' => includes s' sub
     end.

(** A string is kept as the bytes of its UTF-8 text.  [trim] strips the
    white space and the line terminators of the language, which take
    one, two or three bytes. *)

(** U+0009 to U+000D and U+0020. *)
Definition is_space (a : ascii) : bool :=
  let n := nat_of_ascii a in
  ((9 <=? n) && (n <=? 13) || (n =? 32))%nat.

(** U+00A0. *)
Definition is_space2 (a b : ascii) : bool :=
  ((nat_of_ascii a =? 194) && (nat_of_ascii b =? 160))%nat.

(** U+1680, U+2000 to U+200A, U+2028, U+2029, U+202F, U+205F, U+3000 and
    U+FEFF. *)
Definition is_space3 (a b c : ascii) : bool :=
  let x := nat_of_ascii a in
  let y := nat_of_ascii b in
  let z := nat_of_ascii c in
  ((x =? 225) && (y =? 154) && (z =? 128)
   || (x =? 226) && (y =? 128)
      && ((128 <=? z) && (z <=? 138) || (z =? 168) || (z =? 169)
          || (z =? 175))
   || (x =? 226) && (y =? 129) && (z =? 159)
   || (x =? 227) && (y =? 128) && (z =? 128)
   || (x =? 239) && (y =? 187) && (z =? 191))%nat.

(** Drops the white space a string starts with; [sp2] and [sp3] tell the
    white space of two and three bytes. *)
Fixpoint drop_spaces (sp2 : ascii → ascii → bool)
    (sp3 : ascii → ascii → ascii → bool) (s : string) : string :=
  match s with
  | EmptyString => EmptyString
  | String a s1 =>
      if is_space a then drop_spaces sp2 sp3 s1
      else
        match s1 with
        | EmptyString => s
        | String b s2 =>
            if sp2 a b then drop_spaces sp2 sp3 s2
            else
              match s2 with
              | EmptyString => s
              | String c s3 =>
                  if sp3 a b c then drop_spaces sp2 sp3 s3 else s
              end
        end
  end.

Definition trimStart (s : string) : string :=
  drop_spaces is_space2 is_space3 s.

(** The same from the end: on the reversed string the bytes of a
    character come in reverse. *)
Definition trimEnd (s : string) : string :=
  String.rev
    (drop_spaces (fun b a => is_space2 a b) (fun c b a => is_space3 a b c)
                 (String.rev s)).

Definition trim (s : string) : string := trimEnd (trimStart s).

(** Truthiness of a string: only the empty string is falsy. *)
Definition truthy (s : string) : bool :=
  match s with EmptyString => false | _ => true end.

(** Truthiness of a value that may be [null] or [undefined]. *)
Definition truthy_opt (o : option string) : bool :=
  match o with Some s => truthy s | None => false end.

(** [a || d] where [d] is a string literal. *)
Definition or_else (o : option string) (d : string) : string :=
  match o with
  | Some s => if truthy s then s else d
  | None => d
  end.

(** [a || b] where both may be missing. *)
Definition or_opt (o p : option string) : option string :=
  if truthy_opt o then o else p.

(** [arr.includes(x)] on an array of strings. *)
Definition arr_includes (l : list string) (x : string) : bool :=
  bool_decide (x ∈ l).

(** A member of a decoded JSON answer, as a template literal sees it. *)
Inductive Member :=
| Undefined                    (* the member is missing *)
| Null
| Boolean (b : bool)
| Str (s : string)
| Converted (s : string)       (* a number, an array or an object, with
                                  the string its conversion gives *)
| Unconvertible.               (* an object or array whose conversion
                                  throws a TypeError *)

(** [`${v}`]: the conversion of [v] to a string, [None] where it
    throws. *)
Definition template (v : Member) : option string :=
  match v with
  | Undefined => Some "undefined"
  | Null => Some "null"
  | Boolean true => Some "true"
  | Boolean false => Some "false"
  | Str s => Some s
  | Converted s => Some s
  | Unconvertible => None
  end.

(** The names every object inherits from [Object.prototype].  Each names
    a function, and [__proto__] the prototype itself, so what is read
    under them is truthy. *)
Definition inherited_names : list string :=
  ["constructor"; "hasOwnProperty"; "isPrototypeOf";
   "propertyIsEnumerable"; "toLocaleString"; "toString"; "valueOf";
   "__proto__"; "__defineGetter__"; "__defineSetter__";
   "__lookupGetter__"; "__lookupSetter__"].

Definition inherited (k : string) : bool := arr_includes inherited_names k.

(** Truthiness of [obj[key]] on an object of booleans.  The map holds the
    own properties of the object; a name that is not among them is looked
    up in the prototype. *)
Definition flag (m : gmap string bool) (k : string) : bool :=
  match m !! k with Some b => b | None => inherited k end.

(** [obj[key] = b].  The own property is written or created; only for
    [__proto__], on an object that has no own property of that name, the
    assignment goes to the setter of the prototype, which ignores a
    boolean. *)
Definition assign (key : string) (b : bool) (m : gmap string bool)
    : gmap string bool :=
  if bool_decide (key = "__proto__") && bool_decide (m !! key = None)
  then m
  else <[key := b]> m.

End Js.

(** ** The JSON codec of the platform

    [JSON.stringify] and [JSON.parse] are taken with their contract: a
    value that was written is read back, and the text of an object is not
    the empty string.  [JSON_parse] answers [None] where the platform
    throws. *)

Class JSON (A : Type) := {
  JSON_stringify : A → string;
  JSON_parse : string → option A;
  JSON_parse_stringify : ∀ a, JSON_parse (JSON_stringify a) = Some a;
  JSON_stringify_truthy : ∀ a, Js.truthy (JSON_stringify a) = true
}.

(** ** The detail-fetch page (philstar coupons) *)

Module Philstar.

(** *** Data *)

Record VoucherData := {
  code : option string;            (* string | null *)
  cta : option string;
  headline : option string;
  description : option string;
  merchantName : option string
}.

(** [interface CachedVoucherData extends VoucherData]: the fields of the
    payload, an expiry in epoch milliseconds and the optional hidden
    flag. *)
Record CachedVoucherData := {
  data : VoucherData;
  expire : Z;
  hidden : option bool
}.

Record DiscountArticle := {
  a_id : string;
  a_dataType : string;
  a_title : option string;
  a_content : option string;
  a_couponCode : option string;
  a_cta : option string;
  a_headline : option string;
  a_description : option string;
  a_merchantName : option string
}.

Record CustomVoucher := {
  c_id : string;
  c_code : string;
  c_description : string;
  c_cta : string;
  c_merchantName : option string
}.

Definition CACHE_KEY : string := "grabfood-voucher-cache".
Definition CACHE_DURATION : Z := 2 * 30 * 24 * 60 * 60 * 1000.
Definition EXCLUDED_CODES : list string :=
  ["NoCodeRequired"; "NoCouponRequired"].
Definition CATEGORY_VISIBILITY_KEY : string := "voucher-category-visibility".
Definition CUSTOM_VOUCHERS_KEY : string := "grabfood-custom-vouchers".
Definition excludedCodes : list string :=
  ["NoCodeRequired"; "NoCouponRequired"].

Definition shouldExcludeCode (code : string) : bool :=
  Js.arr_includes EXCLUDED_CODES code.

(** [`${CACHE_KEY}-${articleId}`] *)
Definition cache_key (articleId : string) : string :=
  CACHE_KEY ++ "-" ++ articleId.

(** *** What the network answers *)

(** One element matched by [article[data-type="code"]]: its [id]
    attribute and the text of the first descendant matched by each of the
    three selector lists ([None] when nothing matches). *)
Record ArticleElement := {
  e_id : option string;
  e_title : option string;
  e_content : option string;
  e_cta : option string
}.

(** [data.cta], when it is neither [undefined] nor [null]: what is read
    under [heading] and under [value] (both [Undefined] on a value that
    is not an object). *)
Record CtaJson := { heading : Js.Member; value : Js.Member }.
Record MerchantJson := { name : option string }.

(** The [code] member of a detail answer.  It is the only member on which
    a string method is called, so a truthy value that is not a string is
    kept apart: [replace] is not a function there. *)
Inductive CodeField :=
| CodeFalsy                      (* undefined, null, "", 0, false *)
| CodeString (s : string)        (* a non-empty string *)
| CodeOther.                     (* truthy, not a string *)

(** A decoded detail answer; the members that are only copied are strings
    when present, as the declared shape of the endpoint has them. *)
Record DetailData := {
  d_cta : option CtaJson;        (* None: undefined or null *)
  d_code : CodeField;
  d_headline : option string;
  d_title : option string;
  d_description : option string;
  d_content : option string;
  d_merchant : option MerchantJson
}.

Inductive JsonBody :=
| Malformed                      (* response.json() rejects *)
| NotAnObject                    (* null or a primitive *)
| Object (d : DetailData).

(** A body is a text; the page reads it either through [DOMParser] and
    [querySelectorAll] or through [response.json()]. *)
Record Body := {
  articles : list ArticleElement;
  json : JsonBody
}.

Inductive Response :=
| NetworkError (message : string)        (* fetch() rejects *)
| Http (status : nat) (body : Body).

Definition ok (status : nat) : bool :=
  ((200 <=? status) && (status <=? 299))%nat.

(** What the page does to the outside: requests and timer waits. *)
Inductive Event :=
| Fetch (target : string)
| Wait (ms : Z).

(** *** State: the browser and the variables of the component *)

Record State := {
  clock : nat → Z;                      (* successive values of Date.now() *)
  network : nat → string → Response;    (* the answer to a request, by the
                                           number of earlier events *)
  localStorage : gmap string string;
  ticks : nat;                          (* calls of Date.now() so far *)
  trace : list Event;                   (* oldest first *)
  hiddenVouchers : list string;
  hiddenCategories : gmap string bool;
  customVouchers : list CustomVoucher;
  discountArticles : list DiscountArticle;
  articleIds : list string;
  voucherCodes : list string;
  isLoading : bool;
  error : option string
}.

Definition with_localStorage (f : gmap string string → gmap string string)
    (s : State) : State :=
  {| clock := clock s; network := network s;
     localStorage := f (localStorage s); ticks := ticks s; trace := trace s;
     hiddenVouchers := hiddenVouchers s;
     hiddenCategories := hiddenCategories s;
     customVouchers := customVouchers s;
     discountArticles := discountArticles s; articleIds := articleIds s;
     voucherCodes := voucherCodes s; isLoading := isLoading s;
     error := error s |}.

Definition with_ticks (n : nat) (s : State) : State :=
  {| clock := clock s; network := network s;
     localStorage := localStorage s; ticks := n; trace := trace s;
     hiddenVouchers := hiddenVouchers s;
     hiddenCategories := hiddenCategories s;
     customVouchers := customVouchers s;
     discountArticles := discountArticles s; articleIds := articleIds s;
     voucherCodes := voucherCodes s; isLoading := isLoading s;
     error := error s |}.

Definition with_trace (t : list Event) (s : State) : State :=
  {| clock := clock s; network := network s;
     localStorage := localStorage s; ticks := ticks s; trace := t;
     hiddenVouchers := hiddenVouchers s;
     hiddenCategories := hiddenCategories s;
     customVouchers := customVouchers s;
     discountArticles := discountArticles s; articleIds := articleIds s;
     voucherCodes := voucherCodes s; isLoading := isLoading s;
     error := error s |}.

Definition with_hiddenVouchers (l : list string) (s : State) : State :=
  {| clock := clock s; network := network s;
     localStorage := localStorage s; ticks := ticks s; trace := trace s;
     hiddenVouchers := l;
     hiddenCategories := hiddenCategories s;
     customVouchers := customVouchers s;
     discountArticles := discountArticles s; articleIds := articleIds s;
     voucherCodes := voucherCodes s; isLoading := isLoading s;
     error := error s |}.

Definition with_hiddenCategories (m : gmap string bool) (s : State) : State :=
  {| clock := clock s; network := network s;
     localStorage := localStorage s; ticks := ticks s; trace := trace s;
     hiddenVouchers := hiddenVouchers s;
     hiddenCategories := m;
     customVouchers := customVouchers s;
     discountArticles := discountArticles s; articleIds := articleIds s;
     voucherCodes := voucherCodes s; isLoading := isLoading s;
     error := error s |}.

Definition with_discountArticles (l : list DiscountArticle) (s : State)
    : State :=
  {| clock := clock s; network := network s;
     localStorage := localStorage s; ticks := ticks s; trace := trace s;
     hiddenVouchers := hiddenVouchers s;
     hiddenCategories := hiddenCategories s;
     customVouchers := customVouchers s;
     discountArticles := l; articleIds := articleIds s;
     voucherCodes := voucherCodes s; isLoading := isLoading s;
     error := error s |}.

Definition with_articleIds (l : list string) (s : State) : State :=
  {| clock := clock s; network := network s;
     localStorage := localStorage s; ticks := ticks s; trace := trace s;
     hiddenVouchers := hiddenVouchers s;
     hiddenCategories := hiddenCategories s;
     customVouchers := customVouchers s;
     discountArticles := discountArticles s; articleIds := l;
     voucherCodes := voucherCodes s; isLoading := isLoading s;
     error := error s |}.

Definition with_voucherCodes (l : list string) (s : State) : State :=
  {| clock := clock s; network := network s;
     localStorage := localStorage s; ticks := ticks s; trace := trace s;
     hiddenVouchers := hiddenVouchers s;
     hiddenCategories := hiddenCategories s;
     customVouchers := customVouchers s;
     discountArticles := discountArticles s; articleIds := articleIds s;
     voucherCodes := l; isLoading := isLoading s;
     error := error s |}.

Definition with_isLoading (b : bool) (s : State) : State :=
  {| clock := clock s; network := network s;
     localStorage := localStorage s; ticks := ticks s; trace := trace s;
     hiddenVouchers := hiddenVouchers s;
     hiddenCategories := hiddenCategories s;
     customVouchers := customVouchers s;
     discountArticles := discountArticles s; articleIds := articleIds s;
     voucherCodes := voucherCodes s; isLoading := b;
     error := error s |}.

Definition with_error (e : option string) (s : State) : State :=
  {| clock := clock s; network := network s;
     localStorage := localStorage s; ticks := ticks s; trace := trace s;
     hiddenVouchers := hiddenVouchers s;
     hiddenCategories := hiddenCategories s;
     customVouchers := customVouchers s;
     discountArticles := discountArticles s; articleIds := articleIds s;
     voucherCodes := voucherCodes s; isLoading := isLoading s;
     error := e |}.

(** *** The monad of the page: a computation reads and changes the state *)

Definition M (A : Type) : Type := State → A * State.

Definition ret {A} (a : A) : M A := fun s => (a, s).
Definition bind {A B} (m : M A) (k : A → M B) : M B :=
  fun s => let (a, s') := m s in k a s'.
Definition modify (f : State → State) : M unit := fun s => (tt, f s).
Definition gets {A} (f : State → A) : M A := fun s => (f s, s).

Notation "'let!' x ':=' m 'in' k" := (bind m (fun x => k))
  (at level 10, x pattern, m at level 100, k at level 200).
Notation "m ';;' k" := (bind m (fun _ => k))
  (at level 100, k at level 200, right associativity).

(** Browser primitives. *)
Definition Date_now : M Z :=
  fun s => (clock s (ticks s), with_ticks (S (ticks s)) s).
Definition getItem (key : string) : M (option string) :=
  gets (fun s => localStorage s !! key).
Definition setItem (key text : string) : M unit :=
  modify (with_localStorage (insert key text)).
Definition removeItem (key : string) : M unit :=
  modify (with_localStorage (delete key)).
Definition emit (e : Event) : M unit :=
  modify (fun s => with_trace (trace s ++ [e]) s).
(** [await fetch(proxyUrl + encodeURIComponent(target))] *)
Definition fetch (target : string) : M Response :=
  fun s => (network s (length (trace s)) target,
            with_trace (trace s ++ [Fetch target]) s).
(** [await new Promise((resolve) => setTimeout(resolve, ms))] *)
Definition sleep (ms : Z) : M unit := emit (Wait ms).

Section Page.

Context `{!JSON CachedVoucherData} `{!JSON (gmap string bool)}.

(** *** Cache management *)

Definition getCachedVoucherDataFull (articleId : string)
    : M (option CachedVoucherData) :=
  let! cached := getItem (cache_key articleId) in
  match cached with
  | None => ret None
  | Some cached =>
      if negb (Js.truthy cached) then ret None
      else
        match JSON_parse cached with
        | None => ret None                    (* caught: SyntaxError *)
        | Some parsedCache =>
            let! now := Date_now in
            if now >? expire parsedCache then
              removeItem (cache_key articleId) ;;
              ret None
            else ret (Some parsedCache)
        end
  end.

Definition getCachedVoucherData (articleId : string)
    : M (option VoucherData) :=
  let! cached := getItem (cache_key articleId) in
  match cached with
  | None => ret None
  | Some cached =>
      if negb (Js.truthy cached) then ret None
      else
        match JSON_parse cached with
        | None => ret None
        | Some parsedCache =>
            let! now := Date_now in
            if now >? expire parsedCache then
              removeItem (cache_key articleId) ;;
              ret None
            else
              ret (Some {| code := code (data parsedCache);
                           cta := cta (data parsedCache);
                           headline := headline (data parsedCache);
                           description := description (data parsedCache);
                           merchantName :=
                             merchantName (data parsedCache) |})
        end
  end.

(** [existingCache?.hidden || false] *)
Definition hidden_or_false (existingCache : option CachedVoucherData)
    : bool :=
  match existingCache with
  | Some c => match hidden c with Some b => b | None => false end
  | None => false
  end.

Definition setCachedVoucherData (articleId : string) (d : VoucherData)
    : M unit :=
  let! existingCache := getCachedVoucherDataFull articleId in
  let! now := Date_now in
  let cacheData :=
    {| data := d;
       expire := now + CACHE_DURATION;
       hidden := Some (hidden_or_false existingCache) |} in
  setItem (cache_key articleId) (JSON_stringify cacheData).

(** [Object.keys(localStorage)] filtered by the prefix, each removed. *)
Definition clearVoucherCache : M unit :=
  modify (with_localStorage
            (filter (fun kv => Js.startsWith kv.1 CACHE_KEY = false))).

(** *** Hidden vouchers *)

Definition hideVoucher (voucherId : string) : M unit :=
  let! hv := gets hiddenVouchers in
  if negb (Js.arr_includes hv voucherId) then
    let! cachedData := getCachedVoucherDataFull voucherId in
    let! cachedData :=
      match cachedData with
      | Some c => ret c
      | None =>
          let! now := Date_now in
          ret {| data := {| code := None; cta := None; headline := None;
                            description := None; merchantName := None |};
                 expire := now + CACHE_DURATION;
                 hidden := Some false |}
      end in
    let! now := Date_now in
    let updatedCache :=
      {| data := data cachedData;
         expire := now + CACHE_DURATION;
         hidden := Some true |} in
    setItem (cache_key voucherId) (JSON_stringify updatedCache) ;;
    modify (fun s => with_hiddenVouchers (hiddenVouchers s ++ [voucherId]) s)
  else ret tt.

(** *** Category visibility *)

Definition saveCategoryVisibility : M unit :=
  let! hc := gets hiddenCategories in
  setItem CATEGORY_VISIBILITY_KEY (JSON_stringify hc).

(** [hiddenCategories[key] = b] *)
Definition set_category (key : string) (b : bool) : M unit :=
  modify (fun s =>
    with_hiddenCategories (Js.assign key b (hiddenCategories s)) s).

Definition toggleCategoryVisibility (category : string) : M unit :=
  (if bool_decide (category = "grabfood")
      || bool_decide (category = "foodpanda")
   then
     let! hc := gets hiddenCategories in
     if Js.flag hc category then set_category category false
     else
       set_category category true ;;
       let otherCategory :=
         if bool_decide (category = "grabfood") then "foodpanda"
         else "grabfood" in
       set_category otherCategory false
   else
     let! hc := gets hiddenCategories in
     set_category category (negb (Js.flag hc category))) ;;
  saveCategoryVisibility.

Definition resetCategoryVisibility : M unit :=
  modify (with_hiddenCategories ∅) ;;
  removeItem CATEGORY_VISIBILITY_KEY.

(** *** The detail request *)

Definition detail_url (articleId : string) : string :=
  "https://www.philstar.com/coupons/api/offers/16/en/" ++ articleId.

Definition with_code (c : option string) (r : VoucherData) : VoucherData :=
  {| code := c; cta := cta r; headline := headline r;
     description := description r; merchantName := merchantName r |}.

(** Every statement that can throw sits in the [try] block; what is
    thrown there ends in [return null]. *)
Definition fetchVoucherCode (articleId : string) : M (option VoucherData) :=
  let! cachedData := getCachedVoucherData articleId in
  match cachedData with
  | Some cachedData => ret (Some cachedData)
  | None =>
      let! response := fetch (detail_url articleId) in
      match response with
      | NetworkError _ => ret None
      | Http status body =>
          if negb (ok status) then ret None
          else
            match json body with
            | Malformed => ret None
            | NotAnObject => ret None          (* data.cta.heading *)
            | Object d =>
                match d_cta d with
                | None => ret None             (* data.cta.heading *)
                | Some c =>
                    match Js.template (heading c), Js.template (value c)
                    with
                    | Some h, Some v =>
                        let combinedCta := Js.trim (h ++ " " ++ v) in
                        let result :=
                          {| code := None;
                             cta := Some combinedCta;
                             headline :=
                               Some (Js.or_else
                                       (Js.or_opt (d_headline d)
                                                  (d_title d))
                                       "No headline available");
                             description :=
                               Some (Js.or_else
                                       (Js.or_opt (d_description d)
                                                  (d_content d))
                                       "No description available");
                             merchantName :=
                               Some (Js.or_else
                                       (d_merchant d ≫= name)
                                       "Unknown merchant") |} in
                        match d_code d with
                        | CodeOther => ret None    (* data.code.replace *)
                        | CodeFalsy =>
                            setCachedVoucherData articleId result ;;
                            ret (Some result)
                        | CodeString s =>
                            let result :=
                              if Js.truthy s then
                                let cleanCode := Js.strip_non_alnum s in
                                if negb (shouldExcludeCode cleanCode)
                                then with_code (Some cleanCode) result
                                else result
                              else result in
                            setCachedVoucherData articleId result ;;
                            ret (Some result)
                        end
                    | _, _ => ret None         (* the template throws *)
                    end
                end
            end
      end
  end.

(** *** The refresh cycle *)

Definition targetUrls : list string :=
  ["https://www.philstar.com/coupons/grabfood";
   "https://www.philstar.com/coupons/foodpanda"].

(** The body of [discountElements.forEach]: the selector fixes
    [data-type] to ["code"]. *)
Definition extract_article (article : ArticleElement)
    : option DiscountArticle :=
  let rawId := Js.or_else (e_id article) "" in
  let id := Js.strip_non_alnum rawId in
  let dataType := "code" in
  if Js.truthy id && bool_decide (dataType = "code") then
    Some {| a_id := id; a_dataType := dataType;
            a_title :=
              Some (Js.or_else (Js.trim <$> e_title article)
                               "No title found");
            a_content :=
              Some (Js.or_else (Js.trim <$> e_content article)
                               "No description found");
            a_couponCode := None;
            a_cta :=
              Some (Js.or_else (Js.trim <$> e_cta article) "View Offer");
            a_headline := None; a_description := None;
            a_merchantName := None |}
  else None.

(** The loop over the target pages.  [inl message] is the exception
    that leaves the loop for the handler of [fetchGrabFoodVouchers]. *)
Fixpoint fetch_pages (urls : list string)
    (extractedArticles : list DiscountArticle) (extractedIds : list string)
    : M (string + list DiscountArticle * list string) :=
  match urls with
  | [] => ret (inr (extractedArticles, extractedIds))
  | targetUrl :: rest =>
      let! response := fetch targetUrl in
      match response with
      | NetworkError message => ret (inl message)
      | Http status body =>
          if negb (ok status) then
            fetch_pages rest extractedArticles extractedIds   (* continue *)
          else
            let found := omap extract_article (articles body) in
            fetch_pages rest (extractedArticles ++ found)
                        (extractedIds ++ (a_id <$> found))
      end
  end.

(** The five assignments to [discountArticles[i]]. *)
Definition splice (d : VoucherData) (a : DiscountArticle)
    : DiscountArticle :=
  {| a_id := a_id a; a_dataType := a_dataType a; a_title := a_title a;
     a_content := a_content a;
     a_couponCode := code d; a_cta := cta d; a_headline := headline d;
     a_description := description d; a_merchantName := merchantName d |}.

Definition update_article (i : nat) (d : VoucherData) : M unit :=
  modify (fun s =>
    with_discountArticles (alter (splice d) i (discountArticles s)) s).

(** One turn of the progressive loop. *)
Definition resolve_article (i : nat) (article : DiscountArticle) : M unit :=
  let! cachedData := getCachedVoucherData (a_id article) in
  match cachedData with
  | Some cachedData =>
      if Js.truthy_opt (code cachedData) then update_article i cachedData
      else ret tt
  | None =>
      let! voucherData := fetchVoucherCode (a_id article) in
      match voucherData with
      | Some voucherData =>
          if Js.truthy_opt (code voucherData)
          then update_article i voucherData
          else ret tt
      | None => ret tt
      end ;;
      sleep 500
  end.

Fixpoint resolve_details (i : nat) (extractedArticles : list DiscountArticle)
    : M unit :=
  match extractedArticles with
  | [] => ret tt
  | article :: rest =>
      resolve_article i article ;;
      resolve_details (S i) rest
  end.

Definition fetchGrabFoodVouchers : M unit :=
  modify (with_isLoading true) ;;
  modify (with_error None) ;;
  let! pages := fetch_pages targetUrls [] [] in
  match pages with
  | inl message => modify (with_error (Some message))
  | inr (extractedArticles, extractedIds) =>
      modify (with_discountArticles extractedArticles) ;;
      modify (with_articleIds extractedIds) ;;
      modify (with_voucherCodes []) ;;
      modify (with_discountArticles extractedArticles) ;;
      resolve_details 0 extractedArticles
  end ;;
  modify (with_isLoading false).

Definition forceRefresh : M unit :=
  clearVoucherCache ;;
  resetCategoryVisibility ;;
  fetchGrabFoodVouchers.

End Page.

(** *** Aggregation: the reactive declarations and the card list *)

(** [name?.toLowerCase().includes(sub)], falsy when the name is missing. *)
Definition merchant_includes (merchantName : option string) (sub : string)
    : bool :=
  match merchantName with
  | Some n => Js.includes (Js.toLowerCase n) sub
  | None => false
  end.

Definition category_visible (hiddenCategories : gmap string bool)
    (merchantName : option string) : bool :=
  if merchant_includes merchantName "grabfood"
     || merchant_includes merchantName "grab"
  then negb (Js.flag hiddenCategories "grabfood")
  else if merchant_includes merchantName "foodpanda"
  then negb (Js.flag hiddenCategories "foodpanda")
  else true.

Definition filteredDiscountArticles (discountArticles : list DiscountArticle)
    (hiddenVouchers : list string) : list DiscountArticle :=
  List.filter
    (fun article =>
       negb (Js.arr_includes excludedCodes
               (Js.or_else (a_couponCode article) ""))
       && negb (Js.arr_includes hiddenVouchers
                  (Js.or_else (Some (a_id article)) "")))
    discountArticles.

(** An element of [combinedVouchers]: the spread source object together
    with [isCustom]; [voucherCode] is computed from the source. *)
Inductive Combined :=
| Custom (voucher : CustomVoucher)
| Scraped (article : DiscountArticle).

Definition isCustom (v : Combined) : bool :=
  match v with Custom _ => true | Scraped _ => false end.

Definition voucherCode (v : Combined) : option string :=
  match v with
  | Custom voucher => Some (c_code voucher)
  | Scraped article => a_couponCode article
  end.

Definition combinedVouchers (customVouchers : list CustomVoucher)
    (discountArticles : list DiscountArticle)
    (hiddenCategories : gmap string bool) (hiddenVouchers : list string)
    : list Combined :=
  List.map Custom
    (List.filter
       (fun voucher => category_visible hiddenCategories (c_merchantName voucher))
       customVouchers)
  ++ List.map Scraped
    (List.filter
       (fun article => category_visible hiddenCategories (a_merchantName article))
       (filteredDiscountArticles discountArticles hiddenVouchers)).

(** [{#each combinedVouchers as voucher} {#if voucher.voucherCode}]: the
    cards that show a code with its copy button. *)
Definition cards (combined : list Combined) : list Combined :=
  List.filter (fun v => Js.truthy_opt (voucherCode v)) combined.

End Philstar.

(** ** The attribute-scraping page (iprice) *)

Module Iprice.

Record DiscountArticle := {
  a_id : string;
  a_dataType : string;
  a_title : option string;
  a_content : option string;
  a_couponCode : option string;
  a_headline : option string;
  a_description : option string;
  a_merchantName : option string
}.

Record CustomVoucher := {
  c_id : string;
  c_code : string;
  c_description : string;
  c_merchantName : option string
}.

Definition CATEGORY_VISIBILITY_KEY : string := "voucher-category-visibility".
Definition CUSTOM_VOUCHERS_KEY : string := "grabfood-custom-vouchers".

(** One element matched by [[data-clipboard-text]]: the value of the
    attribute, the text of the title element (the first match inside the
    container, or the element itself) and the text of the first match of
    the description selectors ([None] when there is none). *)
Record VoucherElement := {
  e_clipboard : option string;
  e_title : option string;
  e_content : option string
}.

Inductive Response :=
| NetworkError (message : string)
| Http (status : nat) (elements : list VoucherElement).

Definition ok (status : nat) : bool :=
  ((200 <=? status) && (status <=? 299))%nat.

(** A list-page request; [noCache] marks the cache-busting variant. *)
Inductive Event :=
| Fetch (target : string) (noCache : bool).

Record State := {
  network : nat → string → Response;
  localStorage : gmap string string;
  trace : list Event;
  hiddenVouchers : list string;
  hiddenCategories : gmap string bool;
  customVouchers : list CustomVoucher;
  discountArticles : list DiscountArticle;
  isLoading : bool;
  error : option string
}.

Definition with_localStorage (f : gmap string string → gmap string string)
    (s : State) : State :=
  {| network := network s; localStorage := f (localStorage s);
     trace := trace s; hiddenVouchers := hiddenVouchers s;
     hiddenCategories := hiddenCategories s;
     customVouchers := customVouchers s;
     discountArticles := discountArticles s; isLoading := isLoading s;
     error := error s |}.

Definition with_trace (t : list Event) (s : State) : State :=
  {| network := network s; localStorage := localStorage s;
     trace := t; hiddenVouchers := hiddenVouchers s;
     hiddenCategories := hiddenCategories s;
     customVouchers := customVouchers s;
     discountArticles := discountArticles s; isLoading := isLoading s;
     error := error s |}.

Definition with_hiddenVouchers (l : list string) (s : State) : State :=
  {| network := network s; localStorage := localStorage s;
     trace := trace s; hiddenVouchers := l;
     hiddenCategories := hiddenCategories s;
     customVouchers := customVouchers s;
     discountArticles := discountArticles s; isLoading := isLoading s;
     error := error s |}.

Definition with_hiddenCategories (m : gmap string bool) (s : State) : State :=
  {| network := network s; localStorage := localStorage s;
     trace := trace s; hiddenVouchers := hiddenVouchers s;
     hiddenCategories := m;
     customVouchers := customVouchers s;
     discountArticles := discountArticles s; isLoading := isLoading s;
     error := error s |}.

Definition with_discountArticles (l : list DiscountArticle) (s : State)
    : State :=
  {| network := network s; localStorage := localStorage s;
     trace := trace s; hiddenVouchers := hiddenVouchers s;
     hiddenCategories := hiddenCategories s;
     customVouchers := customVouchers s;
     discountArticles := l; isLoading := isLoading s;
     error := error s |}.

Definition with_isLoading (b : bool) (s : State) : State :=
  {| network := network s; localStorage := localStorage s;
     trace := trace s; hiddenVouchers := hiddenVouchers s;
     hiddenCategories := hiddenCategories s;
     customVouchers := customVouchers s;
     discountArticles := discountArticles s; isLoading := b;
     error := error s |}.

Definition with_error (e : option string) (s : State) : State :=
  {| network := network s; localStorage := localStorage s;
     trace := trace s; hiddenVouchers := hiddenVouchers s;
     hiddenCategories := hiddenCategories s;
     customVouchers := customVouchers s;
     discountArticles := discountArticles s; isLoading := isLoading s;
     error := e |}.

Definition M (A : Type) : Type := State → A * State.

Definition ret {A} (a : A) : M A := fun s => (a, s).
Definition bind {A B} (m : M A) (k : A → M B) : M B :=
  fun s => let (a, s') := m s in k a s'.
Definition modify (f : State → State) : M unit := fun s => (tt, f s).
Definition gets {A} (f : State → A) : M A := fun s => (f s, s).

Notation "'let!' x ':=' m 'in' k" := (bind m (fun x => k))
  (at level 10, x pattern, m at level 100, k at level 200).
Notation "m ';;' k" := (bind m (fun _ => k))
  (at level 100, k at level 200, right associativity).

Definition setItem (key text : string) : M unit :=
  modify (with_localStorage (insert key text)).
Definition removeItem (key : string) : M unit :=
  modify (with_localStorage (delete key)).
Definition fetch (target : string) (noCache : bool) : M Response :=
  fun s => (network s (length (trace s)) target,
            with_trace (trace s ++ [Fetch target noCache]) s).

Section Page.

Context `{!JSON (list string)} `{!JSON (gmap string bool)}.

(** *** Hidden vouchers: a stored list of codes *)

Definition hideVoucher (voucherCode : string) : M unit :=
  let! hv := gets hiddenVouchers in
  if negb (Js.arr_includes hv voucherCode) then
    modify (with_hiddenVouchers (hv ++ [voucherCode])) ;;
    let! hv := gets hiddenVouchers in
    setItem "hidden-vouchers" (JSON_stringify hv)
  else ret tt.

(** *** Category visibility *)

Definition saveCategoryVisibility : M unit :=
  let! hc := gets hiddenCategories in
  setItem CATEGORY_VISIBILITY_KEY (JSON_stringify hc).

Definition set_category (key : string) (b : bool) : M unit :=
  modify (fun s =>
    with_hiddenCategories (Js.assign key b (hiddenCategories s)) s).

Definition toggleCategoryVisibility (category : string) : M unit :=
  (if bool_decide (category = "grabfood")
      || bool_decide (category = "foodpanda")
   then
     let! hc := gets hiddenCategories in
     if Js.flag hc category then set_category category false
     else
       set_category category true ;;
       let otherCategory :=
         if bool_decide (category = "grabfood") then "foodpanda"
         else "grabfood" in
       set_category otherCategory false
   else
     let! hc := gets hiddenCategories in
     set_category category (negb (Js.flag hc category))) ;;
  saveCategoryVisibility.

Definition resetCategoryVisibility : M unit :=
  modify (with_hiddenCategories ∅) ;;
  removeItem CATEGORY_VISIBILITY_KEY.

(** *** The refresh cycle *)

Definition targetUrls : list string :=
  ["https://iprice.ph/?s=grabfood"; "https://iprice.ph/?s=foodpanda"].

(** The body of [voucherElements.forEach((element, index) => ...)]. *)
Definition extract_voucher (targetUrl : string) (index : nat)
    (element : VoucherElement) : option DiscountArticle :=
  let voucherCode := Js.or_else (e_clipboard element) "" in
  if Js.truthy voucherCode then
    let id :=
      "voucher-"
      ++ (if Js.includes targetUrl "grabfood" then "grabfood"
          else "foodpanda")
      ++ "-" ++ pretty index in
    let title :=
      Js.or_else (Js.trim <$> e_title element) "No title found" in
    let content :=
      Js.or_else (Js.trim <$> e_content element) "No description found" in
    let merchantName :=
      if Js.includes targetUrl "grabfood" then "GrabFood"
      else "FoodPanda" in
    Some {| a_id := id; a_dataType := "code"; a_title := Some title;
            a_content := Some content; a_couponCode := Some voucherCode;
            a_headline := None; a_description := None;
            a_merchantName := Some merchantName |}
  else None.

Definition extract_page (targetUrl : string)
    (voucherElements : list VoucherElement) : list DiscountArticle :=
  omap id (imap (extract_voucher targetUrl) voucherElements).

Fixpoint fetch_pages (hardRefresh : bool) (urls : list string)
    (extractedArticles : list DiscountArticle)
    : M (string + list DiscountArticle) :=
  match urls with
  | [] => ret (inr extractedArticles)
  | targetUrl :: rest =>
      let! response := fetch targetUrl hardRefresh in
      match response with
      | NetworkError message => ret (inl message)
      | Http status voucherElements =>
          if negb (ok status) then
            fetch_pages hardRefresh rest extractedArticles
          else
            fetch_pages hardRefresh rest
              (extractedArticles ++ extract_page targetUrl voucherElements)
      end
  end.

Definition fetchGrabFoodVouchers (hardRefresh : bool) : M unit :=
  modify (with_isLoading true) ;;
  modify (with_error None) ;;
  (if hardRefresh then
     modify (with_hiddenVouchers []) ;;
     removeItem "hidden-vouchers"
   else ret tt) ;;
  let! pages := fetch_pages hardRefresh targetUrls [] in
  match pages with
  | inl message => modify (with_error (Some message))
  | inr extractedArticles =>
      modify (with_discountArticles extractedArticles) ;;
      modify (with_isLoading false)
  end ;;
  modify (with_isLoading false).

End Page.

(** *** Aggregation *)

Definition merchant_includes (merchantName : option string) (sub : string)
    : bool :=
  match merchantName with
  | Some n => Js.includes (Js.toLowerCase n) sub
  | None => false
  end.

Definition category_visible (hiddenCategories : gmap string bool)
    (merchantName : option string) : bool :=
  if merchant_includes merchantName "grabfood"
  then negb (Js.flag hiddenCategories "grabfood")
  else if merchant_includes merchantName "foodpanda"
  then negb (Js.flag hiddenCategories "foodpanda")
  else true.

Definition filteredDiscountArticles (discountArticles : list DiscountArticle)
    (hiddenVouchers : list string) : list DiscountArticle :=
  List.filter
    (fun article =>
       negb (Js.arr_includes hiddenVouchers
               (Js.or_else (a_couponCode article) "")))
    discountArticles.

Inductive Combined :=
| Custom (voucher : CustomVoucher)
| Scraped (article : DiscountArticle).

Definition isCustom (v : Combined) : bool :=
  match v with Custom _ => true | Scraped _ => false end.

Definition voucherCode (v : Combined) : option string :=
  match v with
  | Custom voucher => Some (c_code voucher)
  | Scraped article => a_couponCode article
  end.

Definition combinedVouchers (customVouchers : list CustomVoucher)
    (discountArticles : list DiscountArticle)
    (hiddenCategories : gmap string bool) (hiddenVouchers : list string)
    : list Combined :=
  List.map Custom
    (List.filter
       (fun voucher => category_visible hiddenCategories (c_merchantName voucher))
       customVouchers)
  ++ List.map Scraped
    (List.filter
       (fun article => category_visible hiddenCategories (a_merchantName article))
       (filteredDiscountArticles discountArticles hiddenVouchers)).

Definition cards (combined : list Combined) : list Combined :=
  List.filter (fun v => Js.truthy_opt (voucherCode v)) combined.

(** The cards of a state, as the template draws them. *)
Definition shown (s : State) : list Combined :=
  cards (combinedVouchers (customVouchers s) (discountArticles s)
           (hiddenCategories s) (hiddenVouchers s)).

End Iprice.

(** ** A JSON codec that satisfies the contract

    Any countable type has one: the text is an opening brace followed by
    the binary digits of the code of the value. *)

Module Codec.

Fixpoint digits (p : positive) : string :=
  match p with
  | xH => EmptyString
  | xO q => String "0" (digits q)
  | xI q => String "1" (digits q)
  end.

Fixpoint undigits (s : string) : option positive :=
  match s with
  | EmptyString => Some xH
  | String a s' =>
      if bool_decide (a = "0"%char) then xO <$> undigits s'
      else if bool_decide (a = "1"%char) then xI <$> undigits s'
      else None
  end.

Definition stringify `{Countable A} (a : A) : string :=
  String "{" (digits (encode a)).

Definition parse `{Countable A} (s : string) : option A :=
  match s with
  | String a s' =>
      if bool_decide (a = "{"%char) then undigits s' ≫= decode else None
  | EmptyString => None
  end.

#[global] Instance json `{Countable A} : JSON A.
Proof.
  refine {| JSON_stringify := stringify; JSON_parse := parse |}.
  - intros a. unfold parse, stringify. simpl.
    assert (Hd : ∀ p, undigits (digits p) = Some p).
    { induction p as [q IH|q IH|]; simpl; rewrite ?IH; reflexivity. }
    rewrite Hd. simpl. apply decode_encode.
  - reflexivity.
Defined.

#[global] Instance VoucherData_eq_dec : EqDecision Philstar.VoucherData.
Proof. solve_decision. Defined.

#[global] Instance CachedVoucherData_eq_dec
  : EqDecision Philstar.CachedVoucherData.
Proof. solve_decision. Defined.

#[global] Instance VoucherData_countable : Countable Philstar.VoucherData.
Proof.
  refine (inj_countable'
    (fun d => (Philstar.code d, Philstar.cta d, Philstar.headline d,
               Philstar.description d, Philstar.merchantName d))
    (fun t => match t with
              | (c, a, h, d, m) =>
                  {| Philstar.code := c; Philstar.cta := a;
                     Philstar.headline := h; Philstar.description := d;
                     Philstar.merchantName := m |}
              end) _).
  intros []; reflexivity.
Defined.

#[global] Instance CachedVoucherData_countable
  : Countable Philstar.CachedVoucherData.
Proof.
  refine (inj_countable'
    (fun c => (Philstar.data c, Philstar.expire c, Philstar.hidden c))
    (fun t => match t with
              | (d, e, h) =>
                  {| Philstar.data := d; Philstar.expire := e;
                     Philstar.hidden := h |}
              end) _).
  intros []; reflexivity.
Defined.

End Codec.

(** ** Views of the state used to state the properties *)

Module Cache.
Import Philstar.

Section Views.

Context `{!JSON CachedVoucherData}.

(** The cache entry of an article: the text under its key, when it is
    a non-empty text that decodes. *)
Definition stored (ls : gmap string string) (articleId : string)
    : option CachedVoucherData :=
  ls !! cache_key articleId ≫=
    fun text => if Js.truthy text then JSON_parse text else None.

Definition entry (s : State) (articleId : string)
    : option CachedVoucherData :=
  stored (localStorage s) articleId.

(** The value the next call of [Date.now()] returns. *)
Definition now (s : State) : Z := clock s (ticks s).

(** The entry, when it has not expired at the next reading of the
    clock. *)
Definition live (s : State) (articleId : string)
    : option CachedVoucherData :=
  entry s articleId ≫=
    fun c => if now s >? expire c then None else Some c.

(** The entry exists and the next reading of the clock is past its
    expiry. *)
Definition expired (s : State) (articleId : string) : bool :=
  match entry s articleId with
  | Some c => now s >? expire c
  | None => false
  end.

(** The value returned by the last call of [Date.now()] made on the way
    from [s] to [s']. *)
Definition last_reading (s s' : State) : Z := clock s (Nat.pred (ticks s')).

(** [existingCache?.hidden || false] on the entry found by a write. *)
Definition kept_hidden (s : State) (articleId : string) : bool :=
  match live s articleId with
  | Some c => match hidden c with Some b => b | None => false end
  | None => false
  end.

Definition minimal : VoucherData :=
  {| code := None; cta := None; headline := None; description := None;
     merchantName := None |}.

Definition is_hidden (s : State) (articleId : string) : Prop :=
  ∃ c, entry s articleId = Some c ∧ hidden c = Some true.

(** Reads and writes of the cache, for sequences of them. *)
Inductive CacheOp :=
| Read (articleId : string)
| ReadFull (articleId : string)
| Write (articleId : string) (d : VoucherData).

Definition op_id (op : CacheOp) : string :=
  match op with
  | Read i | ReadFull i | Write i _ => i
  end.

Definition run_op (op : CacheOp) : M unit :=
  match op with
  | Read i => getCachedVoucherData i ;; ret tt
  | ReadFull i => getCachedVoucherDataFull i ;; ret tt
  | Write i d => setCachedVoucherData i d
  end.

Fixpoint run_ops (ops : list CacheOp) : M unit :=
  match ops with
  | [] => ret tt
  | op :: rest => run_op op ;; run_ops rest
  end.

(** Every operation of the sequence that touches [articleId] finds its
    entry unexpired. *)
Fixpoint unexpired_during (articleId : string) (ops : list CacheOp)
    (s : State) : Prop :=
  match ops with
  | [] => True
  | op :: rest =>
      (op_id op = articleId → is_Some (live s articleId))
      ∧ unexpired_during articleId rest (run_op op s).2
  end.

End Views.

End Cache.

(** ** The detail answer, apart from the effects *)

Module Detail.
Import Philstar.

(** The answer the network gives to the detail request of an article
    sent from state [s]. *)
Definition answer (s : State) (articleId : string) : Response :=
  network s (length (trace s)) (detail_url articleId).

(** The code kept from a detail answer: the alphanumeric characters of a
    non-empty string code, unless they spell an excluded code. *)
Definition clean_code (d : DetailData) : option string :=
  match d_code d with
  | CodeString s =>
      if Js.truthy s then
        let cleanCode := Js.strip_non_alnum s in
        if shouldExcludeCode cleanCode then None else Some cleanCode
      else None
  | _ => None
  end.

(** [`${data.cta.heading} ${data.cta.value}`.trim()], [None] when the
    conversion of a member throws. *)
Definition combinedCta (c : CtaJson) : option string :=
  match Js.template (heading c), Js.template (value c) with
  | Some h, Some v => Some (Js.trim (h ++ " " ++ v))
  | _, _ => None
  end.

(** The record built from a detail answer whose call to action reads
    [combined] and whose code is a string or falsy. *)
Definition record (combined : string) (d : DetailData) : VoucherData :=
  {| code := clean_code d;
     cta := Some combined;
     headline :=
       Some (Js.or_else (Js.or_opt (d_headline d) (d_title d))
                        "No headline available");
     description :=
       Some (Js.or_else (Js.or_opt (d_description d) (d_content d))
                        "No description available");
     merchantName :=
       Some (Js.or_else (d_merchant d ≫= name) "Unknown merchant") |}.

(** What the detail fetch returns for an answer, when the cache has
    nothing. *)
Definition outcome (r : Response) : option VoucherData :=
  match r with
  | NetworkError _ => None
  | Http status body =>
      if ok status then
        match json body with
        | Object d =>
            match d_cta d ≫= combinedCta, d_code d with
            | None, _ => None
            | Some _, CodeOther => None
            | Some combined, _ => Some (record combined d)
            end
        | _ => None
        end
      else None
  end.

(** The events of one cache miss of the progressive loop. *)
Definition miss_events (articleId : string) : list Event :=
  [Fetch (detail_url articleId); Wait 500].

End Detail.

(** ** The purge of a forced refresh, and the cache keys of a store *)

Module Refresh.
Import Philstar.

Section Views.

Context `{!JSON CachedVoucherData} `{!JSON (gmap string bool)}.

(** The two statements of [forceRefresh] that precede the fetch. *)
Definition purge : M unit :=
  clearVoucherCache ;;
  resetCategoryVisibility.

(** The state in which the [try] block of [fetchGrabFoodVouchers]
    sends its first request. *)
Definition started (s : State) : State :=
  with_error None (with_isLoading true s).

End Views.

(** The entries of the store under the cache prefix. *)
Definition cache_entries (ls : gmap string string) : gmap string string :=
  filter (fun kv => Js.startsWith kv.1 CACHE_KEY = true) ls.

End Refresh.

(** ** The display list as the specification words it

    "Custom vouchers followed by scraped vouchers, each filtered by
    category-visibility and hidden-state before concatenation": both
    sublists go through the hidden filter and the category filter, and
    through nothing else. *)

Module Claimed.
Import Philstar.

Definition combinedVouchers (customVouchers : list CustomVoucher)
    (discountArticles : list DiscountArticle)
    (hiddenCategories : gmap string bool) (hiddenVouchers : list string)
    : list Combined :=
  List.map Custom
    (List.filter
       (fun voucher =>
          negb (Js.arr_includes hiddenVouchers (c_id voucher))
          && category_visible hiddenCategories (c_merchantName voucher))
       customVouchers)
  ++ List.map Scraped
    (List.filter
       (fun article =>
          negb (Js.arr_includes hiddenVouchers (a_id article))
          && category_visible hiddenCategories (a_merchantName article))
       discountArticles).

End Claimed.

(** ** Concrete states and values for the examples *)

Module Examples.
Import Philstar.

Definition offline : nat → string → Response :=
  fun _ _ => NetworkError "Failed to fetch".

(** A freshly loaded page with an empty store. *)
Definition blank (clk : nat → Z) (net : nat → string → Response) : State :=
  {| clock := clk; network := net; localStorage := ∅; ticks := 0%nat;
     trace := []; hiddenVouchers := []; hiddenCategories := ∅;
     customVouchers := []; discountArticles := []; articleIds := [];
     voucherCodes := []; isLoading := false; error := None |}.

Definition promo : VoucherData :=
  {| code := Some "SAVE10"; cta := Some "Get 10% off";
     headline := Some "Ten percent"; description := Some "On all orders";
     merchantName := Some "GrabFood" |}.

Definition promo2 : VoucherData :=
  {| code := Some "SAVE20"; cta := Some "Get 20% off";
     headline := Some "Twenty percent"; description := Some "On all orders";
     merchantName := Some "GrabFood" |}.

(** Article [a1] was hidden and its entry ran out at time 0; the clock
    shows 1. *)
Definition stale_hidden : State :=
  with_localStorage
    (insert (cache_key "a1")
       (JSON_stringify {| data := promo; expire := 0; hidden := Some true |}))
    (blank (fun _ => 1) offline).

(** Article [a1] has an entry that is good until time 100; the clock
    shows 1. *)
Definition fresh_entry (h : option bool) : State :=
  with_localStorage
    (insert (cache_key "a1")
       (JSON_stringify {| data := promo; expire := 100; hidden := h |}))
    (blank (fun _ => 1) offline).

(** The clock shows 0 twice and is past two months from the third
    reading on. *)
Definition late_clock (n : nat) : Z :=
  match n with
  | O | S O => 0
  | _ => CACHE_DURATION + 1
  end.

(** Article [a1] is in the list of hidden vouchers of the component,
    and the store is empty (as after a forced refresh). *)
Definition listed_hidden : State :=
  with_hiddenVouchers ["a1"] (blank (fun _ => 1) offline).

(** Article [a1] has an entry that ran out at time 0; the clock shows 1. *)
Definition stale_visible : State :=
  with_localStorage
    (insert (cache_key "a1")
       (JSON_stringify {| data := promo; expire := 0; hidden := Some false |}))
    (blank (fun _ => 1) offline).

(** Only [foodpanda] is hidden. *)
Definition foodpanda_hidden : State :=
  with_hiddenCategories {["foodpanda" := true]} (blank (fun _ => 1) offline).

Definition mine : CustomVoucher :=
  {| c_id := "1700000000000"; c_code := "MINE"; c_description := "Custom voucher";
     c_cta := "Use this code"; c_merchantName := Some "GrabFood" |}.

Definition scraped (i : string) (c : option string) : DiscountArticle :=
  {| a_id := i; a_dataType := "code"; a_title := Some "No title found";
     a_content := Some "No description found"; a_couponCode := c;
     a_cta := Some "View Offer"; a_headline := None; a_description := None;
     a_merchantName := Some "GrabFood" |}.

Definition cached (h : bool) : string :=
  JSON_stringify {| data := promo; expire := 100; hidden := Some h |}.

(** Five cache entries, three of them hidden, the category [grabfood]
    hidden, and one custom voucher list in the store. *)
Definition five_entries_on (net : nat → string → Response) : State :=
  with_hiddenCategories {["grabfood" := true]}
    (with_localStorage
       (fun _ =>
          <[cache_key "a1" := cached true]>
            (<[cache_key "a2" := cached true]>
               (<[cache_key "a3" := cached true]>
                  (<[cache_key "a4" := cached false]>
                     (<[cache_key "a5" := cached false]>
                        (<[CATEGORY_VISIBILITY_KEY :=
                             JSON_stringify
                               ({["grabfood" := true]} : gmap string bool)]>
                           {[CUSTOM_VOUCHERS_KEY := "[]"]}))))))
       (blank (fun _ => 1) net)).

Definition five_entries : State := five_entries_on offline.

(** A detail answer with a [cta] object and nothing else. *)
Definition bare_answer : DetailData :=
  {| d_cta := Some {| heading := Js.Str "Get"; value := Js.Str "10% off" |};
     d_code := CodeFalsy; d_headline := None; d_title := None;
     d_description := None; d_content := None; d_merchant := None |}.

Definition answers (d : DetailData) : nat → string → Response :=
  fun _ _ => Http 200 {| articles := []; json := Object d |}.

(** A detail answer with every member, the code with a dash. *)
Definition full_answer : DetailData :=
  {| d_cta := Some {| heading := Js.Str "Get"; value := Js.Str "10% off" |};
     d_code := CodeString "SAVE-10"; d_headline := Some "Ten percent";
     d_title := None; d_description := Some "On all orders";
     d_content := None; d_merchant := Some {| name := Some "GrabFood" |} |}.

(** A detail answer whose [cta] has a null heading and no value. *)
Definition null_heading_answer : DetailData :=
  {| d_cta := Some {| heading := Js.Null; value := Js.Undefined |};
     d_code := CodeFalsy; d_headline := None; d_title := None;
     d_description := None; d_content := None; d_merchant := None |}.

(** A detail answer whose [cta] heading is an object that cannot be
    converted to a string, as [{"toString": null}] is. *)
Definition unconvertible_answer : DetailData :=
  {| d_cta := Some {| heading := Js.Unconvertible; value := Js.Str "10% off" |};
     d_code := CodeString "SAVE-10"; d_headline := Some "Ten percent";
     d_title := None; d_description := Some "On all orders";
     d_content := None; d_merchant := Some {| name := Some "GrabFood" |} |}.

(** A payload without a code, as it is cached for an article whose
    answer had no code or an excluded one. *)
Definition no_code : VoucherData :=
  {| code := None; cta := Some "Get 10% off";
     headline := Some "Ten percent"; description := Some "On all orders";
     merchantName := Some "FoodPanda" |}.

(** An article as the list page gives it, before its detail is known. *)
Definition extracted (i : string) : DiscountArticle :=
  {| a_id := i; a_dataType := "code"; a_title := Some "No title found";
     a_content := Some "No description found"; a_couponCode := None;
     a_cta := Some "View Offer"; a_headline := None; a_description := None;
     a_merchantName := None |}.

(** The article [a1] is listed as it was extracted, and its cache entry
    holds [d] until time 100; the clock shows 1. *)
Definition listed_with (d : VoucherData) : State :=
  with_discountArticles [extracted "a1"]
    (with_localStorage
       (insert (cache_key "a1")
          (JSON_stringify {| data := d; expire := 100; hidden := Some false |}))
       (blank (fun _ => 1) offline)).

Definition element (i : string) : ArticleElement :=
  {| e_id := Some i; e_title := None; e_content := None; e_cta := None |}.

(** The grabfood page lists the articles [a1] and [a2], the foodpanda
    page lists none, and every detail request gets the complete
    answer. *)
Definition two_articles : nat → string → Response :=
  fun _ url =>
    if bool_decide (url = "https://www.philstar.com/coupons/grabfood")
    then Http 200 {| articles := [element "a1"; element "a2"];
                     json := Malformed |}
    else if bool_decide (url = "https://www.philstar.com/coupons/foodpanda")
    then Http 200 {| articles := []; json := Malformed |}
    else Http 200 {| articles := []; json := Object full_answer |}.

End Examples.

Module IpriceExamples.
Import Iprice.

Definition element (c : string) : VoucherElement :=
  {| e_clipboard := Some c; e_title := Some "Deal"; e_content := None |}.

(** The first list page carries the three codes of the scenario, the
    second one is empty. *)
Definition three_codes : nat → string → Response :=
  fun _ url =>
    if bool_decide (url = "https://iprice.ph/?s=grabfood")
    then Http 200 [element "SAVE10"; element ""; element "NoCodeRequired"]
    else Http 200 [].

Definition blank (net : nat → string → Response) : State :=
  {| network := net; localStorage := ∅; trace := []; hiddenVouchers := [];
     hiddenCategories := ∅; customVouchers := []; discountArticles := [];
     isLoading := true; error := None |}.

(** A page with a hidden code and a hidden category, and a network that
    is down. *)
Definition overlaid : State :=
  {| network := fun _ _ => NetworkError "Failed to fetch";
     localStorage := {["voucher-category-visibility" := "{}"]};
     trace := [];
     hiddenVouchers := ["SAVE10"];
     hiddenCategories := {["grabfood" := true]}; customVouchers := [];
     discountArticles := []; isLoading := false; error := None |}.

End IpriceExamples.

(** ** More of JavaScript's strings *)

Module JsString.

Fixpoint drop (n : nat) (s : string) : string :=
  match n, s with
  | O, _ => s
  | S n', String _ s' => drop n' s'
  | S _, EmptyString => EmptyString
  end.

(** [s.replace(pattern, replacement)] with a string pattern: the first
    occurrence only. *)
Fixpoint replace (s pattern replacement : string) : string :=
  if Js.startsWith s pattern
  then replacement ++ drop (String.length pattern) s
  else match s with
       | EmptyString => EmptyString
       | String a s' => String a (replace s' pattern replacement)
       end.

End JsString.

(** ** The detail-fetch page: the stored lists and the voucher form *)

Module PhilstarStore.
Import Philstar.

Definition with_customVouchers (l : list CustomVoucher) (s : State) : State :=
  {| clock := clock s; network := network s;
     localStorage := localStorage s; ticks := ticks s; trace := trace s;
     hiddenVouchers := hiddenVouchers s;
     hiddenCategories := hiddenCategories s;
     customVouchers := l;
     discountArticles := discountArticles s; articleIds := articleIds s;
     voucherCodes := voucherCodes s; isLoading := isLoading s;
     error := error s |}.

(** The variables behind the voucher dialog. *)
Record Form := {
  editingVoucher : option CustomVoucher;
  newVoucherCode : string;
  newVoucherDescription : string;
  newVoucherCta : string;
  newVoucherMerchant : string
}.

Definition resetForm : Form :=
  {| editingVoucher := None; newVoucherCode := "";
     newVoucherDescription := ""; newVoucherCta := "";
     newVoucherMerchant := "GrabFood" |}.

Definition editCustomVoucher (voucher : CustomVoucher) : Form :=
  {| editingVoucher := Some voucher;
     newVoucherCode := c_code voucher;
     newVoucherDescription := c_description voucher;
     newVoucherCta := c_cta voucher;
     newVoucherMerchant := Js.or_else (c_merchantName voucher) "GrabFood" |}.

(** The object literal of [updateCustomVoucher]. *)
Definition edited (f : Form) (voucher : CustomVoucher) : CustomVoucher :=
  {| c_id := c_id voucher;
     c_code := Js.trim (newVoucherCode f);
     c_description :=
       Js.or_else (Some (Js.trim (newVoucherDescription f))) "Custom voucher";
     c_cta := Js.or_else (Some (Js.trim (newVoucherCta f))) "Use this code";
     c_merchantName := Some (newVoucherMerchant f) |}.

Section Page.

Context `{!JSON CachedVoucherData} `{!JSON (gmap string bool)}
        `{!JSON (list CustomVoucher)}.

(** *** Custom vouchers *)

Definition loadCustomVouchers : M unit :=
  let! saved := getItem CUSTOM_VOUCHERS_KEY in
  match saved with
  | None => ret tt
  | Some saved =>
      if Js.truthy saved then
        match JSON_parse saved with
        | Some l => modify (with_customVouchers l)
        | None => ret tt                      (* caught *)
        end
      else ret tt
  end.

Definition saveCustomVouchers : M unit :=
  let! cv := gets customVouchers in
  setItem CUSTOM_VOUCHERS_KEY (JSON_stringify cv).

(** The functions of the dialog take the form and return it as they
    leave it. *)
Definition addCustomVoucher (f : Form) : M Form :=
  if negb (Js.truthy (Js.trim (newVoucherCode f))) then ret f
  else
    let! now := Date_now in
    let newVoucher :=
      {| c_id := pretty now;
         c_code := Js.trim (newVoucherCode f);
         c_description :=
           Js.or_else (Some (Js.trim (newVoucherDescription f)))
                      "Custom voucher";
         c_cta :=
           Js.or_else (Some (Js.trim (newVoucherCta f))) "Use this code";
         c_merchantName := Some (newVoucherMerchant f) |} in
    modify (fun s => with_customVouchers (newVoucher :: customVouchers s) s) ;;
    saveCustomVouchers ;;
    ret resetForm.

Definition updateCustomVoucher (f : Form) : M Form :=
  match editingVoucher f with
  | None => ret f
  | Some editing =>
      if negb (Js.truthy (Js.trim (newVoucherCode f))) then ret f
      else
        modify (fun s =>
          with_customVouchers
            (List.map
               (fun voucher =>
                  if bool_decide (c_id voucher = c_id editing)
                  then edited f voucher
                  else voucher)
               (customVouchers s)) s) ;;
        saveCustomVouchers ;;
        ret resetForm
  end.

Definition deleteCustomVoucher (id : string) : M unit :=
  modify (fun s =>
    with_customVouchers
      (List.filter (fun voucher => negb (bool_decide (c_id voucher = id)))
                   (customVouchers s)) s) ;;
  saveCustomVouchers.

(** *** Hidden vouchers, read back from the cache entries *)

(** The body of the [for] loop over [localStorage.key(i)]; [keys] is
    the order in which the browser enumerates the keys.  A text that
    does not decode throws, which ends the loop with what was pushed
    so far. *)
Fixpoint load_hidden (keys : list string) : M unit :=
  match keys with
  | [] => ret tt
  | key :: rest =>
      if Js.truthy key && Js.startsWith key CACHE_KEY then
        let! cached := getItem key in
        match cached with
        | None => load_hidden rest
        | Some cached =>
            if Js.truthy cached then
              match JSON_parse cached with
              | None => ret tt
              | Some parsedCache =>
                  (if match hidden parsedCache with
                      | Some b => b
                      | None => false
                      end
                   then
                     let articleId :=
                       JsString.replace key (CACHE_KEY ++ "-") "" in
                     modify (fun s =>
                       with_hiddenVouchers
                         (hiddenVouchers s ++ [articleId]) s)
                   else ret tt) ;;
                  load_hidden rest
              end
            else load_hidden rest
        end
      else load_hidden rest
  end.

Definition loadHiddenVouchers (keys : list string) : M unit :=
  modify (with_hiddenVouchers []) ;;
  load_hidden keys.

(** *** Category visibility *)

Definition loadCategoryVisibility : M unit :=
  let! saved := getItem CATEGORY_VISIBILITY_KEY in
  match saved with
  | None => ret tt
  | Some saved =>
      if Js.truthy saved then
        match JSON_parse saved with
        | Some m => modify (with_hiddenCategories m)
        | None => modify (with_hiddenCategories ∅)     (* caught *)
        end
      else ret tt
  end.

End Page.

(** *** The counters of the header *)

Definition valid_code (c : option string) : bool :=
  match c with
  | Some c =>
      Js.truthy c && negb (bool_decide (Js.trim c = ""))
      && negb (bool_decide (c = "No code found"))
  | None => false
  end.

Definition validCustomVouchers (customVouchers : list CustomVoucher) : nat :=
  length (List.filter (fun voucher => valid_code (Some (c_code voucher)))
                      customVouchers).



End PhilstarStore.

(** ** The attribute page: the stored list of hidden codes *)

Module IpriceStore.
Import Iprice.

Section Page.

Context `{!JSON (list string)} `{!JSON (gmap string bool)}.

Definition loadHiddenVouchers : M unit :=
  let! stored := gets (fun s => localStorage s !! "hidden-vouchers") in
  match stored with
  | None => modify (with_hiddenVouchers [])
  | Some stored =>
      if Js.truthy stored then
        match JSON_parse stored with
        | Some l => modify (with_hiddenVouchers l)
        | None => modify (with_hiddenVouchers [])       (* caught *)
        end
      else modify (with_hiddenVouchers [])
  end.

Definition loadCategoryVisibility : M unit :=
  let! saved := gets (fun s => localStorage s !! CATEGORY_VISIBILITY_KEY) in
  match saved with
  | None => ret tt
  | Some saved =>
      if Js.truthy saved then
        match JSON_parse saved with
        | Some m => modify (with_hiddenCategories m)
        | None => modify (with_hiddenCategories ∅)
        end
      else ret tt
  end.

End Page.

End IpriceStore.

(** ** Views for the further properties *)

Module Frame.
Import Philstar.

(** The overlays the user controls: nothing in the cache or in the
    refresh cycle is meant to change them. *)
Definition overlays (s : State)
    : list string * gmap string bool * list CustomVoucher :=
  (hiddenVouchers s, hiddenCategories s, customVouchers s).

(** What the detail loop leaves of an article. *)
Definition skeleton (a : DiscountArticle)
    : string * string * option string * option string :=
  (a_id a, a_dataType a, a_title a, a_content a).

(** An article carries no code or a non-empty one. *)
Definition code_absent_or_truthy (a : DiscountArticle) : bool :=
  match a_couponCode a with
  | None => true
  | Some c => Js.truthy c
  end.

(** Everything of the state but the store, the count of clock readings
    and the trace. *)
Definition rest (s : State) :=
  (clock s, network s, hiddenVouchers s, hiddenCategories s,
   customVouchers s, discountArticles s, articleIds s, voucherCodes s,
   isLoading s, error s).

(** The articles a list page contributes. *)
Definition page_articles (r : Response) : list DiscountArticle :=
  match r with
  | NetworkError _ => []
  | Http status body =>
      if ok status then omap extract_article (articles body) else []
  end.

Section Views.

Context `{!JSON CachedVoucherData}.

(** The text under a key, decoded, for a key with the cache prefix. *)
Definition cached_at (ls : gmap string string) (key : string)
    : option CachedVoucherData :=
  if Js.truthy key && Js.startsWith key CACHE_KEY then
    ls !! key ≫= fun text =>
      if Js.truthy text then JSON_parse text else None
  else None.

(** No text under a key with the cache prefix makes [JSON.parse]
    throw. *)
Definition decodes (ls : gmap string string) (key : string) : Prop :=
  Js.startsWith key CACHE_KEY = true →
  ∀ text, ls !! key = Some text → Js.truthy text = true →
          is_Some (JSON_parse text).

(** The article ids a reload pushes for an enumeration of the keys. *)
Definition flagged (ls : gmap string string) (keys : list string)
    : list string :=
  omap (fun key =>
          match cached_at ls key with
          | Some c =>
              if match hidden c with Some b => b | None => false end
              then Some (JsString.replace key (CACHE_KEY ++ "-") "")
              else None
          | None => None
          end) keys.

End Views.

End Frame.

(** ** Views of the display list *)

Module Display.

(** The merchant name of a displayed voucher. *)
Definition merchant (v : Philstar.Combined) : option string :=
  match v with
  | Philstar.Custom voucher => Philstar.c_merchantName voucher
  | Philstar.Scraped article => Philstar.a_merchantName article
  end.

Definition iprice_merchant (v : Iprice.Combined) : option string :=
  match v with
  | Iprice.Custom voucher => Iprice.c_merchantName voucher
  | Iprice.Scraped article => Iprice.a_merchantName article
  end.

(** The display list of a state of the detail-fetch page. *)
Definition combined (s : Philstar.State) : list Philstar.Combined :=
  Philstar.combinedVouchers (Philstar.customVouchers s)
    (Philstar.discountArticles s) (Philstar.hiddenCategories s)
    (Philstar.hiddenVouchers s).

Definition iprice_combined (s : Iprice.State) : list Iprice.Combined :=
  Iprice.combinedVouchers (Iprice.customVouchers s)
    (Iprice.discountArticles s) (Iprice.hiddenCategories s)
    (Iprice.hiddenVouchers s).

(** Everything but the scraped vouchers of one article. *)
Definition other_than (articleId : string) (v : Philstar.Combined) : bool :=
  match v with
  | Philstar.Custom _ => true
  | Philstar.Scraped article =>
      negb (bool_decide (Philstar.a_id article = articleId))
  end.

(** Everything but the scraped vouchers that carry one code. *)
Definition other_code (code : string) (v : Iprice.Combined) : bool :=
  match v with
  | Iprice.Custom _ => true
  | Iprice.Scraped article =>
      negb (bool_decide (Js.or_else (Iprice.a_couponCode article) "" = code))
  end.


(** The site discriminator in the ids of the attribute page. *)
Definition site (targetUrl : string) : string :=
  if Js.includes targetUrl "grabfood" then "grabfood" else "foodpanda".

(** The articles a list page of the attribute page contributes. *)
Definition iprice_page_articles (targetUrl : string) (r : Iprice.Response)
    : list Iprice.DiscountArticle :=
  match r with
  | Iprice.NetworkError _ => []
  | Iprice.Http status voucherElements =>
      if Iprice.ok status
      then Iprice.extract_page targetUrl voucherElements
      else []
  end.

End Display.

(** ** Codecs for the stored custom vouchers *)

Module StoreCodec.

#[global] Instance CustomVoucher_eq_dec : EqDecision Philstar.CustomVoucher.
Proof. solve_decision. Defined.

#[global] Instance CustomVoucher_countable : Countable Philstar.CustomVoucher.
Proof.
  refine (inj_countable'
    (fun v => (Philstar.c_id v, Philstar.c_code v, Philstar.c_description v,
               Philstar.c_cta v, Philstar.c_merchantName v))
    (fun t => match t with
              | (i, c, d, a, m) =>
                  {| Philstar.c_id := i; Philstar.c_code := c;
                     Philstar.c_description := d; Philstar.c_cta := a;
                     Philstar.c_merchantName := m |}
              end) _).
  intros []; reflexivity.
Defined.

End StoreCodec.

(** ** More concrete states for the examples *)

Module MoreExamples.
Import Philstar PhilstarStore Examples.

(** U+00A0, U+2028 and U+3000 in UTF-8. *)
Definition nbsp : string := String "194"%char (String "160"%char "").
Definition line_separator : string :=
  String "226"%char (String "128"%char (String "168"%char "")).
Definition ideographic_space : string :=
  String "227"%char (String "128"%char (String "128"%char "")).

(** The dialog filled in with a code that has white space around it, of
    one, two and three bytes, and with a call to action that is white
    space only. *)
Definition typed : Form :=
  {| editingVoucher := None;
     newVoucherCode := nbsp ++ " MINE " ++ line_separator;
     newVoucherDescription := ""; newVoucherCta := ideographic_space;
     newVoucherMerchant := "GrabFood" |}.

(** The dialog with a code that is white space only, none of it of one
    byte. *)
Definition blank_code : Form :=
  {| editingVoucher := Some mine;
     newVoucherCode := nbsp ++ ideographic_space;
     newVoucherDescription := "Ten percent"; newVoucherCta := "Copy";
     newVoucherMerchant := "GrabFood" |}.

(** An edit of [mine] with a padded code, a description that is white
    space only and a padded call to action. *)
Definition retyped : Form :=
  {| editingVoucher := Some mine;
     newVoucherCode := nbsp ++ "YOURS" ++ line_separator;
     newVoucherDescription := ideographic_space;
     newVoucherCta := " Copy "; newVoucherMerchant := "FoodPanda" |}.

(** One scraped grabfood voucher with a code, and no overlay. *)
Definition one_card : list DiscountArticle :=
  [scraped "a1" (Some "SAVE10")].

End MoreExamples.

(** ** Properties of the cache *)

Section CacheReads.
Import Philstar Cache.

Context `{!JSON CachedVoucherData}.

Lemma VoucherData_eta (d : VoucherData) :
  {| code := code d; cta := cta d; headline := headline d;
     description := description d; merchantName := merchantName d |} = d.
Proof. destruct d; reflexivity. Qed.

Lemma cache_key_inj (i j : string) : cache_key i = cache_key j → i = j.
Proof.
  unfold cache_key. intros H.
  apply (inj (String.app CACHE_KEY)) in H.
  apply (inj (String.app "-")) in H. exact H.
Qed.

Lemma stored_insert (ls : gmap string string) (i : string)
    (c : CachedVoucherData) :
  stored (<[cache_key i := JSON_stringify c]> ls) i = Some c.
Proof.
  unfold stored. rewrite lookup_insert_eq. simpl.
  rewrite JSON_stringify_truthy. apply JSON_parse_stringify.
Qed.

Lemma stored_insert_ne (ls : gmap string string) (i j text : string) :
  i ≠ j → stored (<[cache_key i := text]> ls) j = stored ls j.
Proof.
  intros Hne. unfold stored. rewrite lookup_insert_ne; [reflexivity|].
  intros H. apply Hne, cache_key_inj, H.
Qed.

Lemma stored_delete (ls : gmap string string) (i : string) :
  stored (delete (cache_key i) ls) i = None.
Proof. unfold stored. rewrite lookup_delete_eq. reflexivity. Qed.

Lemma stored_delete_ne (ls : gmap string string) (i j : string) :
  i ≠ j → stored (delete (cache_key i) ls) j = stored ls j.
Proof.
  intros Hne. unfold stored. rewrite lookup_delete_ne; [reflexivity|].
  intros H. apply Hne, cache_key_inj, H.
Qed.

(** The full read, as a function of the entry and of the clock. *)
Lemma getCachedVoucherDataFull_run (i : string) (s : State) :
  getCachedVoucherDataFull i s =
    match entry s i with
    | None => (None, s)
    | Some c =>
        if now s >? expire c then
          (None, with_localStorage (delete (cache_key i))
                   (with_ticks (S (ticks s)) s))
        else (Some c, with_ticks (S (ticks s)) s)
    end.
Proof.
  unfold getCachedVoucherDataFull, entry, stored, now, bind, getItem, gets.
  destruct (localStorage s !! cache_key i) as [text|]; simpl; [|reflexivity].
  destruct (Js.truthy text); simpl; [|reflexivity].
  destruct (JSON_parse text) as [c|]; simpl; [|reflexivity].
  unfold Date_now. simpl.
  destruct (clock s (ticks s) >? expire c); reflexivity.
Qed.

End CacheReads.

(** Case analysis on a full read: no entry, an expired one, a live one. *)
Ltac full_read_cases i s :=
  rewrite getCachedVoucherDataFull_run;
  let c := fresh "c" in
  destruct (Cache.entry s i) as [c|]; simpl; [|reflexivity];
  destruct (Cache.now s >? Philstar.expire c); reflexivity.

Section CacheFacts.
Import Philstar Cache.

Context `{!JSON CachedVoucherData}.

Lemma getCachedVoucherData_run (i : string) (s : State) :
  getCachedVoucherData i s =
    ((getCachedVoucherDataFull i s).1 ≫= fun c => Some (data c),
     (getCachedVoucherDataFull i s).2).
Proof.
  unfold getCachedVoucherData, getCachedVoucherDataFull, bind, getItem, gets.
  destruct (localStorage s !! cache_key i) as [text|]; simpl; [|reflexivity].
  destruct (Js.truthy text); simpl; [|reflexivity].
  destruct (JSON_parse text) as [c|]; simpl; [|reflexivity].
  unfold Date_now. simpl.
  destruct (clock s (ticks s) >? expire c); simpl; [reflexivity|].
  unfold ret. rewrite VoucherData_eta. reflexivity.
Qed.

Lemma full_read_result (i : string) (s : State) :
  (getCachedVoucherDataFull i s).1 = live s i.
Proof.
  rewrite getCachedVoucherDataFull_run. unfold live.
  destruct (entry s i) as [c|]; simpl; [|reflexivity].
  destruct (now s >? expire c); reflexivity.
Qed.

Lemma full_read_storage (i : string) (s : State) :
  localStorage (getCachedVoucherDataFull i s).2 =
    if expired s i then delete (cache_key i) (localStorage s)
    else localStorage s.
Proof.
  rewrite getCachedVoucherDataFull_run. unfold expired.
  destruct (entry s i) as [c|]; simpl; [|reflexivity].
  destruct (now s >? expire c); reflexivity.
Qed.

Lemma full_read_clock (i : string) (s : State) :
  clock (getCachedVoucherDataFull i s).2 = clock s.
Proof.
  full_read_cases i s.
Qed.

Lemma live_None_iff (i : string) (s : State) :
  live s i = None ↔ entry s i = None ∨ expired s i = true.
Proof.
  unfold live, expired.
  destruct (entry s i) as [c|]; simpl.
  - destruct (now s >? expire c); split; intros H;
      try discriminate; try reflexivity; auto.
    destruct H; discriminate.
  - split; auto.
Qed.

(** C1.  A read of the cache, full or projected to the payload, answers
    null exactly when the article has no entry in the store or the clock
    is past the expiry of its entry; in the second case the read removes
    the entry from the store, and in every other case it leaves the store
    as it was. *)
Theorem cache_read_absent_iff (i : string) (s : State) :
  let full := getCachedVoucherDataFull i s in
  let short := getCachedVoucherData i s in
  (full.1 = None ↔ entry s i = None ∨ expired s i = true)
  ∧ (short.1 = None ↔ entry s i = None ∨ expired s i = true)
  ∧ (expired s i = true ↔
       ∃ c, entry s i = Some c ∧ now s > expire c)
  ∧ localStorage full.2 =
      (if expired s i then delete (cache_key i) (localStorage s)
       else localStorage s)
  ∧ localStorage short.2 = localStorage full.2
  ∧ (if expired s i then entry full.2 i = None ∧ entry short.2 i = None
     else entry full.2 i = entry s i ∧ entry short.2 i = entry s i).
Proof.
  cbv zeta. rewrite getCachedVoucherData_run. simpl.
  rewrite full_read_result, full_read_storage.
  assert (Habs : live s i ≫= (fun c => Some (data c)) = None
                 ↔ live s i = None).
  { destruct (live s i); simpl; split; intros H; congruence. }
  split; [apply live_None_iff|].
  split; [rewrite Habs; apply live_None_iff|].
  split.
  { unfold expired. destruct (entry s i) as [c|].
    - split.
      + intros H. exists c. split; [reflexivity|]. lia.
      + intros (c' & Hc & Hlt). injection Hc as <-. lia.
    - split; [discriminate|]. intros (c' & Hc & _). discriminate. }
  split; [reflexivity|]. split; [reflexivity|].
  destruct (expired s i) eqn:E; unfold entry;
    rewrite full_read_storage, E; split;
    reflexivity || apply stored_delete.
Qed.

Lemma setCachedVoucherData_run (i : string) (d : VoucherData) (s : State) :
  setCachedVoucherData i d s =
    let s1 := (getCachedVoucherDataFull i s).2 in
    (tt, with_localStorage
           (insert (cache_key i)
              (JSON_stringify {| data := d;
                                 expire := now s1 + CACHE_DURATION;
                                 hidden := Some (kept_hidden s i) |}))
           (with_ticks (S (ticks s1)) s1)).
Proof.
  unfold setCachedVoucherData, bind, kept_hidden.
  rewrite <- full_read_result.
  destruct (getCachedVoucherDataFull i s) as [r s1]. reflexivity.
Qed.

Lemma write_entry (i : string) (d : VoucherData) (s : State) :
  let s' := (setCachedVoucherData i d s).2 in
  entry s' i = Some {| data := d;
                       expire := last_reading s s' + CACHE_DURATION;
                       hidden := Some (kept_hidden s i) |}
  ∧ clock s' = clock s.
Proof.
  rewrite setCachedVoucherData_run. cbv zeta. simpl.
  unfold entry, last_reading, now. simpl.
  rewrite stored_insert, full_read_clock. split; reflexivity.
Qed.

Lemma write_entry_ne (i j : string) (d : VoucherData) (s : State) :
  i ≠ j → entry (setCachedVoucherData i d s).2 j = entry s j.
Proof.
  intros Hne. rewrite setCachedVoucherData_run. cbv zeta. simpl.
  unfold entry. simpl. rewrite stored_insert_ne by exact Hne.
  rewrite full_read_storage.
  destruct (expired s i); [apply stored_delete_ne, Hne|reflexivity].
Qed.

Lemma short_read_result (i : string) (s : State) :
  (getCachedVoucherData i s).1 = data <$> live s i.
Proof.
  rewrite getCachedVoucherData_run. simpl. rewrite full_read_result.
  destruct (live s i); reflexivity.
Qed.

(** C2, as the code has it.  A write stores the payload with the expiry
    set to two months after the reading of the clock taken by the write,
    and with the hidden flag of the entry it finds: the flag of an
    unexpired entry, and false when there is no entry, when the entry has
    no flag, or when the entry has expired.  A read that follows returns
    exactly the payload unless the clock is by then past the new
    expiry. *)
Theorem write_then_read (i : string) (d : VoucherData) (s : State) :
  let s' := (setCachedVoucherData i d s).2 in
  let written := last_reading s s' in
  entry s' i = Some {| data := d;
                       expire := written + CACHE_DURATION;
                       hidden := Some (kept_hidden s i) |}
  ∧ kept_hidden s i =
      match entry s i with
      | Some c =>
          if now s >? expire c then false
          else match hidden c with Some b => b | None => false end
      | None => false
      end
  ∧ CACHE_DURATION = 5184000000
  ∧ (getCachedVoucherData i s').1 =
      (if now s' >? written + CACHE_DURATION then None else Some d)
  ∧ (getCachedVoucherDataFull i s').1 =
      (if now s' >? written + CACHE_DURATION then None
       else Some {| data := d; expire := written + CACHE_DURATION;
                    hidden := Some (kept_hidden s i) |}).
Proof.
  cbv zeta. destruct (write_entry i d s) as [He Hc].
  split; [exact He|]. split.
  { unfold kept_hidden, live. destruct (entry s i) as [c|]; [|reflexivity].
    simpl. destruct (now s >? expire c); reflexivity. }
  split; [reflexivity|].
  rewrite short_read_result, full_read_result. unfold live. rewrite He.
  simpl.
  destruct (now _ >? _); split; reflexivity.
Qed.

Lemma full_read_hiddenVouchers (i : string) (s : State) :
  hiddenVouchers (getCachedVoucherDataFull i s).2 = hiddenVouchers s.
Proof.
  full_read_cases i s.
Qed.

Lemma hide_entry (i : string) (s : State) :
  i ∉ hiddenVouchers s →
  let s' := (hideVoucher i s).2 in
  entry s' i =
    Some {| data := match live s i with
                    | Some c => data c
                    | None => minimal
                    end;
            expire := last_reading s s' + CACHE_DURATION;
            hidden := Some true |}
  ∧ hiddenVouchers s' = (hiddenVouchers s ++ [i])%list
  ∧ clock s' = clock s.
Proof.
  intros Hnot. unfold hideVoucher, bind, gets, Js.arr_includes.
  rewrite bool_decide_eq_false_2 by exact Hnot. simpl.
  rewrite <- full_read_result.
  pose proof (full_read_clock i s) as Hclock.
  pose proof (full_read_hiddenVouchers i s) as Hhv.
  destruct (getCachedVoucherDataFull i s) as [r s1]. simpl in *.
  destruct r as [c|]; simpl; unfold entry, last_reading; simpl;
    rewrite stored_insert, Hclock, Hhv; repeat split; reflexivity.
Qed.

Lemma hide_listed (i : string) (s : State) :
  i ∈ hiddenVouchers s → hideVoucher i s = (tt, s).
Proof.
  intros Hin. unfold hideVoucher, bind, gets, Js.arr_includes.
  rewrite bool_decide_eq_true_2 by exact Hin. reflexivity.
Qed.

(** C10, as the code has it.  For an article that is not yet in the list
    of hidden vouchers, hiding leaves an entry with the hidden flag set
    and the expiry two months after the reading of the clock taken for
    the update, also when an unexpired entry was there; the payload is
    that of the unexpired entry, and the minimal payload with a null code
    when there was no entry or only an expired one.  For an article that
    is already in the list the call changes nothing. *)
Theorem hide_sets_flag_and_renews (i : string) (s : State) :
  (i ∈ hiddenVouchers s → hideVoucher i s = (tt, s))
  ∧ (i ∉ hiddenVouchers s →
     let s' := (hideVoucher i s).2 in
     entry s' i =
       Some {| data := match live s i with
                       | Some c => data c
                       | None => minimal
                       end;
               expire := last_reading s s' + CACHE_DURATION;
               hidden := Some true |}
     ∧ code minimal = None
     ∧ hiddenVouchers s' = (hiddenVouchers s ++ [i])%list).
Proof.
  split; [apply hide_listed|].
  intros Hnot. destruct (hide_entry i s Hnot) as (He & Hh & _).
  cbv zeta. rewrite He, Hh. repeat split; reflexivity.
Qed.

Lemma entry_after_full_read (i j : string) (s : State) :
  entry (getCachedVoucherDataFull j s).2 i =
    if expired s j && bool_decide (i = j) then None else entry s i.
Proof.
  unfold entry at 1. rewrite full_read_storage.
  destruct (expired s j); simpl; [|reflexivity].
  case_bool_decide as Hij.
  - subst. apply stored_delete.
  - apply stored_delete_ne. congruence.
Qed.

Lemma live_not_expired (i : string) (s : State) :
  is_Some (live s i) → expired s i = false.
Proof.
  unfold live, expired. intros [c Hc].
  destruct (entry s i) as [c'|]; [|discriminate]. simpl in Hc.
  destruct (now s >? expire c'); [discriminate|reflexivity].
Qed.

Lemma live_entry (i : string) (s : State) (c : CachedVoucherData) :
  is_Some (live s i) → entry s i = Some c → live s i = Some c.
Proof.
  unfold live. intros [c' Hc] He. rewrite He in *. simpl in *.
  destruct (now s >? expire c); [discriminate|reflexivity].
Qed.

Lemma hidden_kept_by_op (i : string) (op : CacheOp) (s : State) :
  is_hidden s i →
  (op_id op = i → is_Some (live s i)) →
  is_hidden (run_op op s).2 i.
Proof.
  intros (c & He & Hh) Hlive.
  assert (Hread : ∀ j, (j = i → is_Some (live s i)) →
            entry (getCachedVoucherDataFull j s).2 i = entry s i).
  { intros j Hj. rewrite entry_after_full_read.
    case_bool_decide as Hij; [|rewrite andb_false_r; reflexivity].
    subst j. rewrite (live_not_expired i s) by auto. reflexivity. }
  destruct op as [j|j|j d]; simpl in Hlive.
  - unfold run_op, bind. rewrite getCachedVoucherData_run. simpl.
    exists c. rewrite Hread by exact Hlive. auto.
  - unfold run_op, bind.
    destruct (getCachedVoucherDataFull j s) as [r s1] eqn:E. simpl.
    exists c. replace s1 with (getCachedVoucherDataFull j s).2
      by (rewrite E; reflexivity).
    rewrite Hread by exact Hlive. auto.
  - unfold run_op. destruct (decide (j = i)) as [->|Hne].
    + destruct (write_entry i d s) as [Hw _]. cbv zeta in Hw.
      eexists. split; [exact Hw|]. simpl.
      unfold kept_hidden.
      rewrite (live_entry i s c) by auto. rewrite Hh. reflexivity.
    + exists c. rewrite write_entry_ne by exact Hne. auto.
Qed.

(** C3, as the code has it.  Once the entry of an article carries the
    hidden flag, a sequence of cache reads and writes keeps an entry with
    the flag set, provided every operation of the sequence on that article
    finds the entry unexpired.  (A write that finds it expired starts a
    new entry with the flag cleared.) *)
Theorem hidden_flag_survives_reads_and_writes (i : string)
    (ops : list CacheOp) (s : State) :
  is_hidden s i →
  unexpired_during i ops s →
  is_hidden (run_ops ops s).2 i.
Proof.
  revert s. induction ops as [|op rest IH]; intros s Hh Hun.
  - exact Hh.
  - destruct Hun as [Hop Hrest]. simpl. unfold bind.
    pose proof (hidden_kept_by_op i op s Hh Hop) as Hh'.
    destruct (run_op op s) as [[] s1]. simpl in *.
    apply IH; assumption.
Qed.

End CacheFacts.

(** ** The cache on concrete states *)

Section CacheExamples.
Import Philstar Cache Examples.

(** C2 as stated fails: the entry of [a1] carries the hidden flag but has
    expired, and the write leaves an entry whose flag is false. *)
Lemma write_over_expired_entry_clears_hidden :
  entry stale_hidden "a1" =
    Some {| data := promo; expire := 0; hidden := Some true |}
  ∧ entry (setCachedVoucherData "a1" promo2 stale_hidden).2 "a1" =
      Some {| data := promo2; expire := 1 + CACHE_DURATION;
              hidden := Some false |}.
Proof. split; vm_compute; reflexivity. Qed.

(** C3 as stated fails: [a1] is hidden at time 0, and a write two months
    and a millisecond later leaves an entry whose flag is false. *)
Lemma write_after_expiry_clears_hidden :
  let s := (hideVoucher "a1" (blank late_clock offline)).2 in
  entry s "a1" =
    Some {| data := minimal; expire := CACHE_DURATION;
            hidden := Some true |}
  ∧ entry (run_ops [Write "a1" promo] s).2 "a1" =
      Some {| data := promo; expire := CACHE_DURATION + 1 + CACHE_DURATION;
              hidden := Some false |}.
Proof. split; vm_compute; reflexivity. Qed.

Lemma hidden_flag_survives_witness :
  is_hidden
    (run_ops [Read "a1"; Write "a1" promo2; ReadFull "a1"]
             (fresh_entry (Some true))).2 "a1".
Proof.
  apply hidden_flag_survives_reads_and_writes.
  - exists {| data := promo; expire := 100; hidden := Some true |}.
    split; vm_compute; reflexivity.
  - simpl unexpired_during.
    repeat split; intros _; vm_compute; eexists; reflexivity.
Defined.

(** C10 as stated fails: [a1] is already in the list of hidden vouchers
    and has no entry, and the call leaves none; and the payload of an
    expired entry is not kept. *)
Lemma hide_of_listed_article_writes_nothing :
  entry (hideVoucher "a1" listed_hidden).2 "a1" = None
  ∧ entry stale_visible "a1" =
      Some {| data := promo; expire := 0; hidden := Some false |}
  ∧ entry (hideVoucher "a1" stale_visible).2 "a1" =
      Some {| data := minimal; expire := 1 + CACHE_DURATION;
              hidden := Some true |}.
Proof. repeat split; vm_compute; reflexivity. Qed.

Lemma hide_sets_flag_witness :
  let s := fresh_entry None in
  let s' := (hideVoucher "a1" s).2 in
  entry s' "a1" =
    Some {| data := match live s "a1" with
                    | Some c => data c
                    | None => minimal
                    end;
            expire := last_reading s s' + CACHE_DURATION;
            hidden := Some true |}
  ∧ code minimal = None
  ∧ hiddenVouchers s' = (hiddenVouchers s ++ ["a1"])%list.
Proof.
  apply (proj2 (hide_sets_flag_and_renews "a1" (fresh_entry None))).
  simpl. apply not_elem_of_nil.
Defined.

End CacheExamples.

(** ** Category visibility *)

Section VisibilityFacts.

Context `{!JSON Philstar.CachedVoucherData} `{!JSON (gmap string bool)}
        `{!JSON (list string)}.

Lemma philstar_toggle_grabfood (s : Philstar.State) :
  Philstar.hiddenCategories (Philstar.toggleCategoryVisibility "grabfood" s).2 =
    if Js.flag (Philstar.hiddenCategories s) "grabfood"
    then <["grabfood" := false]> (Philstar.hiddenCategories s)
    else <["foodpanda" := false]>
           (<["grabfood" := true]> (Philstar.hiddenCategories s)).
Proof.
  unfold Philstar.toggleCategoryVisibility, Philstar.bind, Philstar.gets.
  simpl. destruct (Js.flag (Philstar.hiddenCategories s) "grabfood");
    reflexivity.
Qed.

Lemma philstar_toggle_foodpanda (s : Philstar.State) :
  Philstar.hiddenCategories (Philstar.toggleCategoryVisibility "foodpanda" s).2 =
    if Js.flag (Philstar.hiddenCategories s) "foodpanda"
    then <["foodpanda" := false]> (Philstar.hiddenCategories s)
    else <["grabfood" := false]>
           (<["foodpanda" := true]> (Philstar.hiddenCategories s)).
Proof.
  unfold Philstar.toggleCategoryVisibility, Philstar.bind, Philstar.gets.
  simpl. destruct (Js.flag (Philstar.hiddenCategories s) "foodpanda");
    reflexivity.
Qed.

Lemma iprice_toggle_grabfood (s : Iprice.State) :
  Iprice.hiddenCategories (Iprice.toggleCategoryVisibility "grabfood" s).2 =
    if Js.flag (Iprice.hiddenCategories s) "grabfood"
    then <["grabfood" := false]> (Iprice.hiddenCategories s)
    else <["foodpanda" := false]>
           (<["grabfood" := true]> (Iprice.hiddenCategories s)).
Proof.
  unfold Iprice.toggleCategoryVisibility, Iprice.bind, Iprice.gets.
  simpl. destruct (Js.flag (Iprice.hiddenCategories s) "grabfood");
    reflexivity.
Qed.

Lemma iprice_toggle_foodpanda (s : Iprice.State) :
  Iprice.hiddenCategories (Iprice.toggleCategoryVisibility "foodpanda" s).2 =
    if Js.flag (Iprice.hiddenCategories s) "foodpanda"
    then <["foodpanda" := false]> (Iprice.hiddenCategories s)
    else <["grabfood" := false]>
           (<["foodpanda" := true]> (Iprice.hiddenCategories s)).
Proof.
  unfold Iprice.toggleCategoryVisibility, Iprice.bind, Iprice.gets.
  simpl. destruct (Js.flag (Iprice.hiddenCategories s) "foodpanda");
    reflexivity.
Qed.

Lemma flag_insert_eq (m : gmap string bool) (k : string) (b : bool) :
  Js.flag (<[k := b]> m) k = b.
Proof. unfold Js.flag. rewrite lookup_insert_eq. reflexivity. Qed.

Lemma flag_insert_ne (m : gmap string bool) (k k' : string) (b : bool) :
  k ≠ k' → Js.flag (<[k := b]> m) k' = Js.flag m k'.
Proof.
  intros Hne. unfold Js.flag. rewrite lookup_insert_ne by exact Hne.
  reflexivity.
Qed.

(** What a toggle of one built-in category leaves in the two flags. *)
Lemma toggled_flags (m : gmap string bool) (c o : string) :
  c ≠ o →
  let m' := if Js.flag m c then <[c := false]> m
            else <[o := false]> (<[c := true]> m) in
  Js.flag m' c = negb (Js.flag m c)
  ∧ Js.flag m' o = Js.flag m c && Js.flag m o.
Proof.
  intros Hne. cbv zeta. destruct (Js.flag m c) eqn:E; simpl.
  - rewrite flag_insert_eq, flag_insert_ne by exact Hne.
    split; reflexivity.
  - rewrite flag_insert_ne, !flag_insert_eq by congruence.
    split; reflexivity.
Qed.

(** C7.  On both pages and from every visibility map, a toggle of
    [grabfood] or of [foodpanda] leaves at most one of the two hidden:
    the toggled category changes side, and the other one is hidden
    afterwards only if both were hidden before.  In particular hiding
    one category while the other is hidden makes the other visible. *)
Theorem toggle_keeps_one_visible (category other : string) :
  (category = "grabfood" ∧ other = "foodpanda")
  ∨ (category = "foodpanda" ∧ other = "grabfood") →
  (∀ s : Philstar.State,
     let before := Philstar.hiddenCategories s in
     let after :=
       Philstar.hiddenCategories
         (Philstar.toggleCategoryVisibility category s).2 in
     Js.flag after category = negb (Js.flag before category)
     ∧ Js.flag after other = Js.flag before category && Js.flag before other
     ∧ Js.flag after category && Js.flag after other = false
     ∧ (Js.flag before category = false → Js.flag before other = true →
        Js.flag after category = true ∧ Js.flag after other = false))
  ∧ (∀ s : Iprice.State,
     let before := Iprice.hiddenCategories s in
     let after :=
       Iprice.hiddenCategories
         (Iprice.toggleCategoryVisibility category s).2 in
     Js.flag after category = negb (Js.flag before category)
     ∧ Js.flag after other = Js.flag before category && Js.flag before other
     ∧ Js.flag after category && Js.flag after other = false
     ∧ (Js.flag before category = false → Js.flag before other = true →
        Js.flag after category = true ∧ Js.flag after other = false)).
Proof.
  intros [[-> ->]|[-> ->]]; split; intros s; cbv zeta;
    rewrite ?philstar_toggle_grabfood, ?philstar_toggle_foodpanda,
            ?iprice_toggle_grabfood, ?iprice_toggle_foodpanda;
    match goal with
    | |- context [if Js.flag ?m ?c then <[?c := false]> ?m else <[?o := _]> _] =>
        destruct (toggled_flags m c o ltac:(discriminate)) as [H1 H2];
        cbv zeta in H1, H2; rewrite H1, H2
    end;
    destruct (Js.flag _ _), (Js.flag _ _); simpl;
      repeat split; congruence.
Qed.

End VisibilityFacts.

(** ** Aggregation *)

Section AggregationFacts.

Lemma filter_sublist {A} (p : A → bool) (l : list A) :
  List.filter p l `sublist_of` l.
Proof.
  induction l as [|x l IH]; simpl; [constructor|].
  destruct (p x); [apply sublist_skip|apply sublist_cons]; exact IH.
Qed.

Lemma filter_filter {A} (p q : A → bool) (l : list A) :
  List.filter q (List.filter p l) = List.filter (fun x => p x && q x) l.
Proof.
  induction l as [|x l IH]; simpl; [reflexivity|].
  destruct (p x); simpl; [destruct (q x)|]; rewrite IH; reflexivity.
Qed.

(** C6, as the code has it.  On both pages the display list is the
    custom vouchers in stored order followed by the scraped vouchers in
    extraction order, each after its filters, with nothing reordered.
    The custom vouchers go through the category filter only.  The scraped
    vouchers are dropped when hidden (by id on the detail-fetch page, by
    code on the attribute page), when their category is hidden and, on
    the detail-fetch page, when their code is an excluded sentinel. *)
Theorem combined_is_custom_then_scraped :
  (∀ (cv : list Philstar.CustomVoucher) (da : list Philstar.DiscountArticle)
     (hc : gmap string bool) (hv : list string),
     let customs :=
       List.filter
         (fun v => Philstar.category_visible hc (Philstar.c_merchantName v))
         cv in
     let scrapeds :=
       List.filter
         (fun a =>
            (negb (Js.arr_includes Philstar.excludedCodes
                     (Js.or_else (Philstar.a_couponCode a) ""))
             && negb (Js.arr_includes hv (Philstar.a_id a)))
            && Philstar.category_visible hc (Philstar.a_merchantName a))
         da in
     Philstar.combinedVouchers cv da hc hv =
       (List.map Philstar.Custom customs
        ++ List.map Philstar.Scraped scrapeds)%list
     ∧ customs `sublist_of` cv ∧ scrapeds `sublist_of` da)
  ∧ (∀ (cv : list Iprice.CustomVoucher) (da : list Iprice.DiscountArticle)
       (hc : gmap string bool) (hv : list string),
     let customs :=
       List.filter
         (fun v => Iprice.category_visible hc (Iprice.c_merchantName v))
         cv in
     let scrapeds :=
       List.filter
         (fun a =>
            negb (Js.arr_includes hv
                    (Js.or_else (Iprice.a_couponCode a) ""))
            && Iprice.category_visible hc (Iprice.a_merchantName a))
         da in
     Iprice.combinedVouchers cv da hc hv =
       (List.map Iprice.Custom customs
        ++ List.map Iprice.Scraped scrapeds)%list
     ∧ customs `sublist_of` cv ∧ scrapeds `sublist_of` da).
Proof.
  split; intros cv da hc hv; cbv zeta;
    (split; [|split; apply filter_sublist]).
  - unfold Philstar.combinedVouchers, Philstar.filteredDiscountArticles.
    rewrite filter_filter. f_equal. f_equal.
    apply List.filter_ext. intros a.
    replace (Js.or_else (Some (Philstar.a_id a)) "") with (Philstar.a_id a)
      by (destruct (Philstar.a_id a); reflexivity).
    reflexivity.
  - unfold Iprice.combinedVouchers, Iprice.filteredDiscountArticles.
    rewrite filter_filter. reflexivity.
Qed.

(** C6 as stated fails on the detail-fetch page: a custom voucher whose
    id is in the hidden list stays in the display list, and a scraped
    voucher with an excluded code leaves it although it is neither hidden
    nor of a hidden category. *)
Lemma combined_differs_from_claimed :
  Philstar.combinedVouchers [Examples.mine] [] ∅ ["1700000000000"] =
    [Philstar.Custom Examples.mine]
  ∧ Claimed.combinedVouchers [Examples.mine] [] ∅ ["1700000000000"] = []
  ∧ Philstar.combinedVouchers []
      [Examples.scraped "a1" (Some "NoCodeRequired")] ∅ [] = []
  ∧ Claimed.combinedVouchers []
      [Examples.scraped "a1" (Some "NoCodeRequired")] ∅ [] =
      [Philstar.Scraped (Examples.scraped "a1" (Some "NoCodeRequired"))].
Proof. repeat split; vm_compute; reflexivity. Qed.

End AggregationFacts.

(** ** Extraction and display of the codes *)

Section DisplayFacts.

Lemma not_excluded (c : string) :
  Js.arr_includes Philstar.excludedCodes c = false →
  c ≠ "NoCodeRequired" ∧ c ≠ "NoCouponRequired".
Proof.
  unfold Js.arr_includes, Philstar.excludedCodes. intros H.
  apply bool_decide_eq_false in H.
  split; intros ->; apply H; set_solver.
Qed.

(** C5, as the code has it.  On the attribute page the element with the
    empty code yields no record, the elements with the codes SAVE10 and
    NoCodeRequired yield one record each, and without overlays both are
    drawn as cards with their code: that page has no list of excluded
    codes.  A card never carries an empty or missing code.  On the
    detail-fetch page the card of a scraped voucher never carries an
    excluded code either. *)
Theorem three_codes_extracted_and_shown :
  (∀ (targetUrl : string) (t1 c1 t2 c2 t3 c3 : option string),
     let found :=
       Iprice.extract_page targetUrl
         [ {| Iprice.e_clipboard := Some "SAVE10";
              Iprice.e_title := t1; Iprice.e_content := c1 |};
           {| Iprice.e_clipboard := Some "";
              Iprice.e_title := t2; Iprice.e_content := c2 |};
           {| Iprice.e_clipboard := Some "NoCodeRequired";
              Iprice.e_title := t3; Iprice.e_content := c3 |} ] in
     List.map Iprice.a_couponCode found =
       [Some "SAVE10"; Some "NoCodeRequired"]
     ∧ List.map Iprice.voucherCode
         (Iprice.cards (Iprice.combinedVouchers [] found ∅ [])) =
         [Some "SAVE10"; Some "NoCodeRequired"])
  ∧ (∀ l : list Iprice.Combined,
       List.Forall
         (fun v => Js.truthy_opt (Iprice.voucherCode v) = true)
         (Iprice.cards l))
  ∧ (∀ (cv : list Philstar.CustomVoucher)
       (da : list Philstar.DiscountArticle)
       (hc : gmap string bool) (hv : list string),
       List.Forall
         (fun v =>
            Js.truthy_opt (Philstar.voucherCode v) = true
            ∧ match v with
              | Philstar.Custom _ => True
              | Philstar.Scraped a =>
                  Philstar.a_couponCode a ≠ Some "NoCodeRequired"
                  ∧ Philstar.a_couponCode a ≠ Some "NoCouponRequired"
              end)
         (Philstar.cards (Philstar.combinedVouchers cv da hc hv))).
Proof.
  split; [|split].
  - intros targetUrl t1 c1 t2 c2 t3 c3. cbv zeta.
    unfold Iprice.extract_page, Iprice.combinedVouchers,
      Iprice.filteredDiscountArticles, Iprice.cards,
      Iprice.category_visible, Iprice.merchant_includes. simpl.
    destruct (Js.includes targetUrl "grabfood"); simpl;
      split; reflexivity.
  - intros l. apply List.Forall_forall. intros v Hin.
    apply List.filter_In in Hin. tauto.
  - intros cv da hc hv. apply List.Forall_forall. intros v Hin.
    apply List.filter_In in Hin as [Hin Ht]. split; [exact Ht|].
    apply List.in_app_iff in Hin as [Hin|Hin];
      apply List.in_map_iff in Hin as (x & <- & Hx);
      [exact I|].
    apply List.filter_In in Hx as [Hx _].
    apply List.filter_In in Hx as [_ Hx].
    apply andb_true_iff in Hx as [Hx _].
    apply negb_true_iff in Hx. simpl in *.
    destruct (Philstar.a_couponCode x) as [c|]; simpl in Ht;
      [|discriminate].
    simpl in Hx. rewrite Ht in Hx.
    destruct (not_excluded c Hx). split; congruence.
Qed.

End DisplayFacts.

(** C5 as stated fails on the attribute page: after a refresh over a
    list page with the three codes, two cards carry a code, and one of
    them is the sentinel. *)
Lemma sentinel_code_is_shown :
  List.map Iprice.voucherCode
    (Iprice.shown
       (Iprice.fetchGrabFoodVouchers false
          (IpriceExamples.blank IpriceExamples.three_codes)).2) =
    [Some "SAVE10"; Some "NoCodeRequired"].
Proof. vm_compute. reflexivity. Qed.

(** ** The detail fetch and the progressive loop *)

Section FetchFacts.
Import Philstar Cache Detail.

Context `{!JSON CachedVoucherData} `{!JSON (gmap string bool)}.

Lemma full_read_trace (i : string) (s : State) :
  trace (getCachedVoucherDataFull i s).2 = trace s.
Proof.
  full_read_cases i s.
Qed.

Lemma full_read_network (i : string) (s : State) :
  network (getCachedVoucherDataFull i s).2 = network s.
Proof.
  full_read_cases i s.
Qed.

Lemma full_read_articles (i : string) (s : State) :
  discountArticles (getCachedVoucherDataFull i s).2 = discountArticles s.
Proof.
  full_read_cases i s.
Qed.

Lemma write_trace (i : string) (d : VoucherData) (s : State) :
  trace (setCachedVoucherData i d s).2 = trace s.
Proof.
  rewrite setCachedVoucherData_run. cbv zeta. simpl.
  apply full_read_trace.
Qed.

(** A read that misses leaves nothing that a second read could hit. *)
Lemma miss_stays_miss (i : string) (s : State) :
  live s i = None → entry (getCachedVoucherDataFull i s).2 i = None.
Proof.
  intros H. rewrite entry_after_full_read.
  rewrite bool_decide_eq_true_2 by reflexivity. rewrite andb_true_r.
  apply live_None_iff in H as [H|H]; [|rewrite H; reflexivity].
  rewrite H. destruct (expired s i); reflexivity.
Qed.

Lemma entry_None_live (i : string) (s : State) :
  entry s i = None → live s i = None.
Proof. unfold live. intros ->. reflexivity. Qed.

(** The detail fetch on a hit: the payload of the entry, nothing sent. *)
Lemma fetchVoucherCode_hit (i : string) (s : State) (c : CachedVoucherData) :
  live s i = Some c →
  fetchVoucherCode i s = (Some (data c), (getCachedVoucherDataFull i s).2).
Proof.
  intros H. unfold fetchVoucherCode, bind.
  rewrite getCachedVoucherData_run, full_read_result, H. reflexivity.
Qed.

(** The detail fetch on a miss: one request, and the decoded answer is
    written to the cache and returned. *)
Lemma fetchVoucherCode_miss (i : string) (s : State) :
  live s i = None →
  let s1 := (getCachedVoucherDataFull i s).2 in
  let s2 := with_trace (trace s1 ++ [Fetch (detail_url i)]) s1 in
  fetchVoucherCode i s =
    match outcome (answer s i) with
    | None => (None, s2)
    | Some r => (Some r, (setCachedVoucherData i r s2).2)
    end.
Proof.
  intros H. cbv zeta. unfold fetchVoucherCode, bind, answer.
  rewrite getCachedVoucherData_run, full_read_result, H. simpl.
  unfold fetch. rewrite full_read_trace, full_read_network.
  unfold outcome.
  destruct (network s (length (trace s)) (detail_url i))
    as [msg|status body]; [reflexivity|].
  destruct (ok status); simpl; [|reflexivity].
  destruct (json body) as [| |d]; try reflexivity.
  destruct (d_cta d) as [c|]; [|reflexivity].
  simpl. unfold combinedCta.
  destruct (Js.template (heading c)) as [h|];
    [|destruct (d_code d); reflexivity].
  destruct (Js.template (value c)) as [v|];
    [|destruct (d_code d); reflexivity].
  unfold record, clean_code.
  destruct (d_code d) as [|code|]; simpl; try reflexivity.
  - destruct (setCachedVoucherData i _ _) as [[] s3]. reflexivity.
  - destruct (Js.truthy code); simpl.
    + destruct (shouldExcludeCode (Js.strip_non_alnum code)); simpl;
        destruct (setCachedVoucherData i _ _) as [[] s3]; reflexivity.
    + destruct (setCachedVoucherData i _ _) as [[] s3]. reflexivity.
Qed.

Lemma fetchVoucherCode_result (i : string) (s : State) :
  (fetchVoucherCode i s).1 =
    match live s i with
    | Some c => Some (data c)
    | None => outcome (answer s i)
    end.
Proof.
  destruct (live s i) as [c|] eqn:H.
  - rewrite (fetchVoucherCode_hit i s c H). reflexivity.
  - pose proof (fetchVoucherCode_miss i s H) as Hm. cbv zeta in Hm.
    rewrite Hm. destruct (outcome (answer s i)); reflexivity.
Qed.

Lemma clean_code_not_excluded (d : DetailData) :
  match clean_code d with
  | Some k => shouldExcludeCode k = false
  | None => True
  end.
Proof.
  unfold clean_code. destruct (d_code d) as [|c|]; try exact I.
  destruct (Js.truthy c); [|exact I].
  destruct (shouldExcludeCode (Js.strip_non_alnum c)) eqn:E; [exact I|].
  exact E.
Qed.

(** C9, as the code has it.  The detail fetch always returns: the payload
    of an unexpired cache entry when there is one, and otherwise null
    when the request fails, the status is not 2xx, the body is not JSON,
    is not an object, has no [cta] object, has a [cta] heading or value
    whose conversion to a string throws, or has a truthy code that is not
    a string.  Every other answer gives a record: its call to action is
    the trimmed text of the heading, a space and the value, a missing
    member being spelled [undefined] and a null one [null]; its code is
    the cleaned code, and null when the code is missing, empty or
    excluded; the missing headline, description and merchant are replaced
    by their placeholders. *)
Theorem detail_fetch_returns_record_or_null (i : string) (s : State) :
  let r := (fetchVoucherCode i s).1 in
  match live s i with
  | Some c => r = Some (data c)
  | None =>
      match answer s i with
      | NetworkError _ => r = None
      | Http status body =>
          if ok status then
            match json body with
            | Malformed => r = None
            | NotAnObject => r = None
            | Object d =>
                match d_cta d with
                | None => r = None
                | Some c =>
                    match heading c, value c with
                    | Js.Unconvertible, _ | _, Js.Unconvertible => r = None
                    | h, v =>
                        match d_code d with
                        | CodeOther => r = None
                        | _ =>
                            ∃ rec,
                              r = Some rec
                              ∧ (∃ t u,
                                   Js.template h = Some t
                                   ∧ Js.template v = Some u
                                   ∧ (h = Js.Undefined → t = "undefined")
                                   ∧ (h = Js.Null → t = "null")
                                   ∧ (v = Js.Undefined → u = "undefined")
                                   ∧ (v = Js.Null → u = "null")
                                   ∧ cta rec = Some (Js.trim (t ++ " " ++ u)))
                              ∧ headline rec =
                                  Some (Js.or_else
                                          (Js.or_opt (d_headline d) (d_title d))
                                          "No headline available")
                              ∧ description rec =
                                  Some (Js.or_else
                                          (Js.or_opt (d_description d)
                                                     (d_content d))
                                          "No description available")
                              ∧ merchantName rec =
                                  Some (Js.or_else (d_merchant d ≫= name)
                                                   "Unknown merchant")
                              ∧ code rec = clean_code d
                              ∧ match clean_code d with
                                | Some k =>
                                    shouldExcludeCode k = false
                                    ∧ ∃ raw, d_code d = CodeString raw
                                             ∧ k = Js.strip_non_alnum raw
                                | None => True
                                end
                        end
                    end
                end
            end
          else r = None
      end
  end.
Proof.
  cbv zeta. rewrite fetchVoucherCode_result.
  destruct (live s i) as [c|]; [reflexivity|].
  unfold outcome. destruct (answer s i) as [msg|status body]; [reflexivity|].
  destruct (ok status); [|reflexivity].
  destruct (json body) as [| |d]; try reflexivity.
  destruct (d_cta d) as [c|]; [|reflexivity].
  pose proof (clean_code_not_excluded d) as Hex.
  assert (Hcode : match clean_code d with
                  | Some k =>
                      shouldExcludeCode k = false
                      ∧ ∃ raw, d_code d = CodeString raw
                               ∧ k = Js.strip_non_alnum raw
                  | None => True
                  end).
  { unfold clean_code in *. destruct (d_code d) as [|raw|]; try exact I.
    destruct (Js.truthy raw); [|exact I].
    destruct (shouldExcludeCode (Js.strip_non_alnum raw)); [exact I|].
    split; [exact Hex|]. exists raw. split; reflexivity. }
  simpl. unfold combinedCta.
  destruct (heading c) as [| |[]|hs|hs|] eqn:Hh;
    destruct (value c) as [| |[]|vs|vs|] eqn:Hv; simpl;
    destruct (d_code d) as [|raw|] eqn:Hd; try reflexivity;
    (eexists; split; [reflexivity|];
     split;
       [do 2 eexists; split; [reflexivity|]; split; [reflexivity|];
        repeat split; (discriminate || reflexivity)
       |repeat split; exact Hcode]).
Qed.

Lemma fetchVoucherCode_miss_trace (i : string) (s : State) :
  live s i = None →
  trace (fetchVoucherCode i s).2 = (trace s ++ [Fetch (detail_url i)])%list.
Proof.
  intros H. pose proof (fetchVoucherCode_miss i s H) as Hm.
  cbv zeta in Hm. rewrite Hm.
  destruct (outcome (answer s i)) as [r|]; simpl.
  - rewrite write_trace. simpl. rewrite full_read_trace. reflexivity.
  - rewrite full_read_trace. reflexivity.
Qed.

(** One turn of the loop, on a hit. *)
Lemma resolve_article_hit (n : nat) (article : DiscountArticle) (s : State)
    (c : CachedVoucherData) :
  live s (a_id article) = Some c →
  let s' := (resolve_article n article s).2 in
  trace s' = trace s
  ∧ localStorage s' = localStorage s
  ∧ discountArticles s' =
      if Js.truthy_opt (code (data c))
      then alter (splice (data c)) n (discountArticles s)
      else discountArticles s.
Proof.
  intros H. cbv zeta. unfold resolve_article, bind.
  rewrite getCachedVoucherData_run, full_read_result, H. simpl.
  pose proof (full_read_trace (a_id article) s) as Ht.
  pose proof (full_read_storage (a_id article) s) as Hs.
  pose proof (full_read_articles (a_id article) s) as Ha.
  rewrite (live_not_expired (a_id article) s) in Hs by (rewrite H; eauto).
  destruct (Js.truthy_opt (code (data c))); simpl;
    rewrite ?Ht, ?Hs, ?Ha; repeat split; reflexivity.
Qed.

(** One turn of the loop, on a miss: one request, then the wait. *)
Lemma resolve_article_miss (n : nat) (article : DiscountArticle) (s : State) :
  live s (a_id article) = None →
  trace (resolve_article n article s).2 =
    (trace s ++ miss_events (a_id article))%list.
Proof.
  intros H. unfold resolve_article, bind.
  rewrite getCachedVoucherData_run, full_read_result, H. simpl.
  pose proof (fetchVoucherCode_miss_trace (a_id article)
                (getCachedVoucherDataFull (a_id article) s).2
                (entry_None_live _ _ (miss_stays_miss _ _ H))) as Ht.
  rewrite full_read_trace in Ht.
  destruct (fetchVoucherCode (a_id article) _) as [v s3]. simpl in Ht.
  unfold miss_events.
  destruct v as [v|]; [destruct (Js.truthy_opt (code v))|]; simpl;
    rewrite Ht, <- app_assoc; reflexivity.
Qed.

Lemma resolve_details_trace (n : nat) (l : list DiscountArticle) (s : State) :
  ∃ misses,
    misses `sublist_of` (a_id <$> l)
    ∧ trace (resolve_details n l s).2 =
        (trace s ++ flat_map miss_events misses)%list.
Proof.
  revert n s. induction l as [|a l IH]; intros n s.
  - exists []. split; [constructor|]. simpl. rewrite app_nil_r. reflexivity.
  - simpl. unfold bind.
    destruct (resolve_article n a s) as [[] s1] eqn:E.
    destruct (IH (S n) s1) as (misses & Hsub & Htr).
    assert (Hs1 : s1 = (resolve_article n a s).2) by (rewrite E; reflexivity).
    destruct (live s (a_id a)) as [c|] eqn:H.
    + destruct (resolve_article_hit n a s c H) as (Ht & _).
      exists misses. split; [apply sublist_cons, Hsub|].
      rewrite Htr, Hs1, Ht. reflexivity.
    + exists (a_id a :: misses). split; [apply sublist_skip, Hsub|].
      rewrite Htr, Hs1, (resolve_article_miss n a s H).
      simpl. rewrite <- app_assoc. reflexivity.
Qed.

(** C8, as the code has it.  A turn of the progressive loop on an
    article whose cache entry is there and unexpired sends no request and
    waits for nothing, and leaves the store as it is; the detail fetch
    itself, called on such an article, returns the cached payload without
    a request.  The cached fields are used only when the cached code is
    non-empty: then the article at the index of the turn takes the code,
    the call to action, the headline, the description and the merchant
    name of the entry and keeps its id, type, title and content; with a
    cached code that is null or empty the list of articles is left as it
    is.  No other article is touched.  A turn on an article without such
    an entry sends exactly one detail request and then waits 500 ms.  So
    the events of the whole loop are, for a subsequence of the articles,
    the request of the article followed by the wait. *)
Theorem cache_hit_sends_no_request (n : nat) (l : list DiscountArticle)
    (s : State) :
  (∀ (article : DiscountArticle) (s0 : State),
     let i := a_id article in
     let s' := (resolve_article n article s0).2 in
     match live s0 i with
     | Some c =>
         trace s' = trace s0
         ∧ localStorage s' = localStorage s0
         ∧ (fetchVoucherCode i s0).1 = Some (data c)
         ∧ trace (fetchVoucherCode i s0).2 = trace s0
         ∧ length (discountArticles s') = length (discountArticles s0)
         ∧ (∀ m, m ≠ n →
                 discountArticles s' !! m = discountArticles s0 !! m)
         ∧ (∀ a, discountArticles s0 !! n = Some a →
                 ∃ a',
                   discountArticles s' !! n = Some a'
                   ∧ a_id a' = a_id a
                   ∧ a_dataType a' = a_dataType a
                   ∧ a_title a' = a_title a
                   ∧ a_content a' = a_content a
                   ∧ if Js.truthy_opt (code (data c)) then
                       a_couponCode a' = code (data c)
                       ∧ a_cta a' = cta (data c)
                       ∧ a_headline a' = headline (data c)
                       ∧ a_description a' = description (data c)
                       ∧ a_merchantName a' = merchantName (data c)
                     else a' = a)
         ∧ (Js.truthy_opt (code (data c)) = false →
            discountArticles s' = discountArticles s0)
     | None => trace s' = (trace s0 ++ miss_events i)%list
     end)
  ∧ ∃ misses,
      misses `sublist_of` (a_id <$> l)
      ∧ trace (resolve_details n l s).2 =
          (trace s ++ flat_map miss_events misses)%list.
Proof.
  split; [|apply resolve_details_trace].
  intros article s0. cbv zeta.
  destruct (live s0 (a_id article)) as [c|] eqn:H;
    [|apply resolve_article_miss, H].
  destruct (resolve_article_hit n article s0 c H) as (Ht & Hs & Ha).
  rewrite (fetchVoucherCode_hit _ _ _ H). simpl.
  rewrite full_read_trace.
  split; [exact Ht|]. split; [exact Hs|].
  split; [reflexivity|]. split; [reflexivity|].
  rewrite Ha. clear Ha.
  destruct (Js.truthy_opt (code (data c))).
  - split; [apply length_alter|].
    split; [intros m Hm; apply list_lookup_alter_ne; congruence|].
    split; [|discriminate].
    intros a Hn. exists (splice (data c) a).
    split; [|repeat split].
    rewrite list_lookup_alter, Hn, decide_True by reflexivity.
    reflexivity.
  - split; [reflexivity|]. split; [reflexivity|].
    split; [|reflexivity].
    intros a Hn. exists a. repeat split. exact Hn.
Qed.

End FetchFacts.

(** ** The forced refresh *)

Section RefreshFacts.
Import Philstar Cache Detail Refresh.

Context `{!JSON CachedVoucherData} `{!JSON (gmap string bool)}.

Lemma startsWith_app (p s : string) : Js.startsWith (p ++ s) p = true.
Proof.
  unfold Js.startsWith. induction p as [|a p IH]; simpl.
  - destruct s; reflexivity.
  - destruct (ascii_dec a a) as [_|Hne]; [exact IH|contradiction].
Qed.

Lemma purge_storage (s : State) :
  localStorage (purge s).2 =
    delete CATEGORY_VISIBILITY_KEY
      (filter (fun kv => Js.startsWith kv.1 CACHE_KEY = false)
              (localStorage s)).
Proof. reflexivity. Qed.

Lemma purge_no_cache_key (s : State) (key : string) :
  Js.startsWith key CACHE_KEY = true → localStorage (purge s).2 !! key = None.
Proof.
  intros Hk. rewrite purge_storage.
  destruct (decide (key = CATEGORY_VISIBILITY_KEY)) as [->|Hne];
    [apply lookup_delete_eq|].
  rewrite lookup_delete_ne by congruence.
  apply map_lookup_filter_None_2. right. intros x _. simpl. congruence.
Qed.

Lemma purge_no_entry (s : State) (i : string) : entry (purge s).2 i = None.
Proof.
  unfold entry, stored.
  rewrite purge_no_cache_key; [reflexivity|]. apply startsWith_app.
Qed.

Lemma purge_other_keys (s : State) (key : string) :
  Js.startsWith key CACHE_KEY = false → key ≠ CATEGORY_VISIBILITY_KEY →
  localStorage (purge s).2 !! key = localStorage s !! key.
Proof.
  intros Hk Hne. rewrite purge_storage, lookup_delete_ne by congruence.
  destruct (localStorage s !! key) as [x|] eqn:Hx.
  - apply map_lookup_filter_Some_2; assumption.
  - apply map_lookup_filter_None_2. left. exact Hx.
Qed.

(** The loop over the list pages leaves the store alone, and when it
    ends without an exception it has requested every page. *)
Lemma fetch_pages_storage (urls : list string) (acc : list DiscountArticle)
    (ids : list string) (s : State) :
  localStorage (fetch_pages urls acc ids s).2 = localStorage s.
Proof.
  revert acc ids s. induction urls as [|u urls IH]; intros acc ids s;
    [reflexivity|].
  simpl. unfold bind, fetch.
  destruct (network s (length (trace s)) u) as [msg|status body];
    [reflexivity|].
  destruct (ok status); simpl; rewrite IH; reflexivity.
Qed.

Lemma fetch_pages_trace (urls : list string) (acc : list DiscountArticle)
    (ids : list string) (s q : State)
    (r : list DiscountArticle * list string) :
  fetch_pages urls acc ids s = (inr r, q) →
  trace q = (trace s ++ (Fetch <$> urls))%list.
Proof.
  revert acc ids s. induction urls as [|u urls IH]; intros acc ids s H.
  - injection H as _ <-. simpl. rewrite app_nil_r. reflexivity.
  - simpl in H. unfold bind, fetch in H.
    destruct (network s (length (trace s)) u) as [msg|status body];
      [discriminate|].
    destruct (ok status); simpl in H; apply IH in H; rewrite H; simpl;
      rewrite <- app_assoc; reflexivity.
Qed.

Lemma fetchVoucherCode_entry_ne (i j : string) (s : State) :
  i ≠ j → entry (fetchVoucherCode i s).2 j = entry s j.
Proof.
  intros Hne.
  assert (Hr : entry (getCachedVoucherDataFull i s).2 j = entry s j).
  { rewrite entry_after_full_read.
    rewrite bool_decide_eq_false_2 by congruence.
    rewrite andb_false_r. reflexivity. }
  destruct (live s i) as [c|] eqn:H.
  - rewrite (fetchVoucherCode_hit i s c H). exact Hr.
  - pose proof (fetchVoucherCode_miss i s H) as Hm. cbv zeta in Hm.
    rewrite Hm. destruct (outcome (answer s i)) as [r|]; simpl.
    + rewrite write_entry_ne by exact Hne. exact Hr.
    + exact Hr.
Qed.

Lemma resolve_article_entry_ne (n : nat) (a : DiscountArticle) (j : string)
    (s : State) :
  a_id a ≠ j → entry (resolve_article n a s).2 j = entry s j.
Proof.
  intros Hne. unfold resolve_article, bind.
  rewrite getCachedVoucherData_run. simpl.
  assert (Hr : entry (getCachedVoucherDataFull (a_id a) s).2 j = entry s j).
  { rewrite entry_after_full_read.
    rewrite bool_decide_eq_false_2 by congruence.
    rewrite andb_false_r. reflexivity. }
  destruct ((getCachedVoucherDataFull (a_id a) s).1) as [c|]; simpl.
  - destruct (Js.truthy_opt (code (data c))); exact Hr.
  - pose proof (fetchVoucherCode_entry_ne (a_id a) j
                  (getCachedVoucherDataFull (a_id a) s).2 Hne) as Hf.
    destruct (fetchVoucherCode (a_id a) _) as [v s3]. simpl in Hf.
    destruct v as [v|]; [destruct (Js.truthy_opt (code v))|]; simpl;
      unfold entry in *; simpl; rewrite Hf; exact Hr.
Qed.

(** Over a cache that holds none of the articles, the loop requests
    every one of them, in order. *)
Lemma resolve_details_cold (l : list DiscountArticle) (n : nat) (s : State) :
  NoDup (a_id <$> l) →
  (∀ a, a ∈ l → entry s (a_id a) = None) →
  trace (resolve_details n l s).2 =
    (trace s ++ flat_map miss_events (a_id <$> l))%list.
Proof.
  revert n s. induction l as [|a l IH]; intros n s Hnd Hcold.
  - simpl. rewrite app_nil_r. reflexivity.
  - rewrite fmap_cons in Hnd. apply NoDup_cons in Hnd as [Hfresh Hnd].
    simpl. unfold bind.
    pose proof (resolve_article_miss n a s
                  (entry_None_live _ _ (Hcold a ltac:(left)))) as Ht.
    assert (Hcold' : ∀ a', a' ∈ l →
              entry (resolve_article n a s).2 (a_id a') = None).
    { intros a' Hin. rewrite resolve_article_entry_ne.
      - apply Hcold. right. exact Hin.
      - intros Heq. apply Hfresh. rewrite Heq.
        apply list_elem_of_fmap_2. exact Hin. }
    destruct (resolve_article n a s) as [[] s1]. simpl in *.
    rewrite (IH (S n) s1 Hnd Hcold'), Ht.
    rewrite <- app_assoc. reflexivity.
Qed.

End RefreshFacts.

(** ** The hard refresh of the attribute page *)

Section HardRefreshFacts.

Context `{!JSON (list string)} `{!JSON (gmap string bool)}.

Lemma iprice_fetch_pages_frame (hard : bool) (urls : list string)
    (acc : list Iprice.DiscountArticle) (s : Iprice.State) :
  let q := (Iprice.fetch_pages hard urls acc s).2 in
  Iprice.hiddenVouchers q = Iprice.hiddenVouchers s
  ∧ Iprice.hiddenCategories q = Iprice.hiddenCategories s
  ∧ Iprice.localStorage q = Iprice.localStorage s.
Proof.
  revert acc s. induction urls as [|u urls IH]; intros acc s; cbv zeta;
    [repeat split|].
  simpl. unfold Iprice.bind, Iprice.fetch.
  destruct (Iprice.network s (length (Iprice.trace s)) u)
    as [msg|status els]; [repeat split|].
  destruct (Iprice.ok status); simpl;
    match goal with
    | |- context [Iprice.fetch_pages hard urls ?a ?q] =>
        destruct (IH a q) as (H1 & H2 & H3); rewrite H1, H2, H3
    end; repeat split.
Qed.

(** The forced refresh of the attribute page has no cache to purge: it
    empties the list of hidden codes and removes its stored copy, and it
    leaves the category visibility as it is. *)
Lemma iprice_hard_refresh_clears_hidden_codes (s : Iprice.State) :
  let s' := (Iprice.fetchGrabFoodVouchers true s).2 in
  Iprice.hiddenVouchers s' = []
  ∧ Iprice.localStorage s' = delete "hidden-vouchers" (Iprice.localStorage s)
  ∧ Iprice.hiddenCategories s' = Iprice.hiddenCategories s.
Proof.
  cbv zeta.
  unfold Iprice.fetchGrabFoodVouchers, Iprice.bind, Iprice.removeItem,
    Iprice.modify. cbv beta iota.
  match goal with
  | |- context [Iprice.fetch_pages true Iprice.targetUrls [] ?q] =>
      destruct (iprice_fetch_pages_frame true Iprice.targetUrls [] q)
        as (H1 & H2 & H3);
      destruct (Iprice.fetch_pages true Iprice.targetUrls [] q)
        as [[msg|arts] q']
  end; simpl in *; rewrite H1, H2, H3; repeat split.
Qed.

End HardRefreshFacts.

(** ** The pages on concrete states *)

Section PageExamples.
Import Philstar Cache Detail Refresh Examples.

Lemma toggle_keeps_one_visible_witness :
  let after :=
    hiddenCategories (toggleCategoryVisibility "grabfood" foodpanda_hidden).2 in
  Js.flag after "grabfood" = true ∧ Js.flag after "foodpanda" = false.
Proof.
  refine (proj2 (proj2 (proj2 (proj1
            (toggle_keeps_one_visible "grabfood" "foodpanda" _)
            foodpanda_hidden))) _ _).
  - left. split; reflexivity.
  - vm_compute. reflexivity.
  - vm_compute. reflexivity.
Defined.

(** C9 as stated fails: the answer lacks the code, the headline, the
    description and the merchant, and the detail fetch returns a record,
    not null. *)
Lemma missing_members_still_give_a_record :
  (fetchVoucherCode "a1" (blank (fun _ => 1) (answers bare_answer))).1 =
    Some {| code := None; cta := Some "Get 10% off";
            headline := Some "No headline available";
            description := Some "No description available";
            merchantName := Some "Unknown merchant" |}.
Proof. vm_compute. reflexivity. Qed.

(** A complete answer: the code is cleaned, the record is cached, and
    the next turn of the loop on the same article sends nothing. *)
Example complete_answer_is_cleaned_and_cached :
  let s := blank (fun _ => 1) (answers full_answer) in
  let s' := (fetchVoucherCode "a1" s).2 in
  (fetchVoucherCode "a1" s).1 =
    Some {| code := Some "SAVE10"; cta := Some "Get 10% off";
            headline := Some "Ten percent";
            description := Some "On all orders";
            merchantName := Some "GrabFood" |}
  ∧ trace s' = [Fetch (detail_url "a1")]
  ∧ trace (resolve_article 0 (scraped "a1" None) s').2 = trace s'.
Proof. repeat split; vm_compute; reflexivity. Qed.

End PageExamples.

(** ** Further properties of the cache *)

Section CacheFootprint.
Import Philstar Cache Detail Frame.

Context `{!JSON CachedVoucherData} `{!JSON (gmap string bool)}.

Lemma full_read_lookup_ne (i key : string) (s : State) :
  key ≠ cache_key i →
  localStorage (getCachedVoucherDataFull i s).2 !! key = localStorage s !! key.
Proof.
  intros Hne. rewrite full_read_storage.
  destruct (expired s i); [|reflexivity].
  apply lookup_delete_ne. congruence.
Qed.

Lemma write_lookup_ne (i key : string) (d : VoucherData) (s : State) :
  key ≠ cache_key i →
  localStorage (setCachedVoucherData i d s).2 !! key = localStorage s !! key.
Proof.
  intros Hne. rewrite setCachedVoucherData_run. cbv zeta. simpl.
  rewrite lookup_insert_ne by congruence.
  apply full_read_lookup_ne, Hne.
Qed.

Lemma hide_lookup_ne (i key : string) (s : State) :
  key ≠ cache_key i →
  localStorage (hideVoucher i s).2 !! key = localStorage s !! key.
Proof.
  intros Hne. unfold hideVoucher, bind, gets.
  destruct (negb (Js.arr_includes (hiddenVouchers s) i)); [|reflexivity].
  pose proof (full_read_lookup_ne i key s Hne) as Hr.
  destruct (getCachedVoucherDataFull i s) as [[c|] s1]; simpl in *;
    rewrite lookup_insert_ne by congruence; exact Hr.
Qed.

Lemma fetchVoucherCode_lookup_ne (i key : string) (s : State) :
  key ≠ cache_key i →
  localStorage (fetchVoucherCode i s).2 !! key = localStorage s !! key.
Proof.
  intros Hne. pose proof (full_read_lookup_ne i key s Hne) as Hr.
  destruct (live s i) as [c|] eqn:H.
  - rewrite (fetchVoucherCode_hit i s c H). exact Hr.
  - pose proof (fetchVoucherCode_miss i s H) as Hm. cbv zeta in Hm.
    rewrite Hm. destruct (outcome (answer s i)) as [r|]; simpl.
    + rewrite write_lookup_ne by exact Hne. exact Hr.
    + exact Hr.
Qed.

(** X1.  Every cache operation on an article reads and writes the one
    key of that article: all other keys of the store, those of other
    articles included, are left as they are. *)
Theorem cache_operations_touch_one_key (i key : string) (d : VoucherData)
    (s : State) :
  key ≠ cache_key i →
  localStorage (getCachedVoucherData i s).2 !! key = localStorage s !! key
  ∧ localStorage (getCachedVoucherDataFull i s).2 !! key
      = localStorage s !! key
  ∧ localStorage (setCachedVoucherData i d s).2 !! key
      = localStorage s !! key
  ∧ localStorage (hideVoucher i s).2 !! key = localStorage s !! key
  ∧ localStorage (fetchVoucherCode i s).2 !! key = localStorage s !! key.
Proof.
  intros Hne. rewrite getCachedVoucherData_run. simpl.
  repeat split.
  - apply full_read_lookup_ne, Hne.
  - apply full_read_lookup_ne, Hne.
  - apply write_lookup_ne, Hne.
  - apply hide_lookup_ne, Hne.
  - apply fetchVoucherCode_lookup_ne, Hne.
Qed.

Lemma write_clock (i : string) (d : VoucherData) (s : State) :
  clock (setCachedVoucherData i d s).2 = clock s.
Proof. apply write_entry. Qed.

(** X2.  A detail fetch that gets a usable answer leaves it in the
    cache: a second fetch of the article, made before the two months
    are over, returns the same record and sends nothing. *)
Theorem successful_detail_fetch_is_cached (i : string) (s : State)
    (r : VoucherData) :
  live s i = None →
  outcome (answer s i) = Some r →
  let s1 := (fetchVoucherCode i s).2 in
  now s1 <= last_reading s s1 + CACHE_DURATION →
  (fetchVoucherCode i s).1 = Some r
  ∧ (fetchVoucherCode i s1).1 = Some r
  ∧ trace (fetchVoucherCode i s1).2 = trace s1.
Proof.
  intros Hmiss Hout. cbv zeta.
  pose proof (fetchVoucherCode_miss i s Hmiss) as Hm. cbv zeta in Hm.
  rewrite Hout in Hm. rewrite Hm. simpl.
  set (s2 := with_trace _ _) in *.
  destruct (write_entry i r s2) as [He Hc]. cbv zeta in He.
  intros Hnow.
  assert (Hlast : last_reading s (setCachedVoucherData i r s2).2
                  = last_reading s2 (setCachedVoucherData i r s2).2).
  { unfold last_reading. subst s2. simpl. rewrite full_read_clock.
    reflexivity. }
  rewrite Hlast in Hnow.
  assert (Hlive : live (setCachedVoucherData i r s2).2 i
                  = Some {| data := r;
                            expire := last_reading s2
                                        (setCachedVoucherData i r s2).2
                                      + CACHE_DURATION;
                            hidden := Some (kept_hidden s2 i) |}).
  { unfold live. rewrite He. simpl.
    unfold last_reading in Hnow. simpl in Hnow.
    destruct (now _ >? _) eqn:E; [lia|reflexivity]. }
  split; [reflexivity|].
  rewrite (fetchVoucherCode_hit _ _ _ Hlive). simpl.
  split; [reflexivity|]. apply full_read_trace.
Qed.

(** X3.  A detail fetch that fails caches nothing: the article still has
    no entry, and the next fetch of it sends the request again. *)
Theorem failed_detail_fetch_is_not_cached (i : string) (s : State) :
  live s i = None →
  outcome (answer s i) = None →
  let s1 := (fetchVoucherCode i s).2 in
  (fetchVoucherCode i s).1 = None
  ∧ entry s1 i = None
  ∧ trace (fetchVoucherCode i s1).2
      = (trace s ++ [Fetch (detail_url i); Fetch (detail_url i)])%list.
Proof.
  intros Hmiss Hout. cbv zeta.
  pose proof (fetchVoucherCode_miss i s Hmiss) as Hm. cbv zeta in Hm.
  rewrite Hout in Hm. rewrite Hm. simpl.
  pose proof (miss_stays_miss i s Hmiss) as He.
  split; [reflexivity|]. split; [exact He|].
  rewrite fetchVoucherCode_miss_trace.
  - simpl. rewrite full_read_trace, <- app_assoc. reflexivity.
  - apply entry_None_live. exact He.
Qed.

End CacheFootprint.

(** ** The hidden vouchers, read back from the store *)

Section ReloadFacts.
Import Philstar PhilstarStore Cache Frame.

Context `{!JSON CachedVoucherData} `{!JSON (gmap string bool)}.

Lemma replace_cache_key (i : string) :
  JsString.replace (cache_key i) (CACHE_KEY ++ "-") "" = i.
Proof. destruct i; reflexivity. Qed.

Lemma cached_at_cache_key (ls : gmap string string) (i : string) :
  cached_at ls (cache_key i) = stored ls i.
Proof. reflexivity. Qed.

Lemma load_hidden_run (keys : list string) (s : State) :
  Forall (decodes (localStorage s)) keys →
  load_hidden keys s =
    (tt, with_hiddenVouchers
           (hiddenVouchers s ++ flagged (localStorage s) keys) s).
Proof.
  revert s. induction keys as [|key rest IH]; intros s Hdec.
  - unfold flagged. simpl. rewrite app_nil_r. destruct s; reflexivity.
  - apply Forall_cons in Hdec as [Hkey Hrest].
    unfold flagged. simpl. unfold cached_at.
    destruct (Js.truthy key && Js.startsWith key CACHE_KEY) eqn:Hk; simpl;
      [|apply IH, Hrest].
    apply andb_true_iff in Hk as [_ Hk].
    unfold bind at 1, getItem, gets.
    destruct (localStorage s !! key) as [text|] eqn:Ht; simpl;
      [|apply IH, Hrest].
    destruct (Js.truthy text) eqn:Htr; simpl; [|apply IH, Hrest].
    destruct (Hkey Hk text Ht Htr) as [c Hc]. rewrite Hc. simpl.
    unfold bind.
    destruct (match hidden c with Some b => b | None => false end); simpl.
    + rewrite IH by exact Hrest. simpl. rewrite <- app_assoc. reflexivity.
    + apply IH, Hrest.
Qed.

Lemma elem_of_flagged (ls : gmap string string) (keys : list string)
    (i : string) :
  i ∈ flagged ls keys ↔
    ∃ key c, key ∈ keys ∧ cached_at ls key = Some c
             ∧ hidden c = Some true
             ∧ i = JsString.replace key (CACHE_KEY ++ "-") "".
Proof.
  unfold flagged. rewrite list_elem_of_omap. split.
  - intros (key & Hin & Hsome).
    destruct (cached_at ls key) as [c|] eqn:Hc; [|discriminate].
    destruct (hidden c) as [[]|] eqn:Hh; try discriminate.
    injection Hsome as <-. exists key, c. auto.
  - intros (key & c & Hin & Hc & Hh & ->). exists key.
    split; [exact Hin|]. rewrite Hc, Hh. reflexivity.
Qed.

(** X4.  A reload finds the hidden vouchers again.  When no cache text
    makes the decoder throw, the list rebuilt by [loadHiddenVouchers]
    contains every article whose key is enumerated and whose entry
    carries the hidden flag, whatever the clock shows: the reload does
    not read the clock, so an expired entry still hides its article.
    When the enumerated cache keys are keys of articles, the list
    contains nothing else.  The store is not changed. *)
Theorem reload_finds_hidden_vouchers (keys : list string) (s : State) :
  Forall (decodes (localStorage s)) keys →
  let s' := (loadHiddenVouchers keys s).2 in
  (∀ i, cache_key i ∈ keys → is_hidden s i → i ∈ hiddenVouchers s')
  ∧ ((∀ key, key ∈ keys → Js.startsWith key CACHE_KEY = true →
             ∃ j, key = cache_key j) →
     ∀ i, i ∈ hiddenVouchers s' → cache_key i ∈ keys ∧ is_hidden s i)
  ∧ localStorage s' = localStorage s
  ∧ ticks s' = ticks s.
Proof.
  intros Hdec. cbv zeta. unfold loadHiddenVouchers, bind, modify.
  rewrite load_hidden_run by exact Hdec. simpl.
  split; [|split; [|split; reflexivity]].
  - intros i Hin (c & He & Hh). apply elem_of_flagged.
    exists (cache_key i), c. rewrite cached_at_cache_key.
    split; [exact Hin|]. split; [exact He|]. split; [exact Hh|].
    symmetry. apply replace_cache_key.
  - intros Hwf i Hi. apply elem_of_flagged in Hi
      as (key & c & Hin & Hc & Hh & ->).
    assert (Hk : Js.startsWith key CACHE_KEY = true).
    { unfold cached_at in Hc.
      destruct (Js.truthy key); simpl in Hc; [|discriminate].
      destruct (Js.startsWith key CACHE_KEY); [reflexivity|discriminate]. }
    destruct (Hwf key Hin Hk) as (j & ->).
    rewrite replace_cache_key. split; [exact Hin|].
    exists c. split; [|exact Hh]. rewrite cached_at_cache_key in Hc.
    exact Hc.
Qed.

Lemma load_hidden_nothing (keys : list string) (s : State) :
  (∀ key, Js.startsWith key CACHE_KEY = true → localStorage s !! key = None) →
  load_hidden keys s = (tt, s).
Proof.
  intros Hnone. induction keys as [|key rest IH]; [reflexivity|].
  simpl. destruct (Js.truthy key && Js.startsWith key CACHE_KEY) eqn:Hk;
    [|exact IH].
  apply andb_true_iff in Hk as [_ Hk].
  unfold bind, getItem, gets. rewrite (Hnone key Hk). exact IH.
Qed.

(** X5.  After the cache is cleared, a reload finds no hidden voucher,
    in whatever order the keys are enumerated. *)
Theorem reload_after_clear_finds_nothing (keys : list string) (s : State) :
  hiddenVouchers (loadHiddenVouchers keys (clearVoucherCache s).2).2 = [].
Proof.
  unfold loadHiddenVouchers, bind, modify.
  rewrite load_hidden_nothing; [reflexivity|].
  intros key Hk. simpl.
  apply map_lookup_filter_None_2. right. intros x _. simpl. congruence.
Qed.

End ReloadFacts.

(** ** The refresh cycle *)

Section CycleFacts.
Import Philstar PhilstarStore Cache Detail Refresh Frame.

Context `{!JSON CachedVoucherData} `{!JSON (gmap string bool)}
        `{!JSON (list CustomVoucher)}.

Lemma full_read_rest (i : string) (s : State) :
  rest (getCachedVoucherDataFull i s).2 = rest s.
Proof. full_read_cases i s. Qed.

Lemma write_rest (i : string) (d : VoucherData) (s : State) :
  rest (setCachedVoucherData i d s).2 = rest s.
Proof.
  rewrite setCachedVoucherData_run. cbv zeta.
  rewrite <- (full_read_rest i s). reflexivity.
Qed.

Lemma fetchVoucherCode_rest (i : string) (s : State) :
  rest (fetchVoucherCode i s).2 = rest s.
Proof.
  destruct (live s i) as [c|] eqn:H.
  - rewrite (fetchVoucherCode_hit i s c H). apply full_read_rest.
  - pose proof (fetchVoucherCode_miss i s H) as Hm. cbv zeta in Hm.
    rewrite Hm. destruct (outcome (answer s i)) as [r|]; simpl.
    + rewrite write_rest. rewrite <- (full_read_rest i s). reflexivity.
    + rewrite <- (full_read_rest i s). reflexivity.
Qed.

Lemma rest_overlays (s s' : State) : rest s' = rest s → overlays s' = overlays s.
Proof. unfold rest, overlays. intros H. injection H as. congruence. Qed.

Lemma rest_articles (s s' : State) :
  rest s' = rest s → discountArticles s' = discountArticles s.
Proof. unfold rest. intros H. injection H as. congruence. Qed.

Lemma cache_key_prefixed (i : string) :
  Js.startsWith (cache_key i) CACHE_KEY = true.
Proof. apply startsWith_app. Qed.

Lemma not_prefixed_ne (i key : string) :
  Js.startsWith key CACHE_KEY = false → key ≠ cache_key i.
Proof. intros H ->. rewrite cache_key_prefixed in H. discriminate. Qed.

(** One turn of the loop changes the articles by at most one splice of
    a record with a non-empty code. *)
Lemma resolve_article_frame (n : nat) (a : DiscountArticle) (s : State) :
  let s' := (resolve_article n a s).2 in
  overlays s' = overlays s
  ∧ articleIds s' = articleIds s
  ∧ error s' = error s
  ∧ (∀ key, Js.startsWith key CACHE_KEY = false →
            localStorage s' !! key = localStorage s !! key)
  ∧ (discountArticles s' = discountArticles s
     ∨ ∃ d, Js.truthy_opt (code d) = true
            ∧ discountArticles s'
              = alter (splice d) n (discountArticles s)).
Proof.
  cbv zeta. unfold resolve_article, bind.
  rewrite getCachedVoucherData_run. simpl.
  pose proof (full_read_rest (a_id a) s) as Hr.
  assert (Hk : ∀ key, Js.startsWith key CACHE_KEY = false →
            localStorage (getCachedVoucherDataFull (a_id a) s).2 !! key
            = localStorage s !! key).
  { intros key Hkey. apply full_read_lookup_ne, not_prefixed_ne, Hkey. }
  destruct ((getCachedVoucherDataFull (a_id a) s).1) as [c|]; simpl.
  - destruct (Js.truthy_opt (code (data c))) eqn:Hc; simpl.
    + unfold rest, overlays in *. injection Hr as. simpl.
      repeat split; try congruence; [exact Hk|].
      right. exists (data c). split; [exact Hc|congruence].
    + unfold rest, overlays in *. injection Hr as.
      repeat split; try congruence; [exact Hk|]. left. congruence.
  - pose proof (fetchVoucherCode_rest (a_id a)
                  (getCachedVoucherDataFull (a_id a) s).2) as Hf.
    assert (Hk' : ∀ key, Js.startsWith key CACHE_KEY = false →
              localStorage (fetchVoucherCode (a_id a)
                (getCachedVoucherDataFull (a_id a) s).2).2 !! key
              = localStorage s !! key).
    { intros key Hkey.
      rewrite fetchVoucherCode_lookup_ne by (apply not_prefixed_ne, Hkey).
      apply Hk, Hkey. }
    rewrite Hr in Hf.
    destruct (fetchVoucherCode (a_id a) _) as [v s3]. simpl in *.
    unfold rest, overlays in *. injection Hf as.
    destruct v as [v|]; [destruct (Js.truthy_opt (code v)) eqn:Hc|]; simpl;
      (repeat split; try congruence; [exact Hk'|]);
      try (left; congruence).
    right. exists v. split; [exact Hc|congruence].
Qed.

Lemma skeleton_splice (d : VoucherData) (n : nat) (l : list DiscountArticle) :
  skeleton <$> alter (splice d) n l = skeleton <$> l.
Proof.
  revert n. induction l as [|a l IH]; intros [|n]; simpl; try reflexivity.
  f_equal. apply IH.
Qed.

Lemma code_ok_splice (d : VoucherData) (n : nat) (l : list DiscountArticle) :
  Js.truthy_opt (code d) = true →
  Forall (fun a => code_absent_or_truthy a = true) l →
  Forall (fun a => code_absent_or_truthy a = true) (alter (splice d) n l).
Proof.
  intros Hd. revert n. induction l as [|a l IH]; intros n Hl;
    [destruct n; exact Hl|].
  apply Forall_cons in Hl as [Ha Hl]. destruct n as [|n]; simpl.
  - constructor; [|exact Hl]. unfold code_absent_or_truthy. simpl.
    destruct (code d); [exact Hd|reflexivity].
  - constructor; [exact Ha|]. apply IH, Hl.
Qed.

Lemma resolve_details_frame (l : list DiscountArticle) (n : nat) (s : State) :
  let s' := (resolve_details n l s).2 in
  overlays s' = overlays s
  ∧ articleIds s' = articleIds s
  ∧ error s' = error s
  ∧ (∀ key, Js.startsWith key CACHE_KEY = false →
            localStorage s' !! key = localStorage s !! key)
  ∧ skeleton <$> discountArticles s' = skeleton <$> discountArticles s
  ∧ (Forall (fun a => code_absent_or_truthy a = true) (discountArticles s) →
     Forall (fun a => code_absent_or_truthy a = true) (discountArticles s')).
Proof.
  revert n s. induction l as [|a l IH]; intros n s; cbv zeta.
  - simpl. repeat split; auto.
  - simpl. unfold bind.
    destruct (resolve_article_frame n a s) as (Ho & Hi & He & Hk & Ha).
    destruct (resolve_article n a s) as [[] s1]. simpl in *.
    destruct (IH (S n) s1) as (Ho' & Hi' & He' & Hk' & Hs' & Hc').
    repeat split; try congruence.
    + intros key Hkey. rewrite Hk', Hk by exact Hkey. reflexivity.
    + rewrite Hs'. destruct Ha as [->|(d & _ & ->)]; [reflexivity|].
      apply skeleton_splice.
    + intros Hall. apply Hc'.
      destruct Ha as [->|(d & Hd & ->)]; [exact Hall|].
      apply code_ok_splice; assumption.
Qed.

Lemma fetch_pages_rest (urls : list string) (acc : list DiscountArticle)
    (ids : list string) (s : State) :
  rest (fetch_pages urls acc ids s).2 = rest s
  ∧ ticks (fetch_pages urls acc ids s).2 = ticks s.
Proof.
  revert acc ids s. induction urls as [|u urls IH]; intros acc ids s;
    [split; reflexivity|].
  simpl. unfold bind, fetch.
  destruct (network s (length (trace s)) u) as [msg|status body];
    [split; reflexivity|].
  destruct (ok status); simpl;
    match goal with
    | |- context [fetch_pages urls ?a ?b ?q] =>
        destruct (IH a b q) as [-> ->]
    end; split; reflexivity.
Qed.

Lemma fetch_pages_ids (urls : list string) (acc : list DiscountArticle)
    (ids : list string) (s : State) (arts : list DiscountArticle)
    (ids' : list string) :
  ids = a_id <$> acc →
  Forall (fun a => code_absent_or_truthy a = true) acc →
  (fetch_pages urls acc ids s).1 = inr (arts, ids') →
  ids' = a_id <$> arts
  ∧ Forall (fun a => code_absent_or_truthy a = true) arts.
Proof.
  revert acc ids s. induction urls as [|u urls IH]; intros acc ids s Hids Hc H.
  - simpl in H. injection H as <- <-. tauto.
  - simpl in H. unfold bind, fetch in H.
    destruct (network s (length (trace s)) u) as [msg|status body];
      [discriminate|].
    destruct (ok status); simpl in H.
    + eapply IH; [| |exact H].
      * rewrite fmap_app, Hids. reflexivity.
      * apply Forall_app. split; [exact Hc|].
        apply Forall_forall. intros a Ha.
        apply list_elem_of_omap in Ha as (el & _ & Hel).
        unfold extract_article in Hel.
        destruct (Js.truthy _ && _); [|discriminate].
        injection Hel as <-. reflexivity.
    + eapply IH; [| |exact H]; [exact Hids|exact Hc].
Qed.

Lemma fetchGrabFoodVouchers_run (s : State) :
  fetchGrabFoodVouchers s =
    let (pages, q) := fetch_pages targetUrls [] [] (started s) in
    match pages with
    | inl message =>
        (tt, with_isLoading false (with_error (Some message) q))
    | inr (arts, ids) =>
        (tt, with_isLoading false
               (resolve_details 0 arts
                  (with_discountArticles arts
                     (with_voucherCodes []
                        (with_articleIds ids
                           (with_discountArticles arts q))))).2)
    end.
Proof.
  unfold fetchGrabFoodVouchers, bind, modify, started. cbv beta iota.
  destruct (fetch_pages targetUrls [] [] _) as [[m|[arts ids]] q];
    cbv beta iota; [reflexivity|].
  destruct (resolve_details 0 arts _) as [[] s3]. reflexivity.
Qed.

Lemma refresh_cycle_keeps_overlays_aux (s : State) :
  let s' := (fetchGrabFoodVouchers s).2 in
  overlays s' = overlays s
  ∧ (∀ key, Js.startsWith key CACHE_KEY = false →
            localStorage s' !! key = localStorage s !! key).
Proof.
  cbv zeta. rewrite fetchGrabFoodVouchers_run.
  destruct (fetch_pages_rest targetUrls [] [] (started s)) as [Hr _].
  pose proof (fetch_pages_storage targetUrls [] [] (started s)) as Hs.
  destruct (fetch_pages targetUrls [] [] (started s))
    as [[m|[arts ids]] q]; simpl in Hr, Hs.
  - unfold rest, overlays in *. injection Hr as. simpl.
    split; [congruence|]. intros key _. rewrite Hs. reflexivity.
  - match goal with
    | |- context [resolve_details 0 arts ?q'] =>
        destruct (resolve_details_frame arts 0 q') as (Ho & _ & _ & Hk & _)
    end.
    destruct (resolve_details 0 arts _) as [[] s3]. simpl in *.
    unfold rest, overlays in *. injection Hr as. injection Ho as.
    split; [simpl; congruence|].
    intros key Hkey. rewrite Hk, Hs by exact Hkey. reflexivity.
Qed.

(** X6.  A refresh cycle, however it ends, switches the loading flag
    off and leaves the overlays of the user alone: the hidden list, the
    category visibility and the custom vouchers are as before, and so is
    every key of the store outside the cache. *)
Theorem refresh_cycle_keeps_overlays (s : State) :
  let s' := (fetchGrabFoodVouchers s).2 in
  isLoading s' = false
  ∧ overlays s' = overlays s
  ∧ (∀ key, Js.startsWith key CACHE_KEY = false →
            localStorage s' !! key = localStorage s !! key).
Proof.
  cbv zeta. destruct (refresh_cycle_keeps_overlays_aux s) as [Ho Hk].
  split; [|split; [exact Ho|exact Hk]].
  rewrite fetchGrabFoodVouchers_run.
  destruct (fetch_pages targetUrls [] [] (started s))
    as [[m|[arts ids]] q]; reflexivity.
Qed.

(** X7.  How a refresh cycle ends.  When a list page request is
    rejected, the message is shown and the articles, their ids and the
    store stay as they were.  Otherwise no error is shown, the list of
    ids names the articles in order, the detail loop has kept every
    article with its id, title and content in place, and every article
    has either no code or a non-empty one. *)
Theorem refresh_cycle_outcome (s : State) :
  let s' := (fetchGrabFoodVouchers s).2 in
  match (fetch_pages targetUrls [] [] (started s)).1 with
  | inl message =>
      error s' = Some message
      ∧ discountArticles s' = discountArticles s
      ∧ articleIds s' = articleIds s
      ∧ localStorage s' = localStorage s
  | inr (extractedArticles, extractedIds) =>
      error s' = None
      ∧ articleIds s' = a_id <$> discountArticles s'
      ∧ skeleton <$> discountArticles s' = skeleton <$> extractedArticles
      ∧ Forall (fun a => code_absent_or_truthy a = true) (discountArticles s')
  end.
Proof.
  cbv zeta. rewrite fetchGrabFoodVouchers_run.
  destruct (fetch_pages_rest targetUrls [] [] (started s)) as [Hr _].
  pose proof (fetch_pages_storage targetUrls [] [] (started s)) as Hs.
  pose proof (fetch_pages_ids targetUrls [] [] (started s)) as Hids.
  destruct (fetch_pages targetUrls [] [] (started s))
    as [[m|[arts ids]] q]; simpl in Hr, Hs, Hids.
  - simpl. unfold rest in Hr. injection Hr as.
    repeat split; congruence.
  - destruct (Hids arts ids eq_refl ltac:(constructor) eq_refl) as [Hi Hc].
    match goal with
    | |- context [resolve_details 0 arts ?q'] =>
        destruct (resolve_details_frame arts 0 q')
          as (_ & Ha & He & _ & Hsk & Hcode)
    end.
    destruct (resolve_details 0 arts _) as [[] s3]. simpl in *.
    split; [rewrite He; unfold rest in Hr; injection Hr as; assumption|].
    split.
    + rewrite Ha, Hi.
      change (a_id <$> arts) with (fst ∘ fst ∘ fst ∘ skeleton <$> arts).
      change (a_id <$> discountArticles s3)
        with (fst ∘ fst ∘ fst ∘ skeleton <$> discountArticles s3).
      rewrite !(list_fmap_compose skeleton), Hsk. reflexivity.
    + split; [exact Hsk|]. apply Hcode, Hc.
Qed.

Lemma fetch_pages_two (s : State) :
  let u1 := "https://www.philstar.com/coupons/grabfood" in
  let u2 := "https://www.philstar.com/coupons/foodpanda" in
  let r1 := network s (length (trace s)) u1 in
  let r2 := network s (S (length (trace s))) u2 in
  let done := fetch_pages targetUrls [] [] s in
  done.1 =
    match r1, r2 with
    | NetworkError message, _ => inl message
    | Http _ _, NetworkError message => inl message
    | Http _ _, Http _ _ =>
        inr ((page_articles r1 ++ page_articles r2)%list,
             a_id <$> (page_articles r1 ++ page_articles r2)%list)
    end
  ∧ trace done.2 =
      match r1 with
      | NetworkError _ => (trace s ++ [Fetch u1])%list
      | Http _ _ => (trace s ++ [Fetch u1; Fetch u2])%list
      end.
Proof.
  cbv zeta. unfold targetUrls. simpl. unfold bind, fetch.
  destruct (network s (length (trace s)) _) as [m1|st1 b1];
    [split; reflexivity|].
  assert (Hlen : ∀ q : State, trace q = trace s →
            length (trace q ++ [Fetch "https://www.philstar.com/coupons/grabfood"])
            = S (length (trace s))).
  { intros q ->. rewrite length_app. simpl. lia. }
  unfold page_articles.
  destruct (ok st1) eqn:E1; simpl; rewrite (Hlen _ eq_refl);
    (destruct (network s (S (length (trace s))) _) as [m2|st2 b2];
     [split; [reflexivity|rewrite <- app_assoc; reflexivity]|]);
    destruct (ok st2) eqn:E2; simpl; rewrite ?app_nil_r, ?fmap_app;
    (split; [reflexivity|rewrite <- app_assoc; reflexivity]).
Qed.

(** X8.  The two list pages.  A page that answers with a status
    outside 2xx is skipped and the other page still contributes its
    articles; a rejected request ends the reading, also when the other
    page had answered, and after a rejected first request the second
    page is not requested.  The ids are those of the articles, in
    order. *)
Theorem list_pages_outcome (s : State) :
  let u1 := "https://www.philstar.com/coupons/grabfood" in
  let u2 := "https://www.philstar.com/coupons/foodpanda" in
  let r1 := network s (length (trace s)) u1 in
  let r2 := network s (S (length (trace s))) u2 in
  let done := fetch_pages targetUrls [] [] s in
  done.1 =
    match r1, r2 with
    | NetworkError message, _ => inl message
    | Http _ _, NetworkError message => inl message
    | Http _ _, Http _ _ =>
        inr ((page_articles r1 ++ page_articles r2)%list,
             a_id <$> (page_articles r1 ++ page_articles r2)%list)
    end
  ∧ trace done.2 =
      match r1 with
      | NetworkError _ => (trace s ++ [Fetch u1])%list
      | Http _ _ => (trace s ++ [Fetch u1; Fetch u2])%list
      end.
Proof.
  cbv zeta. unfold targetUrls. simpl. unfold bind, fetch.
  destruct (network s (length (trace s)) _) as [m1|st1 b1];
    [split; reflexivity|].
  assert (Hlen : ∀ q : State, trace q = trace s →
            length (trace q ++ [Fetch "https://www.philstar.com/coupons/grabfood"])
            = S (length (trace s))).
  { intros q ->. rewrite length_app. simpl. lia. }
  unfold page_articles.
  destruct (ok st1) eqn:E1; simpl; rewrite (Hlen _ eq_refl);
    (destruct (network s (S (length (trace s))) _) as [m2|st2 b2];
     [split; [reflexivity|rewrite <- app_assoc; reflexivity]|]);
    destruct (ok st2) eqn:E2; simpl; rewrite ?app_nil_r, ?fmap_app;
    (split; [reflexivity|rewrite <- app_assoc; reflexivity]).
Qed.

(** X9.  A forced refresh purges the cache and the category visibility
    only: the custom vouchers, in memory and in the store, are as
    before, so that a reload of them gives what it gave before; and the
    list of hidden vouchers held in memory is not emptied. *)
Theorem forced_refresh_keeps_custom_vouchers (s : State) :
  let s' := (forceRefresh s).2 in
  customVouchers s' = customVouchers s
  ∧ localStorage s' !! CUSTOM_VOUCHERS_KEY
      = localStorage s !! CUSTOM_VOUCHERS_KEY
  ∧ customVouchers (loadCustomVouchers s').2
      = customVouchers (loadCustomVouchers s).2
  ∧ hiddenVouchers s' = hiddenVouchers s
  ∧ hiddenCategories s' = ∅.
Proof.
  cbv zeta.
  change (forceRefresh s) with (fetchGrabFoodVouchers (purge s).2).
  assert (Hp : overlays (purge s).2
               = (hiddenVouchers s, ∅, customVouchers s)) by reflexivity.
  pose proof (purge_other_keys s CUSTOM_VOUCHERS_KEY eq_refl
                ltac:(discriminate)) as Hpk.
  revert Hp Hpk. generalize (purge s).2. intros p Hp Hpk.
  destruct (refresh_cycle_keeps_overlays_aux p) as (Ho & Hk).
  rewrite Hp in Ho. unfold overlays in Ho. injection Ho as Hh Hc Hcv.
  assert (Hkey : localStorage (fetchGrabFoodVouchers p).2
                   !! CUSTOM_VOUCHERS_KEY
                 = localStorage s !! CUSTOM_VOUCHERS_KEY).
  { rewrite Hk by reflexivity. exact Hpk. }
  split; [exact Hcv|]. split; [exact Hkey|].
  split.
  { unfold loadCustomVouchers, bind, getItem, gets. rewrite Hkey.
    destruct (localStorage s !! CUSTOM_VOUCHERS_KEY) as [t|]; simpl;
      [|exact Hcv].
    destruct (Js.truthy t); simpl; [|exact Hcv].
    destruct (JSON_parse t); simpl; [reflexivity|exact Hcv]. }
  split; [exact Hh|exact Hc].
Qed.

End CycleFacts.

(** ** Hiding and the display list *)

Section DisplayHiding.
Import Display.

Context `{!JSON Philstar.CachedVoucherData} `{!JSON (gmap string bool)}
        `{!JSON (list string)}.

Lemma filter_map {A B} (f : A → B) (p : B → bool) (l : list A) :
  List.filter p (List.map f l) = List.map f (List.filter (fun x => p (f x)) l).
Proof.
  induction l as [|x l IH]; simpl; [reflexivity|].
  destruct (p (f x)); simpl; rewrite IH; reflexivity.
Qed.

Lemma filter_all {A} (l : list A) : List.filter (fun _ => true) l = l.
Proof. induction l as [|x l IH]; simpl; [|rewrite IH]; reflexivity. Qed.

Lemma arr_includes_snoc (l : list string) (x y : string) :
  Js.arr_includes (l ++ [x]) y = Js.arr_includes l y || bool_decide (y = x).
Proof.
  unfold Js.arr_includes.
  destruct (bool_decide (y ∈ l)) eqn:E1, (bool_decide (y = x)) eqn:E2; simpl;
    [apply bool_decide_eq_true_2|apply bool_decide_eq_true_2
    |apply bool_decide_eq_true_2|apply bool_decide_eq_false_2];
    try apply bool_decide_eq_true in E1; try apply bool_decide_eq_true in E2;
    try apply bool_decide_eq_false in E1;
    try apply bool_decide_eq_false in E2;
    rewrite elem_of_app, list_elem_of_singleton; tauto.
Qed.

Lemma truthy_or_empty (x : string) : (if Js.truthy x then x else "") = x.
Proof. destruct x; reflexivity. Qed.

Lemma philstar_combined_snoc (cv : list Philstar.CustomVoucher)
    (da : list Philstar.DiscountArticle) (hc : gmap string bool)
    (hv : list string) (i : string) :
  Philstar.combinedVouchers cv da hc (hv ++ [i]) =
    List.filter (other_than i) (Philstar.combinedVouchers cv da hc hv).
Proof.
  unfold Philstar.combinedVouchers, Philstar.filteredDiscountArticles.
  rewrite List.filter_app, !filter_map. simpl.
  rewrite filter_all. f_equal. f_equal.
  rewrite !filter_filter. apply List.filter_ext. intros a.
  rewrite arr_includes_snoc. rewrite ?truthy_or_empty.
  destruct (Js.arr_includes Philstar.excludedCodes _),
    (Js.arr_includes hv _), (Philstar.category_visible hc _);
    repeat case_bool_decide; simpl; reflexivity || congruence.
Qed.

Lemma philstar_combined_listed (cv : list Philstar.CustomVoucher)
    (da : list Philstar.DiscountArticle) (hc : gmap string bool)
    (hv : list string) (i : string) :
  i ∈ hv →
  List.filter (other_than i) (Philstar.combinedVouchers cv da hc hv)
  = Philstar.combinedVouchers cv da hc hv.
Proof.
  intros Hin.
  unfold Philstar.combinedVouchers, Philstar.filteredDiscountArticles.
  rewrite List.filter_app, !filter_map. simpl.
  rewrite filter_all. f_equal. f_equal.
  rewrite !filter_filter. apply List.filter_ext. intros a.
  rewrite ?truthy_or_empty.
  case_bool_decide as Heq; simpl; [|rewrite andb_true_r; reflexivity].
  rewrite andb_false_r.
  assert (Hl : Js.arr_includes hv (Philstar.a_id a) = true).
  { apply bool_decide_eq_true_2. rewrite Heq. exact Hin. }
  rewrite Hl.
  destruct (Js.arr_includes Philstar.excludedCodes _),
    (Philstar.category_visible hc _); reflexivity.
Qed.

Lemma hide_fields (i : string) (s : Philstar.State) :
  let s' := (Philstar.hideVoucher i s).2 in
  Philstar.customVouchers s' = Philstar.customVouchers s
  ∧ Philstar.discountArticles s' = Philstar.discountArticles s
  ∧ Philstar.hiddenCategories s' = Philstar.hiddenCategories s
  ∧ Philstar.hiddenVouchers s' =
      if Js.arr_includes (Philstar.hiddenVouchers s) i
      then Philstar.hiddenVouchers s
      else (Philstar.hiddenVouchers s ++ [i])%list.
Proof.
  cbv zeta. unfold Philstar.hideVoucher, Philstar.bind, Philstar.gets.
  destruct (Js.arr_includes (Philstar.hiddenVouchers s) i); simpl;
    [repeat split|].
  pose proof (full_read_rest i s) as Hr.
  destruct (Philstar.getCachedVoucherDataFull i s) as [[c|] s1];
    simpl in *; unfold Frame.rest in Hr; injection Hr as;
    repeat split; congruence.
Qed.

(** X10.  Hiding an article takes the scraped vouchers of that article,
    and nothing else, out of the display list; the custom vouchers and
    the order of what stays are not affected. *)
Theorem hiding_removes_the_article_from_display (i : string)
    (s : Philstar.State) :
  combined (Philstar.hideVoucher i s).2 =
    List.filter (other_than i) (combined s).
Proof.
  destruct (hide_fields i s) as (Hc & Hd & Hm & Hh). cbv zeta in *.
  unfold combined. rewrite Hc, Hd, Hm, Hh.
  destruct (Js.arr_includes (Philstar.hiddenVouchers s) i) eqn:E.
  - symmetry. apply philstar_combined_listed.
    apply bool_decide_eq_true in E. exact E.
  - apply philstar_combined_snoc.
Qed.

Lemma iprice_combined_snoc (cv : list Iprice.CustomVoucher)
    (da : list Iprice.DiscountArticle) (hc : gmap string bool)
    (hv : list string) (c : string) :
  Iprice.combinedVouchers cv da hc (hv ++ [c]) =
    List.filter (other_code c) (Iprice.combinedVouchers cv da hc hv).
Proof.
  unfold Iprice.combinedVouchers, Iprice.filteredDiscountArticles.
  rewrite List.filter_app, !filter_map. simpl.
  rewrite filter_all. f_equal. f_equal.
  rewrite !filter_filter. apply List.filter_ext. intros a.
  rewrite arr_includes_snoc.
  destruct (Js.arr_includes hv _), (Iprice.category_visible hc _);
    repeat case_bool_decide; simpl; reflexivity || congruence.
Qed.

Lemma iprice_combined_listed (cv : list Iprice.CustomVoucher)
    (da : list Iprice.DiscountArticle) (hc : gmap string bool)
    (hv : list string) (c : string) :
  c ∈ hv →
  List.filter (other_code c) (Iprice.combinedVouchers cv da hc hv)
  = Iprice.combinedVouchers cv da hc hv.
Proof.
  intros Hin.
  unfold Iprice.combinedVouchers, Iprice.filteredDiscountArticles.
  rewrite List.filter_app, !filter_map. simpl.
  rewrite filter_all. f_equal. f_equal.
  rewrite !filter_filter. apply List.filter_ext. intros a.
  case_bool_decide as Heq; simpl; [|rewrite andb_true_r; reflexivity].
  rewrite andb_false_r.
  assert (Hl : Js.arr_includes hv (Js.or_else (Iprice.a_couponCode a) "")
               = true).
  { apply bool_decide_eq_true_2. rewrite Heq. exact Hin. }
  rewrite Hl. reflexivity.
Qed.

(** X11.  On the attribute page, hiding a code takes every scraped
    voucher with that code, and nothing else, out of the display list.
    The code is in the hidden list afterwards, a list without
    repetitions stays without repetitions, and for a code that was not
    yet listed the list is stored: a reload, from whatever list is in
    memory, gives it back. *)
Theorem iprice_hiding_removes_the_code (c : string) (s : Iprice.State) :
  let s' := (Iprice.hideVoucher c s).2 in
  iprice_combined s' = List.filter (other_code c) (iprice_combined s)
  ∧ c ∈ Iprice.hiddenVouchers s'
  ∧ (NoDup (Iprice.hiddenVouchers s) → NoDup (Iprice.hiddenVouchers s'))
  ∧ (c ∉ Iprice.hiddenVouchers s →
     ∀ l0, Iprice.hiddenVouchers
             (IpriceStore.loadHiddenVouchers
                (Iprice.with_hiddenVouchers l0 s')).2
           = Iprice.hiddenVouchers s').
Proof.
  cbv zeta. unfold Iprice.hideVoucher, Iprice.bind, Iprice.gets,
    iprice_combined.
  destruct (Js.arr_includes (Iprice.hiddenVouchers s) c) eqn:E; simpl.
  - apply bool_decide_eq_true in E.
    split; [symmetry; apply iprice_combined_listed, E|].
    split; [exact E|]. split; [auto|]. intros Hnot. contradiction.
  - apply bool_decide_eq_false in E.
    split; [apply iprice_combined_snoc|].
    split; [apply elem_of_app; right; apply list_elem_of_singleton;
            reflexivity|].
    split.
    + intros Hnd. apply NoDup_app. split; [exact Hnd|].
      split; [|apply NoDup_singleton].
      intros x Hx Hx'. apply list_elem_of_singleton in Hx'. subst.
      contradiction.
    + intros _ l0. unfold IpriceStore.loadHiddenVouchers, Iprice.bind,
        Iprice.gets. simpl. rewrite lookup_insert_eq.
      rewrite JSON_stringify_truthy, JSON_parse_stringify. reflexivity.
Qed.

Lemma philstar_displayed_visible (cv : list Philstar.CustomVoucher)
    (da : list Philstar.DiscountArticle) (hc : gmap string bool)
    (hv : list string) :
  List.Forall (fun v => Philstar.category_visible hc (merchant v) = true)
              (Philstar.combinedVouchers cv da hc hv).
Proof.
  apply List.Forall_forall. intros v Hin.
  apply List.in_app_iff in Hin as [Hin|Hin];
    apply List.in_map_iff in Hin as (x & <- & Hx);
    apply List.filter_In in Hx as [_ Hx]; exact Hx.
Qed.

Lemma iprice_displayed_visible (cv : list Iprice.CustomVoucher)
    (da : list Iprice.DiscountArticle) (hc : gmap string bool)
    (hv : list string) :
  List.Forall
    (fun v => Iprice.category_visible hc (iprice_merchant v) = true)
    (Iprice.combinedVouchers cv da hc hv).
Proof.
  apply List.Forall_forall. intros v Hin.
  apply List.in_app_iff in Hin as [Hin|Hin];
    apply List.in_map_iff in Hin as (x & <- & Hx);
    apply List.filter_In in Hx as [_ Hx]; exact Hx.
Qed.

(** X12.  A hidden category is not displayed, custom vouchers included.
    While [grabfood] is hidden, no displayed voucher has a merchant name
    that contains "grab" (detail-fetch page) or "grabfood" (attribute
    page), in any letter case.  While [foodpanda] is hidden, a displayed
    voucher whose merchant name contains "foodpanda" also contains the
    grabfood marker: such a name counts as grabfood. *)
Theorem hidden_category_is_not_displayed (hc : gmap string bool)
    (hv : list string) :
  (∀ cv da,
     Js.flag hc "grabfood" = true →
     List.Forall
       (fun v =>
          Philstar.merchant_includes (merchant v) "grabfood" = false
          ∧ Philstar.merchant_includes (merchant v) "grab" = false)
       (Philstar.combinedVouchers cv da hc hv))
  ∧ (∀ cv da,
     Js.flag hc "foodpanda" = true →
     List.Forall
       (fun v =>
          Philstar.merchant_includes (merchant v) "foodpanda" = true →
          Philstar.merchant_includes (merchant v) "grabfood"
          || Philstar.merchant_includes (merchant v) "grab" = true)
       (Philstar.combinedVouchers cv da hc hv))
  ∧ (∀ cv da,
     Js.flag hc "grabfood" = true →
     List.Forall
       (fun v =>
          Iprice.merchant_includes (iprice_merchant v) "grabfood" = false)
       (Iprice.combinedVouchers cv da hc hv))
  ∧ (∀ cv da,
     Js.flag hc "foodpanda" = true →
     List.Forall
       (fun v =>
          Iprice.merchant_includes (iprice_merchant v) "foodpanda" = true →
          Iprice.merchant_includes (iprice_merchant v) "grabfood" = true)
       (Iprice.combinedVouchers cv da hc hv)).
Proof.
  repeat split; intros cv da Hflag.
  - eapply List.Forall_impl; [|apply philstar_displayed_visible].
    intros v. unfold Philstar.category_visible. rewrite Hflag.
    destruct (Philstar.merchant_includes (merchant v) "grabfood"),
      (Philstar.merchant_includes (merchant v) "grab"); simpl;
      try discriminate. auto.
  - eapply List.Forall_impl; [|apply philstar_displayed_visible].
    intros v. unfold Philstar.category_visible. rewrite Hflag.
    destruct (Philstar.merchant_includes (merchant v) "grabfood"),
      (Philstar.merchant_includes (merchant v) "grab"); simpl; auto.
    destruct (Philstar.merchant_includes (merchant v) "foodpanda"); simpl;
      intros; discriminate.
  - eapply List.Forall_impl; [|apply iprice_displayed_visible].
    intros v. unfold Iprice.category_visible. rewrite Hflag.
    destruct (Iprice.merchant_includes (iprice_merchant v) "grabfood");
      simpl; [discriminate|reflexivity].
  - eapply List.Forall_impl; [|apply iprice_displayed_visible].
    intros v. unfold Iprice.category_visible. rewrite Hflag.
    destruct (Iprice.merchant_includes (iprice_merchant v) "grabfood");
      simpl; auto.
    destruct (Iprice.merchant_includes (iprice_merchant v) "foodpanda");
      simpl; intros; discriminate.
Qed.





End DisplayHiding.

(** ** Stored category visibility and custom vouchers *)

Section StoredOverlays.
Import Philstar PhilstarStore.

Context `{!JSON CachedVoucherData} `{!JSON (gmap string bool)}
        `{!JSON (list CustomVoucher)}.

Lemma assign_ne (key : string) (b : bool) (m : gmap string bool) :
  key ≠ "__proto__" → Js.assign key b m = <[key := b]> m.
Proof.
  intros Hne. unfold Js.assign.
  rewrite (bool_decide_eq_false_2 _ Hne). reflexivity.
Qed.

Lemma assign_lookup_ne (key k : string) (b : bool) (m : gmap string bool) :
  k ≠ key → Js.assign key b m !! k = m !! k.
Proof.
  intros Hne. unfold Js.assign.
  destruct (_ && _); [reflexivity|].
  apply lookup_insert_ne. congruence.
Qed.

Lemma toggle_run (category : string) (s : State) :
  let m := hiddenCategories s in
  let m' :=
    if bool_decide (category = "grabfood")
       || bool_decide (category = "foodpanda")
    then
      if Js.flag m category then <[category := false]> m
      else <[(if bool_decide (category = "grabfood") then "foodpanda"
              else "grabfood") := false]> (<[category := true]> m)
    else Js.assign category (negb (Js.flag m category)) m in
  (toggleCategoryVisibility category s).2 =
    with_localStorage
      (insert CATEGORY_VISIBILITY_KEY (JSON_stringify m'))
      (with_hiddenCategories m' s).
Proof.
  cbv zeta. unfold toggleCategoryVisibility, bind, gets.
  destruct (decide (category = "grabfood")) as [->|Hg].
  { simpl. destruct (Js.flag (hiddenCategories s) "grabfood");
      reflexivity. }
  destruct (decide (category = "foodpanda")) as [->|Hf].
  { simpl. destruct (Js.flag (hiddenCategories s) "foodpanda");
      reflexivity. }
  rewrite (bool_decide_eq_false_2 _ Hg), (bool_decide_eq_false_2 _ Hf).
  reflexivity.
Qed.

Lemma load_visibility_stored (m : gmap string bool) (s : State) :
  localStorage s !! CATEGORY_VISIBILITY_KEY = Some (JSON_stringify m) →
  hiddenCategories (loadCategoryVisibility s).2 = m.
Proof.
  intros H. unfold loadCategoryVisibility, bind, getItem, gets.
  rewrite H. simpl.
  rewrite JSON_stringify_truthy, JSON_parse_stringify. reflexivity.
Qed.

(** X13.  A change of category visibility is stored and local.  After a
    toggle the store holds the map that is in memory, so that a reload,
    from whatever map, gives it back; the toggle changes no category
    other than the toggled one and, for a built-in one, its
    counterpart.  A category that is not built in changes side: what is
    stored under it is the negation of what was read, where a name that
    every object inherits ([toString], [constructor], ...) reads as
    hidden as long as the map has no entry of its own for it.  The one
    exception is [__proto__] on a map without an entry for it: the
    assignment is ignored, the map stays as it is and the name keeps
    reading as hidden.  After a reset the stored map is gone and a
    reload leaves the empty map in place. *)
Theorem category_visibility_is_stored (category : string) (s : State) :
  let s' := (toggleCategoryVisibility category s).2 in
  localStorage s' !! CATEGORY_VISIBILITY_KEY
    = Some (JSON_stringify (hiddenCategories s'))
  ∧ (∀ m0, hiddenCategories
             (loadCategoryVisibility (with_hiddenCategories m0 s')).2
           = hiddenCategories s')
  ∧ (∀ k, k ≠ category → k ≠ "grabfood" → k ≠ "foodpanda" →
          hiddenCategories s' !! k = hiddenCategories s !! k)
  ∧ (category ≠ "grabfood" → category ≠ "foodpanda" →
     (∀ k, k ≠ category →
           hiddenCategories s' !! k = hiddenCategories s !! k)
     ∧ (category ≠ "__proto__" ∨ is_Some (hiddenCategories s !! category) →
        hiddenCategories s' !! category
          = Some (negb (Js.flag (hiddenCategories s) category))
        ∧ Js.flag (hiddenCategories s') category
          = negb (Js.flag (hiddenCategories s) category))
     ∧ (hiddenCategories s !! category = None →
        Js.flag (hiddenCategories s) category = Js.inherited category
        ∧ (category = "__proto__" →
           hiddenCategories s' = hiddenCategories s
           ∧ Js.flag (hiddenCategories s') category = true)))
  ∧ hiddenCategories
      (loadCategoryVisibility (resetCategoryVisibility s).2).2 = ∅.
Proof.
  cbv zeta. pose proof (toggle_run category s) as Hrun. cbv zeta in Hrun.
  rewrite Hrun. clear Hrun. simpl.
  split; [apply lookup_insert_eq|].
  split.
  { intros m0. apply load_visibility_stored. simpl.
    apply lookup_insert_eq. }
  split.
  { intros k Hk Hg Hf.
    destruct (bool_decide (category = "grabfood")
              || bool_decide (category = "foodpanda")).
    - destruct (Js.flag (hiddenCategories s) category).
      + rewrite lookup_insert_ne by congruence. reflexivity.
      + case_bool_decide; rewrite !lookup_insert_ne by congruence;
          reflexivity.
    - apply assign_lookup_ne. exact Hk. }
  split.
  { intros Hg Hf.
    rewrite (bool_decide_eq_false_2 _ Hg), (bool_decide_eq_false_2 _ Hf).
    simpl. split; [|split].
    - intros k Hk. apply assign_lookup_ne. exact Hk.
    - intros Hown.
      assert (Hins : Js.assign category
                       (negb (Js.flag (hiddenCategories s) category))
                       (hiddenCategories s)
                     = <[category := negb (Js.flag (hiddenCategories s)
                                                   category)]>
                         (hiddenCategories s)).
      { destruct Hown as [Hne|[b Hb]]; [apply assign_ne, Hne|].
        unfold Js.assign. rewrite Hb.
        rewrite (bool_decide_eq_false_2 (Some b = None)) by discriminate.
        rewrite andb_false_r. reflexivity. }
      rewrite Hins. split; [apply lookup_insert_eq|].
      apply flag_insert_eq.
    - intros Hnone. unfold Js.flag at 1. rewrite Hnone.
      split; [reflexivity|]. intros ->.
      unfold Js.assign. rewrite Hnone. simpl.
      split; [reflexivity|]. unfold Js.flag. rewrite Hnone. reflexivity. }
  unfold loadCategoryVisibility, resetCategoryVisibility, bind, getItem,
    gets, modify. simpl. rewrite lookup_delete_eq. reflexivity.
Qed.

(** *** Custom vouchers *)

Lemma load_custom_stored (l : list CustomVoucher) (s : State) :
  localStorage s !! CUSTOM_VOUCHERS_KEY = Some (JSON_stringify l) →
  customVouchers (loadCustomVouchers s).2 = l.
Proof.
  intros H. unfold loadCustomVouchers, bind, getItem, gets.
  rewrite H. simpl.
  rewrite JSON_stringify_truthy, JSON_parse_stringify. reflexivity.
Qed.

Lemma save_custom_run (s : State) :
  saveCustomVouchers s =
    (tt, with_localStorage
           (insert CUSTOM_VOUCHERS_KEY (JSON_stringify (customVouchers s)))
           s).
Proof. reflexivity. Qed.

(** X14.  Adding a custom voucher.  With a code that is empty or only
    white space nothing happens.  Otherwise the form is reset and one
    voucher is put in front of the list: its code is the trimmed input,
    its id the reading of the clock in decimal, its merchant the one of
    the form, and its description and call to action are never empty
    (an empty input gives the default text). *)
Theorem adding_a_custom_voucher (f : Form) (s : State) :
  let typed := Js.trim (newVoucherCode f) in
  if Js.truthy typed then
    ∃ v,
      (addCustomVoucher f s).1 = resetForm
      ∧ customVouchers (addCustomVoucher f s).2 = v :: customVouchers s
      ∧ c_code v = typed
      ∧ c_id v = pretty (Cache.now s)
      ∧ c_merchantName v = Some (newVoucherMerchant f)
      ∧ Js.truthy (c_description v) = true
      ∧ Js.truthy (c_cta v) = true
      ∧ (Js.truthy (Js.trim (newVoucherDescription f)) = false →
         c_description v = "Custom voucher")
      ∧ (Js.truthy (Js.trim (newVoucherCta f)) = false →
         c_cta v = "Use this code")
  else addCustomVoucher f s = (f, s).
Proof.
  cbv zeta. unfold addCustomVoucher.
  destruct (Js.truthy (Js.trim (newVoucherCode f))) eqn:E; simpl;
    [|reflexivity].
  eexists. unfold bind, Date_now, modify. simpl.
  split; [reflexivity|]. split; [reflexivity|]. simpl.
  split; [reflexivity|]. split; [reflexivity|]. split; [reflexivity|].
  destruct (Js.truthy (Js.trim (newVoucherDescription f))) eqn:Ed,
    (Js.truthy (Js.trim (newVoucherCta f))) eqn:Ec;
    repeat split; solve [assumption | reflexivity | intros; discriminate].
Qed.

(** X15.  Deleting a custom voucher removes every voucher with that id
    and keeps the others in their order; deleting again changes
    nothing. *)
Theorem deleting_a_custom_voucher (id : string) (s : State) :
  let s' := (deleteCustomVoucher id s).2 in
  customVouchers s' `sublist_of` customVouchers s
  ∧ (∀ v, List.In v (customVouchers s')
          ↔ List.In v (customVouchers s) ∧ c_id v ≠ id)
  ∧ customVouchers (deleteCustomVoucher id s').2 = customVouchers s'.
Proof.
  cbv zeta. unfold deleteCustomVoucher, bind, modify. simpl.
  split; [apply filter_sublist|]. split.
  - intros v. rewrite List.filter_In. rewrite negb_true_iff.
    rewrite bool_decide_eq_false. reflexivity.
  - rewrite filter_filter. apply List.filter_ext. intros v.
    destruct (negb _); reflexivity.
Qed.

(** X16.  Saving an edit.  Without a voucher under edit, or with a code
    that is empty or only white space, nothing happens.  Otherwise the
    form is reset and the list keeps its length, its order and its ids:
    every voucher with the id of the edited one keeps its id and takes
    the fields of the form, that is the trimmed code, the merchant, and
    the trimmed description and call to action, or their default texts
    when these are empty; every other voucher is left as it is. *)
Theorem updating_a_custom_voucher (f : Form) (s : State) :
  let typed := Js.trim (newVoucherCode f) in
  match editingVoucher f with
  | Some editing =>
      if Js.truthy typed then
        (updateCustomVoucher f s).1 = resetForm
        ∧ c_id <$> customVouchers (updateCustomVoucher f s).2
          = c_id <$> customVouchers s
        ∧ Forall2
            (fun before after =>
               if bool_decide (c_id before = c_id editing)
               then c_id after = c_id before
                    ∧ c_code after = typed
                    ∧ c_merchantName after = Some (newVoucherMerchant f)
                    ∧ c_description after =
                        (if Js.truthy (Js.trim (newVoucherDescription f))
                         then Js.trim (newVoucherDescription f)
                         else "Custom voucher")
                    ∧ c_cta after =
                        (if Js.truthy (Js.trim (newVoucherCta f))
                         then Js.trim (newVoucherCta f)
                         else "Use this code")
                    ∧ Js.truthy (c_description after) = true
                    ∧ Js.truthy (c_cta after) = true
               else after = before)
            (customVouchers s)
            (customVouchers (updateCustomVoucher f s).2)
      else updateCustomVoucher f s = (f, s)
  | None => updateCustomVoucher f s = (f, s)
  end.
Proof.
  cbv zeta. unfold updateCustomVoucher.
  destruct (editingVoucher f) as [editing|]; [|reflexivity].
  destruct (Js.truthy (Js.trim (newVoucherCode f))) eqn:E; simpl;
    [|reflexivity].
  unfold bind, modify. simpl.
  split; [reflexivity|].
  induction (customVouchers s) as [|v l [IH1 IH2]]; simpl.
  - split; [reflexivity|constructor].
  - split.
    + f_equal; [case_bool_decide; reflexivity|exact IH1].
    + constructor; [|exact IH2].
      case_bool_decide; [|reflexivity]. simpl.
      split; [reflexivity|]. split; [reflexivity|]. split; [reflexivity|].
      destruct (Js.truthy (Js.trim (newVoucherDescription f))) eqn:Ed,
        (Js.truthy (Js.trim (newVoucherCta f))) eqn:Ec;
        repeat split; solve [reflexivity | exact Ed | exact Ec].
Qed.

(** X17.  The custom vouchers are stored with every change: after an
    addition, a saved edit or a deletion that took effect, a reload gives
    the list that is in memory, from whatever list.  A reload without a
    stored list, or with a stored text that does not decode, leaves the
    list in memory as it is. *)
Theorem custom_vouchers_are_stored (f : Form) (id : string) (s : State) :
  (∀ l0,
     Js.truthy (Js.trim (newVoucherCode f)) = true →
     customVouchers
       (loadCustomVouchers (with_customVouchers l0 (addCustomVoucher f s).2)).2
     = customVouchers (addCustomVoucher f s).2)
  ∧ (∀ l0,
     Js.truthy (Js.trim (newVoucherCode f)) = true →
     is_Some (editingVoucher f) →
     customVouchers
       (loadCustomVouchers
          (with_customVouchers l0 (updateCustomVoucher f s).2)).2
     = customVouchers (updateCustomVoucher f s).2)
  ∧ (∀ l0,
     customVouchers
       (loadCustomVouchers
          (with_customVouchers l0 (deleteCustomVoucher id s).2)).2
     = customVouchers (deleteCustomVoucher id s).2)
  ∧ (localStorage s !! CUSTOM_VOUCHERS_KEY = None →
     loadCustomVouchers s = (tt, s))
  ∧ (∀ text, localStorage s !! CUSTOM_VOUCHERS_KEY = Some text →
             JSON_parse (A := list CustomVoucher) text = None →
             loadCustomVouchers s = (tt, s)).
Proof.
  split; [|split; [|split; [|split]]].
  - intros l0 E. apply load_custom_stored.
    unfold addCustomVoucher. rewrite E. simpl.
    unfold bind, Date_now, modify. simpl. apply lookup_insert_eq.
  - intros l0 E [editing He]. apply load_custom_stored.
    unfold updateCustomVoucher. rewrite He, E. simpl.
    unfold bind, modify. simpl. apply lookup_insert_eq.
  - intros l0. apply load_custom_stored.
    unfold deleteCustomVoucher, bind, modify. simpl.
    apply lookup_insert_eq.
  - intros H. unfold loadCustomVouchers, bind, getItem, gets.
    rewrite H. reflexivity.
  - intros text H Hp. unfold loadCustomVouchers, bind, getItem, gets.
    rewrite H. simpl. rewrite Hp. destruct (Js.truthy text); reflexivity.
Qed.

End StoredOverlays.

(** ** Extraction *)

Section ExtractionFacts.
Import Display.

Context `{!JSON (list string)} `{!JSON (gmap string bool)}.

Lemma extract_voucher_id (targetUrl : string) (k : nat)
    (el : Iprice.VoucherElement) (a : Iprice.DiscountArticle) :
  Iprice.extract_voucher targetUrl k el = Some a →
  Iprice.a_id a = "voucher-" ++ site targetUrl ++ "-" ++ pretty k
  ∧ Js.truthy_opt (Iprice.a_couponCode a) = true
  ∧ Iprice.a_couponCode a = Iprice.e_clipboard el
  ∧ Iprice.a_merchantName a =
      Some (if Js.includes targetUrl "grabfood" then "GrabFood"
            else "FoodPanda").
Proof.
  unfold Iprice.extract_voucher, site. intros H.
  destruct (Iprice.e_clipboard el) as [c|]; simpl in H; [|discriminate].
  destruct (Js.truthy c) eqn:E; simpl in H; [|discriminate].
  rewrite E in H. injection H as <-. simpl. rewrite E. repeat split.
Qed.

Lemma site_cases (targetUrl : string) :
  site targetUrl = "grabfood" ∨ site targetUrl = "foodpanda".
Proof. unfold site. destruct (Js.includes _ _); auto. Qed.

Lemma voucher_id_inj (u u' : string) (k k' : nat) :
  "voucher-" ++ site u ++ "-" ++ pretty k
  = "voucher-" ++ site u' ++ "-" ++ pretty k' →
  site u = site u' ∧ k = k'.
Proof.
  intros H. apply (inj (String.app "voucher-")) in H.
  destruct (site_cases u) as [Hu|Hu], (site_cases u') as [Hu'|Hu'];
    rewrite Hu, Hu' in *; try (simpl in H; discriminate).
  - apply (inj (String.app "grabfood")), (inj (String.app "-")) in H.
    split; [reflexivity|]. apply (inj pretty), H.
  - apply (inj (String.app "foodpanda")), (inj (String.app "-")) in H.
    split; [reflexivity|]. apply (inj pretty), H.
Qed.

Lemma elem_of_extract_page (targetUrl : string)
    (els : list Iprice.VoucherElement) (a : Iprice.DiscountArticle) :
  a ∈ Iprice.extract_page targetUrl els →
  ∃ k el, els !! k = Some el
          ∧ Iprice.extract_voucher targetUrl k el = Some a.
Proof.
  unfold Iprice.extract_page. intros H.
  apply list_elem_of_omap in H as (o & Ho & Hid). simpl in Hid. subst o.
  apply elem_of_lookup_imap_1 in Ho as (k & el & Heq & Hl).
  exists k, el. split; [exact Hl|]. symmetry. exact Heq.
Qed.

Lemma nodup_omap_imap {A} (f : nat → A → option Iprice.DiscountArticle)
    (l : list A) :
  (∀ i j x y a b, f i x = Some a → f j y = Some b →
                  Iprice.a_id a = Iprice.a_id b → i = j) →
  NoDup (Iprice.a_id <$> omap id (imap f l)).
Proof.
  revert f. induction l as [|x l IH]; intros f Hinj; [constructor|].
  rewrite imap_cons. simpl.
  assert (Hrest : NoDup (Iprice.a_id <$> omap id (imap (f ∘ S) l))).
  { apply IH. intros i j x' y a b Ha Hb Hab.
    apply (Hinj (S i) (S j) x' y a b Ha Hb) in Hab. lia. }
  destruct (f 0%nat x) as [a|] eqn:Ha; simpl; [|exact Hrest].
  constructor; [|exact Hrest].
  intros Hin. apply list_elem_of_fmap in Hin as (b & Hab & Hb).
  apply list_elem_of_omap in Hb as (o & Ho & Hid). simpl in Hid. subst o.
  apply elem_of_lookup_imap_1 in Ho as (j & y & Heq & _).
  simpl in Heq. symmetry in Heq.
  pose proof (Hinj 0%nat (S j) x y a b Ha Heq Hab). lia.
Qed.

Lemma omap_no_longer {A B} (f : A → option B) (l : list A) :
  (length (omap f l) ≤ length l)%nat.
Proof.
  induction l as [|x l IH]; simpl; [lia|].
  change (list_omap A B f l) with (omap f l).
  destruct (f x); simpl; lia.
Qed.

Lemma extract_page_nodup (targetUrl : string)
    (els : list Iprice.VoucherElement) :
  NoDup (Iprice.a_id <$> Iprice.extract_page targetUrl els).
Proof.
  apply nodup_omap_imap. intros i j x y a b Ha Hb Hab.
  apply extract_voucher_id in Ha as (Ha & _).
  apply extract_voucher_id in Hb as (Hb & _).
  rewrite Ha, Hb in Hab. apply voucher_id_inj in Hab. tauto.
Qed.

Lemma iprice_fetch_pages_result (hard : bool) (s : Iprice.State) :
  let u1 := "https://iprice.ph/?s=grabfood" in
  let u2 := "https://iprice.ph/?s=foodpanda" in
  let r1 := Iprice.network s (length (Iprice.trace s)) u1 in
  let r2 := Iprice.network s (S (length (Iprice.trace s))) u2 in
  (Iprice.fetch_pages hard Iprice.targetUrls [] s).1 =
    match r1, r2 with
    | Iprice.NetworkError message, _ => inl message
    | Iprice.Http _ _, Iprice.NetworkError message => inl message
    | Iprice.Http _ _, Iprice.Http _ _ =>
        inr (iprice_page_articles u1 r1 ++ iprice_page_articles u2 r2)%list
    end.
Proof.
  cbv zeta. unfold Iprice.targetUrls. simpl.
  unfold Iprice.bind, Iprice.fetch.
  destruct (Iprice.network s (length (Iprice.trace s)) _) as [m1|st1 e1];
    [reflexivity|].
  unfold iprice_page_articles.
  assert (Hlen : ∀ e, length (Iprice.trace s ++ [e])
                      = S (length (Iprice.trace s))).
  { intros e. rewrite length_app. simpl. lia. }
  destruct (Iprice.ok st1) eqn:E1; simpl; rewrite Hlen;
    (destruct (Iprice.network s (S (length (Iprice.trace s))) _)
       as [m2|st2 e2]; [reflexivity|]);
    destruct (Iprice.ok st2) eqn:E2; simpl; rewrite ?app_nil_r;
    reflexivity.
Qed.

(** X18.  The ids the attribute page makes up are unique.  On one list
    page no two records share an id, every record carries the non-empty
    code of its element and the merchant of its page, and there are at
    most as many records as elements; and when the two list pages are
    read without an exception, no two articles of the cycle share an
    id. *)
Theorem iprice_ids_are_unique (hard : bool) (s : Iprice.State) :
  (∀ targetUrl els,
     NoDup (Iprice.a_id <$> Iprice.extract_page targetUrl els)
     ∧ (length (Iprice.extract_page targetUrl els) ≤ length els)%nat
     ∧ Forall
         (fun a =>
            Js.truthy_opt (Iprice.a_couponCode a) = true
            ∧ Iprice.a_merchantName a =
                Some (if Js.includes targetUrl "grabfood" then "GrabFood"
                      else "FoodPanda"))
         (Iprice.extract_page targetUrl els))
  ∧ match (Iprice.fetch_pages hard Iprice.targetUrls [] s).1 with
    | inl _ => True
    | inr extractedArticles => NoDup (Iprice.a_id <$> extractedArticles)
    end.
Proof.
  split.
  - intros targetUrl els. split; [apply extract_page_nodup|]. split.
    + unfold Iprice.extract_page.
      etransitivity; [apply omap_no_longer|]. rewrite length_imap. lia.
    + apply Forall_forall. intros a Ha.
      apply elem_of_extract_page in Ha as (k & el & _ & Ha).
      apply extract_voucher_id in Ha. tauto.
  - pose proof (iprice_fetch_pages_result hard s) as Hr. cbv zeta in Hr.
    rewrite Hr. clear Hr.
    destruct (Iprice.network s (length (Iprice.trace s)) _) as [m1|st1 e1];
      [exact I|].
    destruct (Iprice.network s (S (length (Iprice.trace s))) _)
      as [m2|st2 e2]; [exact I|].
    rewrite fmap_app. apply NoDup_app.
    assert (Hnd : ∀ u r, NoDup (Iprice.a_id <$> iprice_page_articles u r)).
    { intros u [m|st e]; simpl; [constructor|].
      destruct (Iprice.ok st); [apply extract_page_nodup|constructor]. }
    split; [apply Hnd|]. split; [|apply Hnd].
    intros x Hx Hx'.
    apply list_elem_of_fmap in Hx as (a & -> & Ha).
    apply list_elem_of_fmap in Hx' as (b & Hab & Hb).
    simpl in Ha, Hb.
    destruct (Iprice.ok st1); [|inversion Ha].
    destruct (Iprice.ok st2); [|inversion Hb].
    apply elem_of_extract_page in Ha as (k & el & _ & Ha).
    apply elem_of_extract_page in Hb as (k' & el' & _ & Hb).
    apply extract_voucher_id in Ha as (Ha & _).
    apply extract_voucher_id in Hb as (Hb & _).
    rewrite Ha, Hb in Hab. apply voucher_id_inj in Hab as [Hsite _].
    vm_compute in Hsite. discriminate.
Qed.

Lemma iprice_fetch_pages_fields (hard : bool) (urls : list string)
    (acc : list Iprice.DiscountArticle) (s : Iprice.State) :
  let q := (Iprice.fetch_pages hard urls acc s).2 in
  Iprice.customVouchers q = Iprice.customVouchers s
  ∧ Iprice.discountArticles q = Iprice.discountArticles s
  ∧ Iprice.hiddenVouchers q = Iprice.hiddenVouchers s
  ∧ Iprice.hiddenCategories q = Iprice.hiddenCategories s
  ∧ Iprice.localStorage q = Iprice.localStorage s
  ∧ Iprice.error q = Iprice.error s.
Proof.
  revert acc s. induction urls as [|u urls IH]; intros acc s; cbv zeta;
    [repeat split|].
  simpl. unfold Iprice.bind, Iprice.fetch.
  destruct (Iprice.network s (length (Iprice.trace s)) u)
    as [msg|status els]; [repeat split|].
  destruct (Iprice.ok status); simpl;
    match goal with
    | |- context [Iprice.fetch_pages hard urls ?a ?q] =>
        destruct (IH a q) as (H1 & H2 & H3 & H4 & H5 & H6);
        rewrite H1, H2, H3, H4, H5, H6
    end; repeat split.
Qed.

Lemma iprice_refresh_run (hard : bool) (s : Iprice.State) :
  let u1 := "https://iprice.ph/?s=grabfood" in
  let u2 := "https://iprice.ph/?s=foodpanda" in
  let r1 := Iprice.network s (length (Iprice.trace s)) u1 in
  let r2 := Iprice.network s (S (length (Iprice.trace s))) u2 in
  let s' := (Iprice.fetchGrabFoodVouchers hard s).2 in
  Iprice.isLoading s' = false
  ∧ Iprice.hiddenCategories s' = Iprice.hiddenCategories s
  ∧ Iprice.customVouchers s' = Iprice.customVouchers s
  ∧ (if hard then True
     else Iprice.hiddenVouchers s' = Iprice.hiddenVouchers s
          ∧ Iprice.localStorage s' = Iprice.localStorage s)
  ∧ match r1, r2 with
    | Iprice.NetworkError message, _
    | Iprice.Http _ _, Iprice.NetworkError message =>
        Iprice.error s' = Some message
        ∧ Iprice.discountArticles s' = Iprice.discountArticles s
    | Iprice.Http _ _, Iprice.Http _ _ =>
        Iprice.error s' = None
        ∧ Iprice.discountArticles s' =
            (iprice_page_articles u1 r1 ++ iprice_page_articles u2 r2)%list
    end.
Proof.
  cbv zeta.
  unfold Iprice.fetchGrabFoodVouchers, Iprice.bind, Iprice.removeItem,
    Iprice.modify, Iprice.ret.
  destruct hard; cbv beta iota;
    match goal with
    | |- context [Iprice.fetch_pages ?h Iprice.targetUrls [] ?q] =>
        pose proof (iprice_fetch_pages_result h q) as Hres;
        destruct (iprice_fetch_pages_fields h Iprice.targetUrls [] q)
          as (H1 & H2 & H3 & H4 & H5 & H6);
        cbv zeta in Hres;
        destruct (Iprice.fetch_pages h Iprice.targetUrls [] q)
          as [[m|arts] q']
    end; simpl in *;
    destruct (Iprice.network s (length (Iprice.trace s)) _) as [m1|st1 e1];
    try destruct (Iprice.network s (S (length (Iprice.trace s))) _)
      as [m2|st2 e2];
    simplify_eq; repeat split; congruence.
Qed.

(** X19.  How a refresh of the attribute page ends.  The loading flag
    is off, and the category visibility and the custom vouchers are as
    before; a refresh that is not a hard one also leaves the hidden codes
    and the store as they are.  When a list page request is rejected the
    message is shown and the vouchers of the previous cycle stay;
    otherwise no error is shown and the vouchers are those of the two
    pages in order, a page with a status outside 2xx giving none. *)
Theorem iprice_refresh_outcome (hard : bool) (s : Iprice.State) :
  let u1 := "https://iprice.ph/?s=grabfood" in
  let u2 := "https://iprice.ph/?s=foodpanda" in
  let r1 := Iprice.network s (length (Iprice.trace s)) u1 in
  let r2 := Iprice.network s (S (length (Iprice.trace s))) u2 in
  let s' := (Iprice.fetchGrabFoodVouchers hard s).2 in
  Iprice.isLoading s' = false
  ∧ Iprice.hiddenCategories s' = Iprice.hiddenCategories s
  ∧ Iprice.customVouchers s' = Iprice.customVouchers s
  ∧ (if hard then True
     else Iprice.hiddenVouchers s' = Iprice.hiddenVouchers s
          ∧ Iprice.localStorage s' = Iprice.localStorage s)
  ∧ match r1, r2 with
    | Iprice.NetworkError message, _
    | Iprice.Http _ _, Iprice.NetworkError message =>
        Iprice.error s' = Some message
        ∧ Iprice.discountArticles s' = Iprice.discountArticles s
    | Iprice.Http _ _, Iprice.Http _ _ =>
        Iprice.error s' = None
        ∧ Iprice.discountArticles s' =
            (iprice_page_articles u1 r1 ++ iprice_page_articles u2 r2)%list
    end.
Proof.
  cbv zeta.
  unfold Iprice.fetchGrabFoodVouchers, Iprice.bind, Iprice.removeItem,
    Iprice.modify, Iprice.ret.
  destruct hard; cbv beta iota;
    match goal with
    | |- context [Iprice.fetch_pages ?h Iprice.targetUrls [] ?q] =>
        pose proof (iprice_fetch_pages_result h q) as Hres;
        destruct (iprice_fetch_pages_fields h Iprice.targetUrls [] q)
          as (H1 & H2 & H3 & H4 & H5 & H6);
        cbv zeta in Hres;
        destruct (Iprice.fetch_pages h Iprice.targetUrls [] q)
          as [[m|arts] q']
    end; simpl in *;
    destruct (Iprice.network s (length (Iprice.trace s)) _) as [m1|st1 e1];
    try destruct (Iprice.network s (S (length (Iprice.trace s))) _)
      as [m2|st2 e2];
    simplify_eq; repeat split; congruence.
Qed.

(** *** The articles of the detail-fetch page *)

Lemma strip_idempotent (x : string) :
  Js.strip_non_alnum (Js.strip_non_alnum x) = Js.strip_non_alnum x.
Proof.
  induction x as [|a x IH]; simpl; [reflexivity|].
  destruct (Js.is_alnum a) eqn:E; simpl; [rewrite E, IH|]; auto.
Qed.

Lemma or_else_truthy (o : option string) (d : string) :
  Js.truthy d = true → Js.truthy (Js.or_else o d) = true.
Proof.
  intros Hd. unfold Js.or_else. destruct o as [x|]; [|exact Hd].
  destruct (Js.truthy x) eqn:E; [exact E|exact Hd].
Qed.

(** X20.  What an article element becomes.  An element whose id has an
    alphanumeric character gives an article whose id is that id without
    its other characters, so it is not empty and made of letters and
    digits only; the article has a title, a content and a call to
    action that are never empty (a placeholder stands in), and no code
    and no merchant yet.  An element whose id is missing or has no
    alphanumeric character gives no article. *)
Theorem article_elements_get_clean_ids (el : Philstar.ArticleElement) :
  match Philstar.extract_article el with
  | Some a =>
      Philstar.a_id a
        = Js.strip_non_alnum (Js.or_else (Philstar.e_id el) "")
      ∧ Js.truthy (Philstar.a_id a) = true
      ∧ Js.strip_non_alnum (Philstar.a_id a) = Philstar.a_id a
      ∧ Philstar.a_dataType a = "code"
      ∧ Js.truthy_opt (Philstar.a_title a) = true
      ∧ Js.truthy_opt (Philstar.a_content a) = true
      ∧ Js.truthy_opt (Philstar.a_cta a) = true
      ∧ Philstar.a_couponCode a = None
      ∧ Philstar.a_merchantName a = None
  | None => Js.strip_non_alnum (Js.or_else (Philstar.e_id el) "") = ""
  end.
Proof.
  unfold Philstar.extract_article.
  destruct (Js.truthy (Js.strip_non_alnum (Js.or_else (Philstar.e_id el) "")))
    eqn:E; simpl.
  - split; [reflexivity|]. split; [exact E|].
    split; [apply strip_idempotent|]. split; [reflexivity|].
    repeat split; apply or_else_truthy; reflexivity.
  - destruct (Js.strip_non_alnum _); [reflexivity|discriminate].
Qed.

End ExtractionFacts.

Section DetailRecordFacts.
Import Philstar Cache Detail.

Context `{!JSON CachedVoucherData} `{!JSON (gmap string bool)}.

(** X21.  What a detail fetch brings from the network.  The record has
    a headline, a description and a merchant name that are never empty,
    and a call to action; its code, when it has one, is made of letters
    and digits only and is not an excluded code.  The record is also
    what the cache holds for the article afterwards. *)
Theorem fetched_record_is_well_formed (i : string) (s : State)
    (r : VoucherData) :
  live s i = None →
  (fetchVoucherCode i s).1 = Some r →
  Js.truthy_opt (headline r) = true
  ∧ Js.truthy_opt (description r) = true
  ∧ Js.truthy_opt (merchantName r) = true
  ∧ is_Some (cta r)
  ∧ match code r with
    | Some k => Js.strip_non_alnum k = k ∧ shouldExcludeCode k = false
    | None => True
    end
  ∧ data <$> entry (fetchVoucherCode i s).2 i = Some r.
Proof.
  intros Hmiss Hr.
  pose proof (fetchVoucherCode_miss i s Hmiss) as Hm. cbv zeta in Hm.
  rewrite Hm in Hr |- *.
  destruct (outcome (answer s i)) as [r'|] eqn:Hout; simpl in Hr;
    [|discriminate].
  injection Hr as ->. simpl.
  assert (Hrec : ∃ c d, r = record c d).
  { unfold outcome in Hout.
    destruct (answer s i) as [m|st body]; [discriminate|].
    destruct (ok st); [|discriminate].
    destruct (json body) as [| |d]; try discriminate.
    destruct (d_cta d ≫= combinedCta) as [c|]; [|discriminate].
    destruct (d_code d); try discriminate; injection Hout as <-; eauto. }
  destruct Hrec as (c & d & ->).
  split; [apply or_else_truthy; reflexivity|].
  split; [apply or_else_truthy; reflexivity|].
  split; [apply or_else_truthy; reflexivity|].
  split; [eexists; reflexivity|].
  split.
  - pose proof (clean_code_not_excluded d) as Hex.
    simpl. unfold clean_code in *.
    destruct (d_code d) as [|raw|]; try exact I.
    destruct (Js.truthy raw); [|exact I].
    destruct (shouldExcludeCode (Js.strip_non_alnum raw)); [exact I|].
    split; [apply strip_idempotent|exact Hex].
  - match goal with
    | |- context [setCachedVoucherData i ?r ?q] =>
        destruct (write_entry i r q) as [He _]
    end.
    cbv zeta in He. rewrite He. reflexivity.
Qed.

End DetailRecordFacts.

(** ** The forced refresh of the two pages *)

Section ForcedRefreshFacts.
Import Philstar Cache Detail Refresh Frame Display.

Context `{!JSON CachedVoucherData} `{!JSON (gmap string bool)}
        `{!JSON (list string)}.

(** C4, as the code has it.  On the detail-fetch page a forced refresh
    is the ordinary refresh cycle run from the purged state.  In that
    state no key of the store starts with the cache prefix, so no
    article has a cache entry, hidden or not; the map of hidden
    categories is empty and its stored copy is gone; every other key of
    the store is as before and nothing has been requested.  The cycle
    that follows requests the first list page, and the second one unless
    the first request is rejected; a rejected request ends the cycle
    with its message.  Otherwise every extracted article is looked up in
    the emptied cache: the detail requests, each followed by the wait,
    are those of a subsequence of the articles, and of all of them, in
    order, when their ids are distinct.  The map of hidden categories is
    still empty at the end.

    On the attribute page the hard refresh has no cache to purge: it
    empties the list of hidden codes and removes its stored copy, leaves
    the store otherwise and the category visibility as they are, and
    reads the two list pages. *)
Theorem forced_refresh_purges_then_refetches (s : State) (t : Iprice.State) :
  let p := (purge s).2 in
  let s' := (forceRefresh s).2 in
  let u1 := "https://www.philstar.com/coupons/grabfood" in
  let u2 := "https://www.philstar.com/coupons/foodpanda" in
  let r1 := network s (length (trace s)) u1 in
  let r2 := network s (S (length (trace s))) u2 in
  let v1 := "https://iprice.ph/?s=grabfood" in
  let v2 := "https://iprice.ph/?s=foodpanda" in
  let a1 := Iprice.network t (length (Iprice.trace t)) v1 in
  let a2 := Iprice.network t (S (length (Iprice.trace t))) v2 in
  let t' := (Iprice.fetchGrabFoodVouchers true t).2 in
  (cache_entries (localStorage p) = ∅
   ∧ (∀ i, entry p i = None)
   ∧ hiddenCategories p = ∅
   ∧ localStorage p !! CATEGORY_VISIBILITY_KEY = None
   ∧ (∀ key, Js.startsWith key CACHE_KEY = false →
             key ≠ CATEGORY_VISIBILITY_KEY →
             localStorage p !! key = localStorage s !! key)
   ∧ trace p = trace s)
  ∧ (forceRefresh s = fetchGrabFoodVouchers p
     ∧ isLoading s' = false
     ∧ hiddenCategories s' = ∅
     ∧ match r1, r2 with
       | NetworkError message, _ =>
           error s' = Some message
           ∧ trace s' = (trace s ++ [Fetch u1])%list
       | Http _ _, NetworkError message =>
           error s' = Some message
           ∧ trace s' = (trace s ++ [Fetch u1; Fetch u2])%list
       | Http _ _, Http _ _ =>
           let extractedArticles :=
             (page_articles r1 ++ page_articles r2)%list in
           error s' = None
           ∧ articleIds s' = a_id <$> extractedArticles
           ∧ (∃ misses,
                misses `sublist_of` (a_id <$> extractedArticles)
                ∧ trace s' =
                    (trace s ++ [Fetch u1; Fetch u2]
                     ++ flat_map miss_events misses)%list)
           ∧ (NoDup (a_id <$> extractedArticles) →
              trace s' =
                (trace s ++ [Fetch u1; Fetch u2]
                 ++ flat_map miss_events (a_id <$> extractedArticles))%list)
       end)
  ∧ (Iprice.hiddenVouchers t' = []
     ∧ Iprice.localStorage t'
       = delete "hidden-vouchers" (Iprice.localStorage t)
     ∧ Iprice.hiddenCategories t' = Iprice.hiddenCategories t
     ∧ Iprice.isLoading t' = false
     ∧ match a1, a2 with
       | Iprice.NetworkError message, _
       | Iprice.Http _ _, Iprice.NetworkError message =>
           Iprice.error t' = Some message
           ∧ Iprice.discountArticles t' = Iprice.discountArticles t
       | Iprice.Http _ _, Iprice.Http _ _ =>
           Iprice.error t' = None
           ∧ Iprice.discountArticles t' =
               (iprice_page_articles v1 a1 ++ iprice_page_articles v2 a2)%list
       end).
Proof.
  cbv zeta. split; [|split].
  - split.
    { apply map_eq. intros key. rewrite lookup_empty.
      apply map_lookup_filter_None_2.
      destruct (Js.startsWith key CACHE_KEY) eqn:Hk.
      - left. apply purge_no_cache_key, Hk.
      - right. intros x _. simpl. congruence. }
    split; [apply purge_no_entry|].
    split; [reflexivity|].
    split; [apply lookup_delete_eq|].
    split; [apply purge_other_keys|reflexivity].
  - split; [reflexivity|].
    change (forceRefresh s) with (fetchGrabFoodVouchers (purge s).2).
    destruct (refresh_cycle_keeps_overlays_aux (purge s).2) as [Ho _].
    split.
    { rewrite fetchGrabFoodVouchers_run.
      destruct (fetch_pages targetUrls [] [] (started (purge s).2))
        as [[m|[arts ids]] q]; reflexivity. }
    split.
    { unfold overlays in Ho. injection Ho as _ Hc _. exact Hc. }
    clear Ho. rewrite fetchGrabFoodVouchers_run.
    pose proof (fetch_pages_two (started (purge s).2)) as [Hres Htr].
    cbv zeta in Hres, Htr.
    pose proof (fetch_pages_storage targetUrls [] [] (started (purge s).2))
      as Hstore.
    destruct (fetch_pages_rest targetUrls [] [] (started (purge s).2))
      as [Hrest _].
    change (network (started (purge s).2)) with (network s) in Hres, Htr.
    change (trace (started (purge s).2)) with (trace s) in Hres, Htr.
    destruct (fetch_pages targetUrls [] [] (started (purge s).2))
      as [pages q].
    simpl in Hres, Htr, Hstore, Hrest. subst pages.
    destruct (network s (length (trace s)) _) as [m1|st1 b1];
      [split; [reflexivity|exact Htr]|].
    destruct (network s (S (length (trace s))) _) as [m2|st2 b2];
      [split; [reflexivity|exact Htr]|].
    cbv beta iota.
    set (arts := (page_articles (Http st1 b1)
                  ++ page_articles (Http st2 b2))%list) in *.
    match goal with
    | |- context [resolve_details 0 arts ?q'] =>
        destruct (resolve_details_frame arts 0 q') as (_ & Hi & He & _);
        pose proof (resolve_details_trace 0 arts q') as Hsub;
        pose proof (resolve_details_cold arts 0 q') as Hcold;
        destruct (resolve_details 0 arts q') as [[] s3]
    end.
    simpl in *. unfold rest in Hrest. injection Hrest as.
    split; [congruence|]. split; [exact Hi|].
    split.
    + destruct Hsub as (misses & Hm & Ht). exists misses.
      split; [exact Hm|]. rewrite Ht, Htr, <- app_assoc. reflexivity.
    + intros Hnd. rewrite Hcold, Htr, <- ?app_assoc; [reflexivity|exact Hnd|].
      intros a _. unfold entry. simpl. rewrite Hstore.
      apply purge_no_entry.
  - destruct (iprice_hard_refresh_clears_hidden_codes t) as (Hh & Hs & Hc).
    destruct (iprice_refresh_run true t) as (Hl & _ & _ & _ & Hout).
    split; [exact Hh|]. split; [exact Hs|]. split; [exact Hc|].
    split; [exact Hl|exact Hout].
Qed.

End ForcedRefreshFacts.

(** ** The forced refresh, the loop and the dialog on concrete states *)

Section ForcedRefreshExamples.
Import Philstar Cache Detail Refresh Examples.

(** C4 as stated fails on the attribute page: the hard refresh empties
    the list of hidden codes, and the category [grabfood] that was
    hidden before is hidden afterwards, in memory and in the store. *)
Lemma hard_refresh_keeps_hidden_categories :
  let t := IpriceExamples.overlaid in
  let t' := (Iprice.fetchGrabFoodVouchers true t).2 in
  Iprice.hiddenCategories t = {["grabfood" := true]}
  ∧ Iprice.hiddenVouchers t = ["SAVE10"]
  ∧ Iprice.hiddenVouchers t' = []
  ∧ Iprice.hiddenCategories t' = {["grabfood" := true]}
  ∧ Iprice.localStorage t' !! Iprice.CATEGORY_VISIBILITY_KEY
    = Iprice.localStorage t !! Iprice.CATEGORY_VISIBILITY_KEY
  ∧ Js.flag (Iprice.hiddenCategories t') "grabfood" = true.
Proof. repeat split; vm_compute; reflexivity. Qed.

(** The scenario of the forced refresh: five cache entries, three of
    them hidden, and [grabfood] hidden.  After the purge there is no
    cache entry and no hidden category, and the cycle requests the two
    list pages and then the two listed articles, although both had an
    unexpired entry before. *)
Lemma forced_refresh_scenario :
  let s := five_entries_on two_articles in
  size (cache_entries (localStorage s)) = 5%nat
  ∧ (fun i => hidden <$> entry s i) <$> ["a1"; "a2"; "a3"; "a4"; "a5"]
    = [Some (Some true); Some (Some true); Some (Some true);
       Some (Some false); Some (Some false)]
  ∧ hiddenCategories s = {["grabfood" := true]}
  ∧ cache_entries (localStorage (purge s).2) = ∅
  ∧ hiddenCategories (purge s).2 = ∅
  ∧ localStorage (purge s).2 = {[CUSTOM_VOUCHERS_KEY := "[]"]}
  ∧ hiddenCategories (forceRefresh s).2 = ∅
  ∧ trace (forceRefresh s).2 =
      [Fetch "https://www.philstar.com/coupons/grabfood";
       Fetch "https://www.philstar.com/coupons/foodpanda";
       Fetch (detail_url "a1"); Wait 500;
       Fetch (detail_url "a2"); Wait 500].
Proof.
  pose proof (forced_refresh_purges_then_refetches
                (five_entries_on two_articles) IpriceExamples.overlaid)
    as ((Hnone & _ & Hcat & _) & (_ & _ & Hend & Hcycle) & _).
  cbv zeta in Hcycle.
  assert (H1 : network (five_entries_on two_articles)
                 (length (trace (five_entries_on two_articles)))
                 "https://www.philstar.com/coupons/grabfood"
               = Http 200 {| articles := [element "a1"; element "a2"];
                             json := Malformed |}) by reflexivity.
  assert (H2 : network (five_entries_on two_articles)
                 (S (length (trace (five_entries_on two_articles))))
                 "https://www.philstar.com/coupons/foodpanda"
               = Http 200 {| articles := []; json := Malformed |})
    by reflexivity.
  rewrite H1, H2 in Hcycle.
  destruct Hcycle as (_ & _ & _ & Htrace).
  split; [vm_compute; reflexivity|].
  split; [vm_compute; reflexivity|].
  split; [reflexivity|].
  split; [exact Hnone|].
  split; [exact Hcat|].
  split; [vm_compute; reflexivity|].
  split; [exact Hend|].
  etransitivity; [apply Htrace|vm_compute; reflexivity].
  apply (bool_decide_unpack _). vm_compute. reflexivity.
Defined.

End ForcedRefreshExamples.

Section LoopExamples.
Import Philstar Cache Detail Examples.

(** C8 as stated fails: the article [a1] has an unexpired entry whose
    code is null, and the turn of the loop uses none of the cached
    fields: the article keeps its own call to action and has no
    headline, description or merchant. *)
Lemma hit_without_code_uses_no_cached_field :
  let s := listed_with no_code in
  let s' := (resolve_article 0 (extracted "a1") s).2 in
  live s "a1" = Some {| data := no_code; expire := 100; hidden := Some false |}
  ∧ trace s' = []
  ∧ discountArticles s' = [extracted "a1"]
  ∧ a_cta (extracted "a1") = Some "View Offer"
  ∧ cta no_code = Some "Get 10% off"
  ∧ a_headline (extracted "a1") = None
  ∧ headline no_code = Some "Ten percent"
  ∧ a_merchantName (extracted "a1") = None
  ∧ merchantName no_code = Some "FoodPanda".
Proof. repeat split; vm_compute; reflexivity. Qed.

(** A hit on an entry with a code: the five fields are those of the
    entry, and nothing is sent. *)
Lemma cache_hit_sends_no_request_witness :
  let s := listed_with promo in
  let s' := (resolve_article 0 (extracted "a1") s).2 in
  trace s' = []
  ∧ ∃ a',
      discountArticles s' !! 0%nat = Some a'
      ∧ a_id a' = "a1"
      ∧ a_title a' = Some "No title found"
      ∧ a_couponCode a' = Some "SAVE10"
      ∧ a_cta a' = Some "Get 10% off"
      ∧ a_headline a' = Some "Ten percent"
      ∧ a_description a' = Some "On all orders"
      ∧ a_merchantName a' = Some "GrabFood".
Proof.
  pose proof (proj1 (cache_hit_sends_no_request 0 [] (listed_with promo))
                (extracted "a1") (listed_with promo)) as H.
  cbv zeta in H.
  assert (Hl : live (listed_with promo) (a_id (extracted "a1"))
               = Some {| data := promo; expire := 100;
                         hidden := Some false |})
    by (vm_compute; reflexivity).
  rewrite Hl in H.
  destruct H as (Ht & _ & _ & _ & _ & _ & Hfields & _).
  split; [exact Ht|].
  destruct (Hfields (extracted "a1") eq_refl)
    as (a' & Hlook & Hid & _ & Htitle & _ & Hc & Ha & Hh & Hd & Hm).
  exists a'. repeat split; assumption.
Defined.

(** A null heading is spelled [null] and a missing value [undefined]. *)
Example null_heading_is_spelled_null :
  (fetchVoucherCode "a1"
     (blank (fun _ => 1) (answers null_heading_answer))).1 =
    Some {| code := None; cta := Some "null undefined";
            headline := Some "No headline available";
            description := Some "No description available";
            merchantName := Some "Unknown merchant" |}.
Proof. vm_compute. reflexivity. Qed.

(** A heading that cannot be converted to a string: the detail fetch
    returns null and caches nothing, whatever else the answer holds. *)
Example unconvertible_heading_gives_null :
  let s := blank (fun _ => 1) (answers unconvertible_answer) in
  (fetchVoucherCode "a1" s).1 = None
  ∧ localStorage (fetchVoucherCode "a1" s).2 = ∅
  ∧ trace (fetchVoucherCode "a1" s).2 = [Fetch (detail_url "a1")].
Proof. repeat split; vm_compute; reflexivity. Qed.

End LoopExamples.

Section DialogExamples.
Import Philstar PhilstarStore Examples MoreExamples.

(** A code made of U+00A0 and U+3000 is white space only: nothing is
    added and nothing is edited. *)
Example blank_codes_are_ignored :
  let s := with_customVouchers [mine] (blank (fun _ => 1) offline) in
  Js.trim (newVoucherCode blank_code) = ""
  ∧ customVouchers (addCustomVoucher blank_code s).2 = [mine]
  ∧ (addCustomVoucher blank_code s).1 = blank_code
  ∧ localStorage (addCustomVoucher blank_code s).2 = ∅
  ∧ customVouchers (updateCustomVoucher blank_code s).2 = [mine]
  ∧ (updateCustomVoucher blank_code s).1 = blank_code
  ∧ localStorage (updateCustomVoucher blank_code s).2 = ∅.
Proof. repeat split; vm_compute; reflexivity. Qed.

(** The voucher under edit takes the trimmed fields of the form and
    keeps its id. *)
Example edit_takes_the_trimmed_fields :
  customVouchers
    (updateCustomVoucher retyped
       (with_customVouchers [mine] (blank (fun _ => 1) offline))).2 =
    [{| c_id := "1700000000000"; c_code := "YOURS";
        c_description := "Custom voucher"; c_cta := "Copy";
        c_merchantName := Some "FoodPanda" |}].
Proof. vm_compute. reflexivity. Qed.

Lemma updating_a_custom_voucher_witness :
  let s := with_customVouchers [mine] (blank (fun _ => 1) offline) in
  (updateCustomVoucher retyped s).1 = resetForm
  ∧ c_id <$> customVouchers (updateCustomVoucher retyped s).2
    = ["1700000000000"].
Proof.
  cbv zeta.
  destruct (updating_a_custom_voucher retyped
              (with_customVouchers [mine] (blank (fun _ => 1) offline)))
    as (Hform & Hids & _).
  split; [exact Hform|exact Hids].
Defined.

End DialogExamples.

(** ** The added properties on concrete states *)

Section MoreCacheExamples.
Import Philstar Cache Detail Refresh Frame Examples.

(** A detail fetch of [a2] leaves the entry of [a1] alone. *)
Lemma cache_operations_touch_one_key_witness :
  localStorage (fetchVoucherCode "a2" (fresh_entry None)).2 !! cache_key "a1"
  = localStorage (fresh_entry None) !! cache_key "a1".
Proof.
  apply (cache_operations_touch_one_key "a2" (cache_key "a1") promo
           (fresh_entry None)).
  vm_compute. discriminate.
Defined.

(** The complete answer is fetched once and then served by the cache. *)
Lemma successful_detail_fetch_is_cached_witness :
  let s := blank (fun _ => 1) (answers full_answer) in
  let s1 := (fetchVoucherCode "a1" s).2 in
  (fetchVoucherCode "a1" s).1 = Some promo
  ∧ (fetchVoucherCode "a1" s1).1 = Some promo
  ∧ trace (fetchVoucherCode "a1" s1).2 = trace s1.
Proof.
  apply (successful_detail_fetch_is_cached "a1"
           (blank (fun _ => 1) (answers full_answer)) promo).
  - vm_compute. reflexivity.
  - vm_compute. reflexivity.
  - vm_compute. discriminate.
Defined.

(** With the network down the request is sent at every fetch. *)
Lemma failed_detail_fetch_is_not_cached_witness :
  let s := blank (fun _ => 1) offline in
  let s1 := (fetchVoucherCode "a1" s).2 in
  (fetchVoucherCode "a1" s).1 = None
  ∧ entry s1 "a1" = None
  ∧ trace (fetchVoucherCode "a1" s1).2
      = [Fetch (detail_url "a1"); Fetch (detail_url "a1")].
Proof.
  apply (failed_detail_fetch_is_not_cached "a1" (blank (fun _ => 1) offline)).
  - vm_compute. reflexivity.
  - vm_compute. reflexivity.
Defined.

(** The hidden article [a1] is found again by a reload. *)
Lemma reload_finds_hidden_vouchers_witness :
  "a1" ∈ hiddenVouchers
           (PhilstarStore.loadHiddenVouchers [cache_key "a1"]
              (fresh_entry (Some true))).2.
Proof.
  refine (proj1 (reload_finds_hidden_vouchers [cache_key "a1"]
                   (fresh_entry (Some true)) _) "a1" _ _).
  - constructor; [|constructor].
    intros _ text Hl _. vm_compute in Hl.
    injection Hl as <-. vm_compute. eexists. reflexivity.
  - apply list_elem_of_here.
  - exists {| data := promo; expire := 100; hidden := Some true |}.
    split; vm_compute; reflexivity.
Defined.

(** The stored custom vouchers outlive a refresh cycle. *)
Lemma refresh_cycle_keeps_overlays_witness :
  localStorage (fetchGrabFoodVouchers five_entries).2 !! CUSTOM_VOUCHERS_KEY
  = localStorage five_entries !! CUSTOM_VOUCHERS_KEY.
Proof.
  apply (refresh_cycle_keeps_overlays five_entries).
  vm_compute. reflexivity.
Defined.

(** The cleaned record of the complete answer. *)
Lemma fetched_record_is_well_formed_witness :
  let s := blank (fun _ => 1) (answers full_answer) in
  Js.truthy_opt (headline promo) = true
  ∧ Js.truthy_opt (description promo) = true
  ∧ Js.truthy_opt (merchantName promo) = true
  ∧ is_Some (cta promo)
  ∧ match code promo with
    | Some k => Js.strip_non_alnum k = k ∧ shouldExcludeCode k = false
    | None => True
    end
  ∧ data <$> entry (fetchVoucherCode "a1" s).2 "a1" = Some promo.
Proof.
  apply (fetched_record_is_well_formed "a1"
           (blank (fun _ => 1) (answers full_answer)) promo).
  - vm_compute. reflexivity.
  - vm_compute. reflexivity.
Defined.

End MoreCacheExamples.

Section MoreDisplayExamples.
Import Philstar PhilstarStore Display Examples MoreExamples.

(** With [grabfood] hidden neither the custom nor the scraped grabfood
    voucher is displayed. *)
Lemma hidden_category_is_not_displayed_witness :
  List.Forall
    (fun v =>
       merchant_includes (merchant v) "grabfood" = false
       ∧ merchant_includes (merchant v) "grab" = false)
    (combinedVouchers [mine] one_card {["grabfood" := true]} []).
Proof.
  apply (proj1 (hidden_category_is_not_displayed {["grabfood" := true]} [])).
  vm_compute. reflexivity.
Defined.


(** The name [toString] reads as hidden on a map without an entry for
    it, so its first toggle stores false; no other category is
    touched. *)
Lemma category_visibility_is_stored_witness :
  let s' := (toggleCategoryVisibility "toString" foodpanda_hidden).2 in
  hiddenCategories s' !! "toString" = Some false
  ∧ Js.flag (hiddenCategories s') "toString" = false
  ∧ hiddenCategories s' !! "foodpanda"
    = hiddenCategories foodpanda_hidden !! "foodpanda".
Proof.
  destruct (category_visibility_is_stored "toString" foodpanda_hidden)
    as (_ & _ & _ & H & _).
  destruct H as (Hother & Hside & _); [discriminate|discriminate|].
  destruct Hside as [Hstored Hflag]; [left; discriminate|].
  split; [exact Hstored|]. split; [exact Hflag|].
  apply Hother. discriminate.
Defined.

(** The dialog with a padded code and empty texts gives the trimmed
    code and the default texts. *)
Lemma adding_a_custom_voucher_witness :
  ∃ v,
    customVouchers (addCustomVoucher typed (blank (fun _ => 1) offline)).2
      = [v]
    ∧ c_code v = "MINE"
    ∧ c_id v = "1"
    ∧ c_description v = "Custom voucher"
    ∧ c_cta v = "Use this code".
Proof.
  destruct (adding_a_custom_voucher typed (blank (fun _ => 1) offline))
    as (v & _ & Hl & Hc & Hi & _ & _ & _ & Hd & Ha).
  exists v.
  split; [exact Hl|]. split; [exact Hc|]. split; [exact Hi|].
  split; [apply Hd; reflexivity|apply Ha; reflexivity].
Defined.

(** The added voucher is found again by a reload. *)
Lemma custom_vouchers_are_stored_witness :
  let s' := (addCustomVoucher typed (blank (fun _ => 1) offline)).2 in
  customVouchers (loadCustomVouchers (with_customVouchers [] s')).2
  = customVouchers s'.
Proof.
  apply (proj1 (custom_vouchers_are_stored typed "1"
                  (blank (fun _ => 1) offline))).
  reflexivity.
Defined.

End MoreDisplayExamples.

(** On the attribute page a code that is hidden is stored. *)
Lemma iprice_hiding_removes_the_code_witness :
  let s' :=
    (Iprice.hideVoucher "SAVE10"
       (IpriceExamples.blank IpriceExamples.three_codes)).2 in
  Iprice.hiddenVouchers
    (IpriceStore.loadHiddenVouchers (Iprice.with_hiddenVouchers [] s')).2
  = Iprice.hiddenVouchers s'.
Proof.
  apply (iprice_hiding_removes_the_code "SAVE10"
           (IpriceExamples.blank IpriceExamples.three_codes)).
  apply not_elem_of_nil.
Defined.
